(** * AI portfolio dashboard: data synchronisation and normalisation layer

    A shallow embedding of the dashboard's refresh cycle ([App]'s first
    effect and [fetchDashboardData]), of the bundled sample data
    ([mockData.js]) and of the three record normalizers
    ([normalizeTrade], [normalizeSignal], [normalizePosition]), together
    with the part of the JavaScript runtime they rely on: values as
    [JSON.parse] produces them, IEEE-754 binary64 numbers (Rocq's
    primitive floats), [Number(...)], string conversion, truthiness,
    [??], [||], [?.] and property reads. A conversion to a number or a
    string first converts an object or array to a primitive, which
    throws for an object with a property [toString] of its own: the
    calls that convert are in the exception monad ([Number_call],
    [ToString_call]), next to the values they give when they return
    ([Number], [ToString]).

    - [JS]: the runtime.
    - [MockData]: the sample data, transcribed.
    - [Normalizers]: the three normalizers, in an exception monad.
    - [Dashboard]: the state of [App]; [fetchDashboardData] as a
      statement that writes the store and may return or throw; the
      component as a machine that handles one event at a time (mount, a
      model selected, a timer tick, a cycle whose requests have come
      back, unmount). Time is not measured: a tick may come whenever the
      timer is armed, and a cycle may settle whenever it is in flight.
    - [Spec]: the vocabulary of the statements proved below.
    - [Methods]: what the components call to display a value
      ([toFixed], [Math.round], [toLowerCase], [map], ...), elements, and
      what the host decides (locale and dates).
    - [Components]: [TradesTable], [PositionsTable], [SignalGrid],
      [StatCard], [MetricTile], [TabSwitcher], and the tiles [App]
      derives from the store.
    - [Views]: the vocabulary of the statements about the display, and
      the refresh with the re-render that follows it, which removes the
      component when it throws.

    Strings are byte strings (UTF-8): [toUpperCase] and [toLowerCase]
    change the letters of ASCII only. *)

From Stdlib Require Import ZArith Ascii String List Bool Lia DecimalString.
From Stdlib Require Import PrimFloat FloatOps SpecFloat FloatAxioms.
From stdpp Require Import gmap strings list.

Set Warnings "-inexact-float,-register-all".
#[local] Open Scope string_scope.
#[local] Open Scope Z_scope.

(** ** The JavaScript runtime the program relies on *)

Module JS.

(** Values as they reach the program: the results of [JSON.parse]
    (null, booleans, numbers, strings, arrays, objects) and [undefined],
    which a read of an absent property gives. Strings are sequences of
    bytes (UTF-8); objects are finite maps from property names. *)
Inductive value :=
| VUndefined
| VNull
| VBool (b : bool)
| VNumber (x : float)
| VString (s : string)
| VArray (elems : list value)
| VObject (props : gmap string value).

Inductive exn :=
| TypeError (msg : string)
| FetchError (msg : string)
| SyntaxError (msg : string)
| Error (msg : string).

(** The outcome of evaluating an expression: a value, or an exception on
    its way to the nearest [catch]. *)
Inductive completion (A : Type) :=
| Normal (a : A)
| Throw (e : exn).
Arguments Normal {A} a.
Arguments Throw {A} e.

#[global] Instance completion_ret : MRet completion := @Normal.

#[global] Instance completion_bind : MBind completion :=
  fun A B k c =>
    match c with
    | Normal a => k a
    | Throw e => Throw e
    end.

#[global] Instance completion_fmap : FMap completion :=
  fun A B f c =>
    match c with
    | Normal a => Normal (f a)
    | Throw e => Throw e
    end.

Definition returns {A} (c : completion A) : bool :=
  match c with Normal _ => true | Throw _ => false end.

(** *** Numbers *)

Definition float_of_Z (z : Z) : float := SF2Prim (binary_normalize prec emax z 0 false).

Definition float_of_nat (n : nat) : float := float_of_Z (Z.of_nat n).

(** The binary64 value nearest to the rational [n / d] ([n], [d] > 0),
    ties to even: the quotient is taken with at least 66 significant
    bits and one more bit that records whether a remainder was left. *)
Definition round_ratio (neg : bool) (n d : Z) : float :=
  let k := Z.max 0 (66 - Z.log2 n + Z.log2 d) in
  let q := (n * 2 ^ k) / d in
  let r := (n * 2 ^ k) mod d in
  let m := 2 * q + (if r =? 0 then 0 else 1) in
  SF2Prim (binary_normalize prec emax (if neg then - m else m) (- (k + 1)) neg).

(** [m * 10 ^ e] rounded to binary64. *)
Definition round_decimal (neg : bool) (m e : Z) : float :=
  if m =? 0 then (if neg then neg_zero else zero)
  else if 0 <=? e then round_ratio neg (m * 10 ^ e) 1
  else round_ratio neg m (10 ^ (- e)).

(** [Number.isFinite] on a number. *)
Definition isFinite (x : float) : bool := is_finite x.

(** [Math.abs]. *)
Definition Math_abs (x : float) : float := abs x.

(** *** Strings *)

Definition digit_of (c : ascii) : option Z :=
  let n := Z.of_N (N_of_ascii c) in
  if (48 <=? n) && (n <=? 57) then Some (n - 48) else None.

Definition hex_digit_of (c : ascii) : option Z :=
  let n := Z.of_N (N_of_ascii c) in
  if (48 <=? n) && (n <=? 57) then Some (n - 48)
  else if (65 <=? n) && (n <=? 70) then Some (n - 55)
  else if (97 <=? n) && (n <=? 102) then Some (n - 87)
  else None.

(** The longest prefix of decimal digits, most significant first, and
    what follows it. *)
Fixpoint take_digits (s : string) : list Z * string :=
  match s with
  | String c s' =>
      match digit_of c with
      | Some d => let '(ds, rest) := take_digits s' in (d :: ds, rest)
      | None => ([], s)
      end
  | EmptyString => ([], s)
  end.

Definition digits_value (base : Z) (ds : list Z) : Z :=
  fold_left (fun acc d => base * acc + d) ds 0.

(** All characters of [s] as digits of [base], if they are. *)
Fixpoint radix_digits (base : Z) (s : string) : option (list Z) :=
  match s with
  | EmptyString => Some []
  | String c s' =>
      match hex_digit_of c, radix_digits base s' with
      | Some d, Some ds => if d <? base then Some (d :: ds) else None
      | _, _ => None
      end
  end.

Definition byte (c : ascii) : N := N_of_ascii c.

(** The white space that [Number] skips at both ends of a string: the
    characters of WhiteSpace and LineTerminator, as UTF-8 encodes them.
    In one byte: tab, line feed, vertical tab, form feed, carriage
    return, space. In two: U+00A0. In three: U+1680, U+2000 to U+200A,
    U+2028, U+2029, U+202F, U+205F, U+3000, U+FEFF. *)
Definition is_space1 (a : ascii) : bool :=
  ((9 <=? byte a) && (byte a <=? 13) || (byte a =? 32))%N.

Definition is_space2 (a b : ascii) : bool :=
  ((byte a =? 194) && (byte b =? 160))%N.

Definition is_space3 (a b c : ascii) : bool :=
  ((byte a =? 225) && (byte b =? 154) && (byte c =? 128)
   || (byte a =? 226) && (byte b =? 128)
      && ((128 <=? byte c) && (byte c <=? 138)
          || (byte c =? 168) || (byte c =? 169) || (byte c =? 175))
   || (byte a =? 226) && (byte b =? 129) && (byte c =? 159)
   || (byte a =? 227) && (byte b =? 128) && (byte c =? 128)
   || (byte a =? 239) && (byte b =? 187) && (byte c =? 191))%N.

Fixpoint trim_left (s : string) : string :=
  match s with
  | String a s1 =>
      if is_space1 a then trim_left s1
      else
        match s1 with
        | String b s2 =>
            if is_space2 a b then trim_left s2
            else
              match s2 with
              | String c s3 => if is_space3 a b c then trim_left s3 else s
              | EmptyString => s
              end
        | EmptyString => s
        end
  | EmptyString => s
  end.

(** A string is cut where nothing but white space follows. *)
Fixpoint trim_right (s : string) : string :=
  match s with
  | String c s' => if String.eqb (trim_left s) "" then "" else String c (trim_right s')
  | EmptyString => s
  end.

Definition trim (s : string) : string := trim_right (trim_left s).

(** [String.prototype.toUpperCase] on the letters a-z; other bytes are
    kept. *)
Definition upper_char (c : ascii) : ascii :=
  let n := N_of_ascii c in
  if ((97 <=? n) && (n <=? 122))%N then ascii_of_N (n - 32) else c.

Fixpoint upper (s : string) : string :=
  match s with
  | EmptyString => EmptyString
  | String c s' => String (upper_char c) (upper s')
  end.

Definition repeat_zero (n : Z) : string :=
  Z.iter n (String "0") "".

Definition string_of_Z (z : Z) : string :=
  NilZero.string_of_uint (N.to_uint (Z.to_N z)).

Definition substring_Z (from len : Z) (s : string) : string :=
  String.substring (Z.to_nat from) (Z.to_nat len) s.

(** *** String to number (the grammar of StringNumericLiteral) *)

(** What may follow the mantissa: nothing, or [e] or [E], an optional
    sign and at least one digit. *)
Definition parse_exponent (s : string) : option Z :=
  match s with
  | EmptyString => Some 0
  | String c s' =>
      if (Ascii.eqb c "e" || Ascii.eqb c "E")%bool then
        let '(neg, s'') :=
          match s' with
          | String "+" t => (false, t)
          | String "-" t => (true, t)
          | _ => (false, s')
          end in
        match take_digits s'' with
        | (d :: ds, EmptyString) =>
            let v := digits_value 10 (d :: ds) in Some (if neg then - v else v)
        | _ => None
        end
      else None
  end.

(** [m * 10 ^ e] as a number, for a mantissa written with [nd] digits.
    Beyond the range of binary64 the result is known without computing
    the power: at least [10 ^ 310] overflows, less than [10 ^ -325]
    rounds to zero. *)
Definition decimal_value (neg : bool) (m nd e : Z) : float :=
  if m =? 0 then (if neg then neg_zero else zero)
  else if 309 <? e then (if neg then neg_infinity else infinity)
  else if nd + e <? -325 then (if neg then neg_zero else zero)
  else round_decimal neg m e.

Definition StrUnsignedDecimalLiteral (neg : bool) (s : string) : float :=
  if String.eqb s "Infinity" then (if neg then neg_infinity else infinity)
  else
    let '(ip, r1) := take_digits s in
    let '(fp, r2) :=
      match r1 with
      | String "." t => take_digits t
      | _ => ([], r1)
      end in
    match (ip ++ fp)%list, parse_exponent r2 with
    | _ :: _, Some e =>
        decimal_value neg (digits_value 10 (ip ++ fp)%list)
          (Z.of_nat (length (ip ++ fp)%list)) (e - Z.of_nat (length fp))
    | _, _ => nan
    end.

Definition radix_literal (base : Z) (s : string) : float :=
  match s, radix_digits base s with
  | String _ _, Some ds => float_of_Z (digits_value base ds)
  | _, _ => nan
  end.

Definition StringToNumber (s : string) : float :=
  match trim s with
  | EmptyString => zero
  | String "0" (String "x" t) | String "0" (String "X" t) => radix_literal 16 t
  | String "0" (String "o" t) | String "0" (String "O" t) => radix_literal 8 t
  | String "0" (String "b" t) | String "0" (String "B" t) => radix_literal 2 t
  | String "+" t => StrUnsignedDecimalLiteral false t
  | String "-" t => StrUnsignedDecimalLiteral true t
  | t => StrUnsignedDecimalLiteral false t
  end.

(** *** Number to string (Number::toString, radix 10) *)

(** [floor ((num / den) / 10 ^ e)]. *)
Definition scaled_floor (num den e : Z) : Z :=
  if 0 <=? e then num / (den * 10 ^ e) else (num * 10 ^ (- e)) / den.

(** [10 ^ p <= num / den]. *)
Definition pow10_le (p num den : Z) : bool :=
  if 0 <=? p then 10 ^ p * den <=? num else den <=? num * 10 ^ (- p).

Fixpoint raise_exponent (fuel : nat) (p num den : Z) : Z :=
  match fuel with
  | O => p
  | S fuel' => if pow10_le (p + 1) num den then raise_exponent fuel' (p + 1) num den else p
  end.

(** The [n] with [10 ^ (n - 1) <= num / den < 10 ^ n]. *)
Definition decimal_exponent (num den : Z) : Z :=
  let l := Z.log2 num - Z.log2 den in
  raise_exponent 8 (((l - 1) * 30103) / 100000 - 1) num den + 1.

(** The [k]-digit decimals next to [x = num / den] that read back as
    [x], the nearer one first; [None] if neither does. *)
Definition shortest_at (x : float) (num den n k : Z) : option (Z * Z) :=
  let e := n - k in
  let lo := scaled_floor num den e in
  let hi := lo + 1 in
  let ok_lo := (round_decimal false lo e =? x)%float in
  let ok_hi := (round_decimal false hi e =? x)%float in
  let '(a, b) := if 0 <=? e then (num, den * 10 ^ e) else (num * 10 ^ (- e), den) in
  let d_lo := a - lo * b in
  let d_hi := hi * b - a in
  let norm s := if s =? 10 ^ k then (10 ^ (k - 1), n + 1) else (s, n) in
  match ok_lo, ok_hi with
  | true, true =>
      if d_lo <? d_hi then Some (norm lo)
      else if d_hi <? d_lo then Some (norm hi)
      else Some (norm (if Z.even lo then lo else hi))
  | true, false => Some (norm lo)
  | false, true => Some (norm hi)
  | false, false => None
  end.

Fixpoint shortest_from (fuel : nat) (x : float) (num den n k : Z) : Z * Z * Z :=
  match fuel with
  | O => (scaled_floor num den (n - k), n, k)
  | S fuel' =>
      match shortest_at x num den n k with
      | Some (s, n') => (s, n', k)
      | None => shortest_from fuel' x num den n (k + 1)
      end
  end.

Definition format_digits (s n k : Z) : string :=
  let ds := string_of_Z s in
  if (k <=? n) && (n <=? 21) then ds ++ repeat_zero (n - k)
  else if (0 <? n) && (n <=? 21) then
    substring_Z 0 n ds ++ "." ++ substring_Z n (k - n) ds
  else if (-6 <? n) && (n <=? 0) then "0." ++ repeat_zero (- n) ++ ds
  else
    let e := n - 1 in
    let es := (if e <? 0 then "-" else "+") ++ string_of_Z (Z.abs e) in
    if k =? 1 then ds ++ "e" ++ es
    else substring_Z 0 1 ds ++ "." ++ substring_Z 1 (k - 1) ds ++ "e" ++ es.

Definition NumberToString (x : float) : string :=
  match Prim2SF x with
  | S754_nan => "NaN"
  | S754_zero _ => "0"
  | S754_infinity neg => if neg then "-Infinity" else "Infinity"
  | S754_finite neg m e =>
      let num := if 0 <=? e then Z.pos m * 2 ^ e else Z.pos m in
      let den := if 0 <=? e then 1 else 2 ^ (- e) in
      let '(s, n, k) := shortest_from 17 (abs x) num den (decimal_exponent num den) 1 in
      (if neg then "-" else "") ++ format_digits s n k
  end.

(** *** Conversions and operators on values *)

(** ToPrimitive: whether the conversion of a value to a primitive
    returns. An object or array that [JSON.parse] made has the built-in
    prototype: an object is converted by the [valueOf] and [toString] it
    inherits, which gives [[object Object]], unless it has a property
    [toString] of its own; that property is no function (JSON has none),
    [Object.prototype.valueOf] gives the object back, and the conversion
    throws a TypeError. An array is joined, which converts every element
    other than null and undefined to a string. *)
Fixpoint converts (v : value) : bool :=
  match v with
  | VObject props => negb (bool_decide (is_Some (props !! "toString")))
  | VArray elems =>
      (fix all (l : list value) : bool :=
         match l with
         | [] => true
         | e :: l' => converts e && all l'
         end) elems
  | _ => true
  end.

Definition conversion_error : exn := TypeError "Cannot convert object to primitive value".

(** The string a value converts to, when its conversion returns. A plain
    object prints as [[object Object]]; an array joins its elements with
    commas, null and undefined elements printing as nothing. *)
Fixpoint ToString (v : value) : string :=
  match v with
  | VUndefined => "undefined"
  | VNull => "null"
  | VBool b => if b then "true" else "false"
  | VNumber x => NumberToString x
  | VString s => s
  | VArray elems =>
      (fix join (l : list value) : string :=
         match l with
         | [] => ""
         | e :: l' =>
             (match e with VUndefined | VNull => "" | _ => ToString e end)
               ++ (match l' with [] => "" | _ :: _ => "," ++ join l' end)
         end) elems
  | VObject _ => "[object Object]"
  end.

(** The number a value converts to, when its conversion returns. An
    array or object is first turned into a string. *)
Definition Number (v : value) : float :=
  match v with
  | VUndefined => nan
  | VNull => zero
  | VBool b => if b then one else zero
  | VNumber x => x
  | VString s => StringToNumber s
  | VArray _ | VObject _ => StringToNumber (ToString v)
  end.

(** ToString as a template literal, [String(v)] and a [key] apply it,
    and ToNumber as [Number(v)] applies it: the conversion to a primitive
    comes first, and may throw. *)
Definition ToString_call (v : value) : completion string :=
  if converts v then Normal (ToString v) else Throw conversion_error.

Definition Number_call (v : value) : completion float :=
  if converts v then Normal (Number v) else Throw conversion_error.

(** ToBoolean: what [||], [?:] and [if] test. *)
Definition truthy (v : value) : bool :=
  match v with
  | VUndefined | VNull => false
  | VBool b => b
  | VNumber x => negb (is_zero x || is_nan x)
  | VString s => negb (String.eqb s "")
  | VArray _ | VObject _ => true
  end.

Definition nullish (v : value) : bool :=
  match v with
  | VUndefined | VNull => true
  | _ => false
  end.

(** [v.k] for the property names the program reads: own properties of an
    object, [length] of an array or a string; a read on null or undefined
    throws, a read on another primitive gives undefined. (None of the
    names the program writes out is an index or a member of a built-in
    prototype; the two computed names, [mockSignals[selectedModel]] and
    [headings[modelName]], are taken to be values of [MODEL_OPTIONS],
    which is what the select of the dashboard offers.) *)
Definition get (v : value) (k : string) : completion value :=
  match v with
  | VUndefined | VNull => Throw (TypeError "Cannot read properties of null or undefined")
  | VObject props => Normal (default VUndefined (props !! k))
  | VArray elems =>
      Normal (if String.eqb k "length" then VNumber (float_of_nat (length elems)) else VUndefined)
  | VString s =>
      Normal (if String.eqb k "length" then VNumber (float_of_nat (String.length s)) else VUndefined)
  | VBool _ | VNumber _ => Normal VUndefined
  end.

(** [a ?? b]: [b] is evaluated only when [a] is null or undefined. *)
Definition coalesce (a b : completion value) : completion value :=
  v ← a; if nullish v then b else Normal v.

(** [a || b]. *)
Definition or_else (a b : completion value) : completion value :=
  v ← a; if truthy v then Normal v else b.

(** [a?.k]. *)
Definition get_opt (a : completion value) (k : string) : completion value :=
  v ← a; if nullish v then Normal VUndefined else get v k.

(** [v.toUpperCase()]: only a string has the method. *)
Definition toUpperCase (v : value) : completion value :=
  match v with
  | VString s => Normal (VString (upper s))
  | VUndefined | VNull => Throw (TypeError "Cannot read properties of null or undefined")
  | _ => Throw (TypeError "toUpperCase is not a function")
  end.

(** An object literal (no name occurs twice in a literal of the
    program). *)
Definition object (fields : list (string * value)) : value :=
  VObject (list_to_map fields).

(** [{ ...v }] into an object under construction: the own properties of
    an object; nothing for null, undefined, a boolean or a number; the
    elements of an array under their indices. *)
Definition spread (v : value) : gmap string value :=
  match v with
  | VObject props => props
  | VArray elems =>
      list_to_map (imap (fun i e => (string_of_Z (Z.of_nat i), e)) elems)
  | VString s =>
      list_to_map (imap (fun i c => (string_of_Z (Z.of_nat i), VString (String c "")))
                        (list_ascii_of_string s))
  | _ => ∅
  end.

Notation "a ?? b" := (coalesce a b) (at level 45, right associativity).
Notation "a <||> b" := (or_else a b) (at level 46, right associativity).

End JS.

Import JS.

(** ** The bundled sample data ([data/mockData.js]) *)

Module MockData.

Definition mockPerformance : value :=
  object
    [ ("metrics",
        object
          [ ("portfolioValue", VNumber 247832.5);
            ("portfolioChange", VNumber 12.3);
            ("dailyPnl", VNumber 3421.0);
            ("dailyPnlPercent", VNumber 1.45);
            ("openPositions", VNumber 10);
            ("openPositionsChange", VNumber 1.2);
            ("winRate", VNumber 67.8);
            ("winRateChange", VNumber (-0.6));
            ("sharpeRatio", VNumber 1.84);
            ("sharpeRatioChange", VNumber 0.12);
            ("maxDrawdown", VNumber (-5.2));
            ("maxDrawdownChange", VNumber 0.4);
            ("buyingPower", VNumber 54821.0);
            ("rollingSharpe", VNumber 1.84);
            ("aiConfidence", VNumber 78);
            ("lastUpdated", VString "2025-11-10T15:45:00Z") ]);
      ("equityCurve",
        VArray
          [ object [ ("date", VString "Sep"); ("value", VNumber 185000) ];
            object [ ("date", VString "Oct"); ("value", VNumber 198200) ];
            object [ ("date", VString "Nov"); ("value", VNumber 205600) ];
            object [ ("date", VString "Dec"); ("value", VNumber 212450) ];
            object [ ("date", VString "Jan"); ("value", VNumber 221320) ];
            object [ ("date", VString "Feb"); ("value", VNumber 229880) ];
            object [ ("date", VString "Mar"); ("value", VNumber 236540) ];
            object [ ("date", VString "Apr"); ("value", VNumber 239400) ];
            object [ ("date", VString "May"); ("value", VNumber 243200) ];
            object [ ("date", VString "Jun"); ("value", VNumber 247832) ] ]) ].

Definition mockSignal (symbol action : string) (confidence : float)
    (thesis : string) (positionSize : float) : value :=
  object
    [ ("symbol", VString symbol);
      ("action", VString action);
      ("confidence", VNumber confidence);
      ("thesis", VString thesis);
      ("positionSize", VNumber positionSize) ].

Definition mockSignals : value :=
  object
    [ ("tech",
        VArray
          [ mockSignal "AAPL" "BUY" 0.82 "Earnings momentum following services beat" 0.14;
            mockSignal "MSFT" "HOLD" 0.64 "Azure growth stabilizing, await breakout" 0.1;
            mockSignal "NVDA" "BUY" 0.79 "Data center demand remains elevated" 0.18;
            mockSignal "GOOGL" "BUY" 0.7 "Search volumes accelerating week-over-week" 0.12;
            mockSignal "TSLA" "SELL" 0.68 "Delivery softness and margin pressure" 0.08 ]);
      ("energy",
        VArray
          [ mockSignal "XOM" "BUY" 0.77 "Crude spreads tightening into winter demand" 0.16;
            mockSignal "CVX" "HOLD" 0.58 "Awaiting confirmation of trend reversal" 0.09;
            mockSignal "JPM" "SELL" 0.66 "Net interest margin compression risk" 0.11;
            mockSignal "BAC" "HOLD" 0.55 "Limited catalysts in current rate regime" 0.08 ]) ].

Definition mockTrade (id timestamp symbol side : string) (quantity price pnl : float)
    (model : string) : value :=
  object
    [ ("id", VString id);
      ("timestamp", VString timestamp);
      ("symbol", VString symbol);
      ("side", VString side);
      ("quantity", VNumber quantity);
      ("price", VNumber price);
      ("pnl", VNumber pnl);
      ("model", VString model) ].

Definition mockTrades : value :=
  VArray
    [ mockTrade "TRD-10567" "2025-11-10T14:35:00Z" "AAPL" "BUY" 25 182.34 0 "Tech Sector Agent";
      mockTrade "TRD-10566" "2025-11-10T13:02:00Z" "NVDA" "SELL" 10 488.65 325.4 "Tech Sector Agent";
      mockTrade "TRD-10565" "2025-11-09T20:15:00Z" "XOM" "BUY" 40 119.24 0 "Energy & Finance Agent";
      mockTrade "TRD-10564" "2025-11-09T16:48:00Z" "MSFT" "BUY" 15 414.91 0 "Tech Sector Agent";
      mockTrade "TRD-10563" "2025-11-09T15:12:00Z" "JPM" "SELL" 20 224.35 (-112.8) "Energy & Finance Agent" ].

Definition mockPosition (symbol : string)
    (quantity averagePrice marketPrice unrealizedPnl unrealizedPnlPercent : float) : value :=
  object
    [ ("symbol", VString symbol);
      ("quantity", VNumber quantity);
      ("averagePrice", VNumber averagePrice);
      ("marketPrice", VNumber marketPrice);
      ("unrealizedPnl", VNumber unrealizedPnl);
      ("unrealizedPnlPercent", VNumber unrealizedPnlPercent) ].

Definition mockPositions : value :=
  VArray
    [ mockPosition "AAPL" 80 176.25 182.34 487.2 3.12;
      mockPosition "MSFT" 45 406.1 414.91 396.45 2.02;
      mockPosition "NVDA" 35 472.8 488.65 554.25 3.34;
      mockPosition "GOOGL" 30 138.45 141.12 80.1 1.93;
      mockPosition "TSLA" 20 242.8 236.44 (-127.2) (-2.62) ].

End MockData.

(** ** The record normalizers *)

Module Normalizers.

(** [a || b] on two numbers. *)
Definition or_number (a b : float) : float :=
  if negb (is_zero a || is_nan a) then a else b.

(** [components/TradesTable.jsx], [normalizeTrade]. *)
Definition normalizeTrade (trade : value) : completion value :=
  side ← get trade "side" ?? get trade "action" ?? get trade "type" ?? Normal (VString "HOLD");
  quantity ←
    (get trade "quantity" ?? get trade "qty" ?? get trade "shares" ?? Normal (VNumber 0))
      ≫= Number_call;
  priceRaw ←
    (get trade "price" ?? get trade "fill_price" ?? get trade "filled_avg_price"
       ?? Normal (VNumber 0))
      ≫= Number_call;
  pnl ←
    (get trade "pnl" ?? get trade "profit" ?? get trade "realized_pl" ?? Normal (VNumber 0))
      ≫= Number_call;
  id ← get trade "id" ?? get trade "trade_id" ?? get trade "order_id"
         ?? (symbol ← get trade "symbol" ≫= ToString_call;
             timestamp ← get trade "timestamp" ≫= ToString_call;
             Normal (VString (symbol ++ "-" ++ timestamp)));
  normalizedSide ← toUpperCase side;
  timestamp ← get trade "timestamp" ?? get trade "filled_at" ?? get trade "created_at"
                ?? Normal VNull;
  symbol ← get trade "symbol" ?? get trade "ticker" ?? Normal (VString "—");
  model ← get trade "model" ?? get trade "strategy" ?? Normal (VString "AI Agent");
  Normal (object
    [ ("id", id);
      ("timestamp", timestamp);
      ("symbol", symbol);
      ("side", normalizedSide);
      ("quantity", VNumber (if isFinite quantity then quantity else 0));
      ("price", VNumber (if isFinite priceRaw then priceRaw else 0));
      ("pnl", VNumber (if isFinite pnl then pnl else 0));
      ("model", model) ]).

(** [components/SignalGrid.jsx], [normalizeSignal]. *)
Definition normalizeSignal (signal : value) : completion value :=
  confidenceRaw ←
    (get signal "confidence" ?? get signal "score" ?? get signal "signal_strength"
       ?? Normal (VNumber 0))
      ≫= Number_call;
  positionSizeRaw ←
    (get signal "positionSize" ?? get signal "weight" ?? get signal "position_size"
       ?? Normal (VNumber 0))
      ≫= Number_call;
  let confidence := if (1 <? confidenceRaw)%float then (confidenceRaw / 100)%float else confidenceRaw in
  let positionSize := if (1 <? positionSizeRaw)%float then (positionSizeRaw / 100)%float else positionSizeRaw in
  symbol ← get signal "symbol" ?? get signal "ticker" ?? Normal (VString "—");
  action ← (get signal "action" ?? get signal "side" ?? Normal (VString "HOLD")) ≫= toUpperCase;
  thesis ← get signal "thesis" ?? get signal "reason" ?? get signal "notes"
             ?? Normal (VString "Signal details unavailable.");
  Normal (object
    [ ("symbol", symbol);
      ("action", action);
      ("confidence", VNumber confidence);
      ("positionSize", VNumber positionSize);
      ("thesis", thesis) ]).

(** [components/PositionsTable.jsx], [normalizePosition]. *)
Definition normalizePosition (position : value) : completion value :=
  quantityRaw ←
    (get position "quantity" ?? get position "qty" ?? get position "shares"
       ?? Normal (VNumber 0))
      ≫= Number_call;
  averagePrice ←
    (get position "averagePrice" ?? get position "avg_price" ?? get position "avgEntryPrice"
       ?? get position "avg_entry_price" ?? Normal (VNumber 0))
      ≫= Number_call;
  marketPrice ←
    (get position "marketPrice" ?? get position "current_price" ?? get position "currentPrice"
       ?? get position "market_price" ?? Normal (VNumber 0))
      ≫= Number_call;
  pnlRaw ←
    (get position "unrealizedPnl" ?? get position "unrealized_pl" ?? get position "unrealized_pl"
       ?? get position "pnl" ?? Normal (VNumber 0))
      ≫= Number_call;
  pnlPercentRaw ←
    (get position "unrealizedPnlPercent" ?? get position "unrealized_plpc"
       ?? get position "unrealized_pl_percent" ?? get position "pnl_percent"
       ?? Normal (VNumber 0))
      ≫= Number_call;
  let pnlPercent :=
    if isFinite pnlPercentRaw
    then if (1 <? Math_abs pnlPercentRaw)%float then pnlPercentRaw else (pnlPercentRaw * 100)%float
    else 0%float in
  let quantity := if isFinite quantityRaw then quantityRaw else 0%float in
  let avg := or_number averagePrice marketPrice in
  let last := or_number marketPrice averagePrice in
  let avgSafe := if isFinite avg then avg else 0%float in
  let lastSafe := if isFinite last then last else 0%float in
  symbol ← get position "symbol" ?? get position "ticker" ?? get position "asset"
             ?? Normal (VString "—");
  Normal (object
    [ ("symbol", symbol);
      ("quantity", VNumber quantity);
      ("averagePrice", VNumber avgSafe);
      ("marketPrice", VNumber lastSafe);
      ("pnl", VNumber (if isFinite pnlRaw then pnlRaw else 0));
      ("pnlPercent", VNumber pnlPercent) ]).

End Normalizers.

Import MockData Normalizers.

(** ** The dashboard (the [App] component) *)

Module Dashboard.

(** The two values [dataSource] takes: the strings ['mock'] and ['live']. *)
Inductive data_source := mock | live.

#[global] Instance data_source_eq_dec : EqDecision data_source.
Proof. solve_decision. Defined.

(** The state variables of [App] that a refresh cycle writes
    ([activeTab] and [isLive], which no refresh reads or writes, are left
    out). A setter gives the value the next render sees. *)
Record store := Store {
  performance : value;
  signals : value;
  trades : value;
  positions : value;
  loading : bool;
  dataSource : data_source
}.

(** *** Statements that write the store and may return or throw *)

Inductive flow (A : Type) :=
| Next (a : A)
| Return
| Raise (e : exn).
Arguments Next {A} a.
Arguments Return {A}.
Arguments Raise {A} e.

Definition action (A : Type) : Type := store -> flow A * store.

#[global] Instance action_ret : MRet action := fun A a s => (Next a, s).

#[global] Instance action_bind : MBind action :=
  fun A B k m s =>
    match m s with
    | (Next a, s') => k a s'
    | (Return, s') => (Return, s')
    | (Raise e, s') => (Raise e, s')
    end.

Definition eval {A} (c : completion A) : action A :=
  fun s => (match c with Normal a => Next a | Throw e => Raise e end, s).

Definition throw {A} (e : exn) : action A := fun s => (Raise e, s).

Definition return_ {A} : action A := fun s => (Return, s).

Definition skip : action () := mret ().

Definition setPerformance (v : value) : action () :=
  fun s => (Next (), Store v (signals s) (trades s) (positions s) (loading s) (dataSource s)).

Definition setSignals (v : value) : action () :=
  fun s => (Next (), Store (performance s) v (trades s) (positions s) (loading s) (dataSource s)).

Definition setTrades (v : value) : action () :=
  fun s => (Next (), Store (performance s) (signals s) v (positions s) (loading s) (dataSource s)).

Definition setPositions (v : value) : action () :=
  fun s => (Next (), Store (performance s) (signals s) (trades s) v (loading s) (dataSource s)).

Definition setLoading (b : bool) : action () :=
  fun s => (Next (), Store (performance s) (signals s) (trades s) (positions s) b (dataSource s)).

Definition setDataSource (d : data_source) : action () :=
  fun s => (Next (), Store (performance s) (signals s) (trades s) (positions s) (loading s) d).

(** [try { body } catch (error) { handler } finally { final }]. *)
Definition try_catch_finally (body : action ()) (handler : exn -> action ())
    (final : action ()) : action () :=
  fun s =>
    let '(r1, s1) := body s in
    let '(r2, s2) :=
      match r1 with
      | Raise e => handler e s1
      | _ => (r1, s1)
      end in
    let '(r3, s3) := final s2 in
    (match r3 with Next _ => r2 | _ => r3 end, s3).

(** *** What the four requests come back with *)

(** A response: its [ok] flag, and the value its body parses to ([None]
    when the body is not JSON, so that [json()] rejects). *)
Record response := Response { ok : bool; body : option value }.

Definition json (r : response) : completion value :=
  match body r with
  | Some v => Normal v
  | None => Throw (SyntaxError "Unexpected token in JSON")
  end.

(** The outcome of one [fetch]: a response, or [None] when the promise
    rejects (network error). *)
Definition fetched := option response.

Record fetches := Fetches {
  performanceFetch : fetched;
  signalsFetch : fetched;
  tradesFetch : fetched;
  positionsFetch : fetched
}.

(** [await Promise.all([...])] of the four requests. *)
Definition Promise_all (f : fetches)
    : completion (response * response * response * response) :=
  match performanceFetch f, signalsFetch f, tradesFetch f, positionsFetch f with
  | Some p, Some s, Some t, Some q => Normal (p, s, t, q)
  | _, _, _, _ => Throw (FetchError "Failed to fetch")
  end.

(** *** Copies of the sample data *)

(** [[...v]]. *)
Definition array_spread (v : value) : completion value :=
  match v with
  | VArray elems => Normal (VArray elems)
  | VString s => Normal (VArray ((fun c => VString (String c "")) <$> list_ascii_of_string s))
  | _ => Throw (TypeError "value is not iterable")
  end.

(** [v.map((x) => ({ ...x }))]. *)
Definition map_copy (v : value) : completion value :=
  match v with
  | VArray elems => Normal (VArray ((fun x => VObject (spread x)) <$> elems))
  | VUndefined | VNull => Throw (TypeError "Cannot read properties of null or undefined")
  | _ => Throw (TypeError "map is not a function")
  end.

(** [(mockSignals[selectedModel] ?? []).map((signal) => ({ ...signal }))]. *)
Definition fallbackSignals (selectedModel : string) : completion value :=
  (get mockSignals selectedModel ?? Normal (VArray [])) ≫= map_copy.

(** [{ metrics: { ...mockPerformance.metrics }, equityCurve: [...mockPerformance.equityCurve] }]. *)
Definition fallbackPerformance : completion value :=
  metrics ← get mockPerformance "metrics";
  curve ← get mockPerformance "equityCurve" ≫= array_spread;
  Normal (object [ ("metrics", VObject (spread metrics)); ("equityCurve", curve) ]).

(** *** One refresh cycle *)

(** [fetchDashboardData] up to its first [await]. *)
Definition fetchDashboardData_call (isMounted : bool) : action () :=
  if negb isMounted then return_ else setLoading true.

(** [fetchDashboardData] from the point where the four requests have
    come back. [isMounted] is the flag of the effect run the cycle
    belongs to, as it stands when the cycle resumes; [selectedModel] is
    the model that run captured. First the [try] block. *)
Definition try_block (isMounted : bool) (selectedModel : string) (f : fetches) : action () :=
  '(performanceRes, signalsRes, tradesRes, positionsRes) ← eval (Promise_all f);
  (if negb (ok performanceRes) || negb (ok signalsRes)
        || negb (ok tradesRes) || negb (ok positionsRes)
   then throw (Error "Failed to load data") else skip);;
  performanceJson ← eval (json performanceRes);
  signalsJson ← eval (json signalsRes);
  tradesJson ← eval (json tradesRes);
  positionsJson ← eval (json positionsRes);
  (if negb isMounted then return_ else skip);;
  mockMetrics ← eval (get mockPerformance "metrics");
  liveMetrics ← eval (get performanceJson "metrics" ?? Normal (object []));
  let metrics := spread liveMetrics ∪ spread mockMetrics in
  stamped ← eval (get performanceJson "last_updated" <||> get performanceJson "lastUpdated");
  metrics ← (if truthy stamped
             then lastUpdated ← eval (get performanceJson "last_updated"
                                        ?? get performanceJson "lastUpdated");
                  mret (<["lastUpdated" := lastUpdated]> metrics)
             else mret metrics);
  equityCurve ← eval (get performanceJson "equity_curve"
                        <||> get performanceJson "equityCurve"
                        <||> get mockPerformance "equityCurve");
  setPerformance (object [ ("metrics", VObject metrics); ("equityCurve", equityCurve) ]);;
  fallback ← eval (fallbackSignals selectedModel);
  signalsLength ← eval (get_opt (get signalsJson "signals") "length");
  (if truthy signalsLength
   then eval (get signalsJson "signals") ≫= setSignals
   else setSignals fallback);;
  tradesLength ← eval (get_opt (get tradesJson "trades") "length");
  (if truthy tradesLength
   then eval (get tradesJson "trades") ≫= setTrades
   else eval (array_spread mockTrades) ≫= setTrades);;
  positionsLength ← eval (get_opt (get positionsJson "positions") "length");
  (if truthy positionsLength
   then eval (get positionsJson "positions") ≫= setPositions
   else eval (array_spread mockPositions) ≫= setPositions);;
  setDataSource live.

(** The [catch] block. *)
Definition catch_block (isMounted : bool) (selectedModel : string) (error : exn) : action () :=
  (if negb isMounted then return_ else skip);;
  eval fallbackPerformance ≫= setPerformance;;
  fallback ← eval (fallbackSignals selectedModel);
  setSignals fallback;;
  eval (array_spread mockTrades) ≫= setTrades;;
  eval (array_spread mockPositions) ≫= setPositions;;
  setDataSource mock.

(** The [finally] block. *)
Definition finally_block (isMounted : bool) : action () :=
  if isMounted then setLoading false else skip.

Definition fetchDashboardData_resume (isMounted : bool) (selectedModel : string)
    (f : fetches) : action () :=
  try_catch_finally
    (try_block isMounted selectedModel f)
    (catch_block isMounted selectedModel)
    (finally_block isMounted).

(** *** The component: state, effect runs, timer, cycles in flight *)

(** What one run of the first effect closes over: its [isMounted] flag,
    which its cleanup clears, and the [selectedModel] of the render it
    belongs to. *)
Record closure := Closure { isMounted : bool; model : string }.

Record app := App {
  selectedModel : string;
  state : store;
  (** every run of the first effect so far, oldest first *)
  runs : list closure;
  (** the timer [setInterval] returned that is not yet cleared: the run
      that armed it and its period in milliseconds *)
  refreshInterval : option (nat * Z);
  (** the cycles that await their responses, each with the run whose
      [fetchDashboardData] it is *)
  in_flight : list nat;
  mounted : bool
}.

Definition intervalMs (d : data_source) : Z :=
  match d with
  | live => 1000 * 60 * 5
  | mock => 1000 * 60 * 15
  end.

(** [useState] initial values. *)
Definition initial : completion app :=
  perf ← fallbackPerformance;
  sigs ← fallbackSignals "tech";
  trds ← array_spread mockTrades;
  poss ← array_spread mockPositions;
  Normal (App "tech" (Store perf sigs trds poss false mock) [] None [] false).

Definition with_state (a : app) (s : store) : app :=
  App (selectedModel a) s (runs a) (refreshInterval a) (in_flight a) (mounted a).

(** A call of the [fetchDashboardData] of run [k]. *)
Definition call_fetchDashboardData (k : nat) (a : app) : app :=
  match runs a !! k with
  | Some c =>
      match fetchDashboardData_call (isMounted c) (state a) with
      | (Next _, s) =>
          App (selectedModel a) s (runs a) (refreshInterval a) (in_flight a ++ [k]) (mounted a)
      | (_, s) => with_state a s
      end
  | None => a
  end.

(** The body of the first effect: a new closure, an immediate call of
    [fetchDashboardData], and a timer at the period the [dataSource] of
    this render gives. *)
Definition run_effect (a : app) : app :=
  let k := length (runs a) in
  let period := intervalMs (dataSource (state a)) in
  let a1 := App (selectedModel a) (state a) (runs a ++ [Closure true (selectedModel a)])
                (refreshInterval a) (in_flight a) (mounted a) in
  let a2 := call_fetchDashboardData k a1 in
  App (selectedModel a2) (state a2) (runs a2) (Some (k, period)) (in_flight a2) (mounted a2).

(** The cleanup the first effect returned: [isMounted = false;
    clearInterval(refreshInterval)]. *)
Definition cleanup (a : app) : app :=
  match refreshInterval a with
  | Some (k, _) =>
      App (selectedModel a) (state a)
          (alter (fun c => Closure false (model c)) k (runs a))
          None (in_flight a) (mounted a)
  | None => a
  end.

(** The second effect: the signals shown are reset to the sample signals
    of the selected model. *)
Definition run_signals_effect (a : app) : option app :=
  match fallbackSignals (selectedModel a) with
  | Normal v =>
      Some (with_state a (Store (performance (state a)) v (trades (state a))
                                (positions (state a)) (loading (state a))
                                (dataSource (state a))))
  | Throw _ => None
  end.

(** What can happen to the component: it mounts; the user selects
    model [m]; the timer fires; the requests of the [i]-th cycle in
    flight come back with [f] and the cycle runs to its end; the
    component unmounts. *)
Inductive event :=
| Mount
| SelectModel (m : string)
| Tick
| Settle (i : nat) (f : fetches)
| Unmount.

(** One event handled to completion: the state the setters leave and
    the effects React runs after the re-render, which is taken to
    return ([settle_rendered] below has the case where it throws).
    [None]: the event cannot occur in this state. *)
Definition step (e : event) (a : app) : option app :=
  match e with
  | Mount =>
      if mounted a || negb (bool_decide (length (runs a) = 0%nat)) then None
      else
        run_signals_effect
          (run_effect (App (selectedModel a) (state a) (runs a) (refreshInterval a)
                           (in_flight a) true))
  | SelectModel m =>
      if negb (mounted a) then None
      else if String.eqb m (selectedModel a) then Some a
      else
        run_signals_effect
          (run_effect
             (cleanup (App m (state a) (runs a) (refreshInterval a) (in_flight a) (mounted a))))
  | Tick =>
      match refreshInterval a with
      | Some (k, _) => Some (call_fetchDashboardData k a)
      | None => None
      end
  | Settle i f =>
      match in_flight a !! i with
      | Some k =>
          match runs a !! k with
          | Some c =>
              let '(_, s) := fetchDashboardData_resume (isMounted c) (model c) f (state a) in
              let a1 := App (selectedModel a) s (runs a) (refreshInterval a)
                            (delete i (in_flight a)) (mounted a) in
              if mounted a && negb (bool_decide (dataSource s = dataSource (state a)))
              then Some (run_effect (cleanup a1))
              else Some a1
          | None => None
          end
      | None => None
      end
  | Unmount =>
      if mounted a then
        let a1 := cleanup a in
        Some (App (selectedModel a1) (state a1) (runs a1) (refreshInterval a1)
                  (in_flight a1) false)
      else None
  end.

Fixpoint run (es : list event) (a : app) : option app :=
  match es with
  | [] => Some a
  | e :: es' =>
      match step e a with
      | Some a' => run es' a'
      | None => None
      end
  end.

End Dashboard.

Import Dashboard.

(** ** Reading the alias chains declaratively *)

Module Spec.

(** The first of [aliases] that [props] binds to something other than
    null or undefined, else [dflt]: what [o.k1 ?? o.k2 ?? ... ?? dflt]
    evaluates to. *)
Fixpoint first_of (props : gmap string value) (aliases : list string) (dflt : value)
    : value :=
  match aliases with
  | [] => dflt
  | k :: ks =>
      match props !! k with
      | Some v => if nullish v then first_of props ks dflt else v
      | None => first_of props ks dflt
      end
  end.

(** A property that is missing (absent, null or undefined). *)
Definition missing (props : gmap string value) (k : string) : Prop :=
  match props !! k with
  | Some v => nullish v = true
  | None => True
  end.

(** A property that is missing or holds the number zero. *)
Definition missing_or_zero (props : gmap string value) (k : string) : Prop :=
  match props !! k with
  | Some (VNumber x) => is_zero x = true
  | Some v => nullish v = true
  | None => True
  end.

(** The names under which a position's two prices may arrive. *)
Definition averagePrice_aliases : list string :=
  ["averagePrice"; "avg_price"; "avgEntryPrice"; "avg_entry_price"].

Definition marketPrice_aliases : list string :=
  ["marketPrice"; "current_price"; "currentPrice"; "market_price"].

Definition finite_or_zero (x : float) : float :=
  if isFinite x then x else 0%float.

(** The first binding of [k] in a list of fields: what an object
    literal with these fields holds under [k]. *)
Fixpoint assoc (k : string) (fields : list (string * value)) : option value :=
  match fields with
  | [] => None
  | (k', v) :: fields' => if String.eqb k' k then Some v else assoc k fields'
  end.

(** The field [k] of the object a normalizer returned. *)
Definition field (k : string) (c : completion value) : completion value :=
  v ← c; get v k.

Definition is_string (v : value) : bool :=
  match v with
  | VString _ => true
  | _ => false
  end.

(** A number that is a zero or has a mantissa and an exponent. *)
Definition SFfinite (x : spec_float) : bool :=
  match x with
  | S754_zero _ | S754_finite _ _ _ => true
  | _ => false
  end.



(** The conversions a normalizer applies return: those of its numeric
    fields and, for a trade that comes without an id, those of the
    [symbol] and the [timestamp] its id is made of. *)
Definition trade_converts (props : gmap string value) : bool :=
  converts (first_of props ["quantity"; "qty"; "shares"] (VNumber 0))
  && converts (first_of props ["price"; "fill_price"; "filled_avg_price"] (VNumber 0))
  && converts (first_of props ["pnl"; "profit"; "realized_pl"] (VNumber 0))
  && (negb (nullish (first_of props ["id"; "trade_id"; "order_id"] VNull))
      || converts (default VUndefined (props !! "symbol"))
         && converts (default VUndefined (props !! "timestamp"))).

Definition signal_converts (props : gmap string value) : bool :=
  converts (first_of props ["confidence"; "score"; "signal_strength"] (VNumber 0))
  && converts (first_of props ["positionSize"; "weight"; "position_size"] (VNumber 0)).

Definition position_converts (props : gmap string value) : bool :=
  converts (first_of props ["quantity"; "qty"; "shares"] (VNumber 0))
  && converts (first_of props averagePrice_aliases (VNumber 0))
  && converts (first_of props marketPrice_aliases (VNumber 0))
  && converts (first_of props ["unrealizedPnl"; "unrealized_pl"; "unrealized_pl"; "pnl"]
                        (VNumber 0))
  && converts (first_of props ["unrealizedPnlPercent"; "unrealized_plpc";
                               "unrealized_pl_percent"; "pnl_percent"] (VNumber 0)).

(** A record none of whose properties holds a value that fails to
    convert. *)
Definition plain (props : gmap string value) : Prop :=
  forall k v, props !! k = Some v -> converts v = true.

(** *** The dashboard *)

(** A state the component gets into from its first render by some
    sequence of events. *)
Definition reachable (a : app) : Prop :=
  exists a0 es, initial = Normal a0 /\ run es a0 = Some a.

(** The flag a cycle reads when it resumes. *)
Definition is_active (a : app) (i : nat) : bool :=
  match in_flight a !! i with
  | Some k =>
      match runs a !! k with
      | Some c => isMounted c
      | None => false
      end
  | None => false
  end.

(** A request that fails: network error, non-success status, or a body
    that is not JSON. *)
Definition failed (r : fetched) : bool :=
  match r with
  | None => true
  | Some r => negb (ok r) || negb (bool_decide (is_Some (body r)))
  end.

(** One of the four requests of a refresh failed. *)
Definition any_failed (f : fetches) : bool :=
  failed (performanceFetch f) || failed (signalsFetch f)
  || failed (tradesFetch f) || failed (positionsFetch f).

(** A request whose body parsed to something a property can be read
    from. *)
Definition usable (r : fetched) : bool :=
  match r with
  | Some (Response true (Some v)) => negb (nullish v)
  | _ => false
  end.

(** The refresh succeeds: the four requests came back with a success
    status and a body that parsed to something other than null. (This is
    when the [try] block runs to its end, see [try_block_success] and
    [try_block_failure].) *)
Definition gateway_success (f : fetches) : bool :=
  usable (performanceFetch f) && usable (signalsFetch f)
  && usable (tradesFetch f) && usable (positionsFetch f).

(** [v?.length] is truthy. *)
Definition has_length (v : value) : bool :=
  match get_opt (Normal v) "length" with
  | Normal n => truthy n
  | Throw _ => false
  end.

(** [v.k] where the read cannot throw. *)
Definition read (v : value) (k : string) : value :=
  match get v k with
  | Normal x => x
  | Throw _ => VUndefined
  end.

(** [a ?? b] and [a || b] on values. *)
Definition nullish_or (a b : value) : value := if nullish a then b else a.

Definition truthy_or (a b : value) : value := if truthy a then a else b.

(** The sample signals of a model: [mockSignals[m] ?? []]. *)
Definition baseline_signals (m : string) : value :=
  nullish_or (read mockSignals m) (VArray []).

(** The store holds the sample data, the signals being those of model
    [m]. *)
Definition baseline (m : string) (s : store) : Prop :=
  performance s = mockPerformance /\
  signals s = baseline_signals m /\
  trades s = mockTrades /\
  positions s = mockPositions.

(** What the body of a response parsed to. *)
Definition payload (r : fetched) : value :=
  match r with
  | Some (Response _ (Some v)) => v
  | _ => VUndefined
  end.

(** The metrics a successful refresh stores: the sample metrics
    overlaid with the metrics received, and the time stamp received, if
    any, as [lastUpdated]. *)
Definition live_metrics (p : value) : gmap string value :=
  let merged :=
    spread (nullish_or (read p "metrics") (object [])) ∪ spread (read mockPerformance "metrics") in
  if truthy (truthy_or (read p "last_updated") (read p "lastUpdated"))
  then <["lastUpdated" := nullish_or (read p "last_updated") (read p "lastUpdated")]> merged
  else merged.

Definition live_performance (p : value) : value :=
  object
    [ ("metrics", VObject (live_metrics p));
      ("equityCurve",
        truthy_or (read p "equity_curve")
          (truthy_or (read p "equityCurve") (read mockPerformance "equityCurve"))) ].

(** A collection received, or the sample one when what was received has
    no truthy [length]. *)
Definition live_or (received sample : value) : value :=
  if has_length received then received else sample.

(** The store after a refresh that succeeded for model [m]. *)
Definition live_store (m : string) (f : fetches) : store :=
  Store (live_performance (payload (performanceFetch f)))
        (live_or (read (payload (signalsFetch f)) "signals") (baseline_signals m))
        (live_or (read (payload (tradesFetch f)) "trades") mockTrades)
        (live_or (read (payload (positionsFetch f)) "positions") mockPositions)
        false live.

(** The store after a refresh that failed for model [m]. *)
Definition baseline_store (m : string) : store :=
  Store mockPerformance (baseline_signals m) mockTrades mockPositions false mock.

(** A statement that ended by an exception. *)
Definition raises (r : flow () * store) : Prop :=
  match r with
  | (Raise _, _) => True
  | _ => False
  end.

(** A response with a success status whose body parses to [v]. *)
Definition ok_response (v : value) : fetched := Some (Response true (Some v)).

(** The component once mounted, its first cycle in flight. *)
Definition mounted_app : app :=
  App "tech"
      (Store mockPerformance (baseline_signals "tech") mockTrades mockPositions true mock)
      [Closure true "tech"] (Some (0%nat, 900000)) [0%nat] true.

(** Four responses that succeed, each with data of its own; the same
    with the trades request failing; and a gateway that cannot be
    reached. *)
Definition received : fetches :=
  Fetches (ok_response (object [("metrics", object [("winRate", VNumber 50)])]))
          (ok_response (object [("signals", VArray [object [("symbol", VString "S-1")]])]))
          (ok_response (object [("trades", VArray [object [("symbol", VString "T-1")]])]))
          (ok_response (object [("positions", VArray [object [("symbol", VString "P-1")]])])).

Definition trades_failed : fetches :=
  Fetches (performanceFetch received) (signalsFetch received) None (positionsFetch received).

Definition unreachable_gateway : fetches := Fetches None None None None.

(** The component after its first refresh succeeded with [received]:
    the data source changed, so the effect ran again. *)
Definition live_app : app :=
  App "tech"
      (Store (live_performance (payload (performanceFetch received)))
             (VArray [object [("symbol", VString "S-1")]])
             (VArray [object [("symbol", VString "T-1")]])
             (VArray [object [("symbol", VString "P-1")]]) true live)
      [Closure false "tech"; Closure true "tech"] (Some (1%nat, 300000)) [1%nat] true.

(** The component after the events [es], from its first render. *)
Definition trace (es : list event) : option app :=
  match initial with
  | Normal a0 => run es a0
  | Throw _ => None
  end.

(** Two stores that agree on everything but the [loading] flag. *)
Definition same_data (s1 s2 : store) : Prop :=
  performance s1 = performance s2 /\ signals s1 = signals s2 /\
  trades s1 = trades s2 /\ positions s1 = positions s2 /\
  dataSource s1 = dataSource s2.

(** The run [k] has had its cleanup. *)
Definition cleared (a : app) (k : nat) : Prop :=
  exists c, runs a !! k = Some c /\ isMounted c = false.

(** What holds of every state the component can reach: the timer that
    is armed belongs to a run whose flag is set and whose model is the
    selected one, and its period is that of the current data source; no
    other run has its flag set. *)
Definition consistent (a : app) : Prop :=
  (forall k ms, refreshInterval a = Some (k, ms) ->
     runs a !! k = Some (Closure true (selectedModel a)) /\
     ms = intervalMs (dataSource (state a)) /\ mounted a = true) /\
  (forall j c, runs a !! j = Some c -> isMounted c = true ->
     exists ms, refreshInterval a = Some (j, ms)).

End Spec.

Import Spec.

(** ** More of the runtime: what the components call to display a value *)

Module Methods.

(** [typeof v === 'number']. *)
Definition is_number (v : value) : bool :=
  match v with
  | VNumber _ => true
  | _ => false
  end.

(** [v >= 0], for a value whose conversion returns (the components
    compare numbers): the left operand is converted to a number; the
    comparison is false for NaN. *)
Definition ge_zero (v : value) : bool := (0 <=? Number v)%float.

(** [v === 0]. *)
Definition is_zero_value (v : value) : bool :=
  match v with
  | VNumber x => (x =? 0)%float
  | _ => false
  end.

(** [v === s] for a string [s]. *)
Definition is_the_string (v : value) (s : string) : bool :=
  match v with
  | VString t => String.eqb t s
  | _ => false
  end.

(** The decimal digits of [n] with a point before the last [f] of
    them, zeros added in front so that a digit stands before the point. *)
Definition pad_fraction (n f : Z) : string :=
  let m := string_of_Z n in
  if f =? 0 then m
  else
    let k := Z.of_nat (String.length m) in
    let m := if k <=? f then repeat_zero (f + 1 - k) ++ m else m in
    let k := Z.of_nat (String.length m) in
    substring_Z 0 (k - f) m ++ "." ++ substring_Z (k - f) f m.

(** [Number.prototype.toFixed], for [0 <= f <= 100]: a number that is
    not finite prints as [ToString] prints it; for a finite [x], the
    integer [n] with [n / 10 ^ f] nearest to [|x|] (the larger of two)
    is printed with [f] fraction digits, after a minus sign if [x < 0];
    from [10 ^ 21] on, [|x|] prints as [ToString] prints it. *)
Definition toFixed (x : float) (f : Z) : string :=
  match Prim2SF x with
  | S754_finite neg m e =>
      let num := if 0 <=? e then Z.pos m * 2 ^ e else Z.pos m in
      let den := if 0 <=? e then 1 else 2 ^ (- e) in
      (if neg then "-" else "") ++
      (if 10 ^ 21 * den <=? num then NumberToString (abs x)
       else pad_fraction ((2 * num * 10 ^ f + den) / (2 * den)) f)
  | S754_zero _ => pad_fraction 0 f
  | _ => NumberToString x
  end.

(** [v.toFixed(f)]: only a number has the method. *)
Definition toFixed_call (v : value) (f : Z) : completion value :=
  match v with
  | VNumber x => Normal (VString (toFixed x f))
  | VUndefined | VNull => Throw (TypeError "Cannot read properties of null or undefined")
  | _ => Throw (TypeError "toFixed is not a function")
  end.

(** [Math.round]: the integer nearest to [x], the larger of two; a
    number that is not finite, or is an integer, is returned as it is,
    and a result of zero keeps the sign of [x]. *)
Definition Math_round (x : float) : float :=
  match Prim2SF x with
  | S754_finite neg m e =>
      if 0 <=? e then x
      else
        let den := 2 ^ (- e) in
        let num := if neg then - Z.pos m else Z.pos m in
        let n := (2 * num + den) / (2 * den) in
        if n =? 0 then (if neg then neg_zero else zero) else float_of_Z n
  | _ => x
  end.

(** [String.prototype.toLowerCase] on the letters A-Z; other bytes are
    kept. *)
Definition lower_char (c : ascii) : ascii :=
  let n := N_of_ascii c in
  if ((65 <=? n) && (n <=? 90))%N then ascii_of_N (n + 32) else c.

Fixpoint lower (s : string) : string :=
  match s with
  | EmptyString => EmptyString
  | String c s' => String (lower_char c) (lower s')
  end.

(** [v.toLowerCase()]: only a string has the method. *)
Definition toLowerCase (v : value) : completion value :=
  match v with
  | VString s => Normal (VString (lower s))
  | VUndefined | VNull => Throw (TypeError "Cannot read properties of null or undefined")
  | _ => Throw (TypeError "toLowerCase is not a function")
  end.

(** [String(v).startsWith(p)], for a value whose conversion returns. *)
Definition startsWith (v : value) (p : string) : bool := String.prefix p (ToString v).

(** What the host decides: how a value prints for the locale
    ([toLocaleString()]), the time value of [new Date(v)] (NaN for an
    invalid date), how a time value prints for the locale with the
    options of [formatDate] and with none, and how
    [Intl.NumberFormat('en-US', { style: 'currency', currency: 'USD',
    maximumFractionDigits: 0 })] formats a value. [new Date(v)] and
    [format(v)] first convert [v] to a primitive: the host is asked
    about values whose conversion returns only ([formatDate_call],
    [formatCurrency]). *)
Record Host := {
  toLocaleString : value -> string;
  Date_getTime : value -> float;
  Date_toLocaleString_short : float -> string;
  Date_toLocaleString : float -> string;
  NumberFormat_format : value -> string
}.

(** [v.toLocaleString()]. *)
Definition toLocaleString_call (h : Host) (v : value) : completion value :=
  match v with
  | VUndefined | VNull => Throw (TypeError "Cannot read properties of null or undefined")
  | _ => Normal (VString (toLocaleString h v))
  end.

(** [v.map(f)]: only an array has the method; the elements are mapped
    in order and the first exception ends the call. *)
Definition Array_map {A} (f : value -> completion A) (v : value) : completion (list A) :=
  match v with
  | VArray elems => mapM f elems
  | VUndefined | VNull => Throw (TypeError "Cannot read properties of null or undefined")
  | _ => Throw (TypeError "map is not a function")
  end.

(** What a component returns: text, an expression in braces, or an
    element with its attributes ([className], [key], ...) and children. *)
Inductive node :=
| Text (s : string)
| Expr (v : value)
| Elem (tag : string) (attrs : list (string * value)) (children : list node).

(** [a && b] where [b] is an element. *)
Definition and_then (a : value) (b : node) : node :=
  if truthy a then b else Expr a.

(** The text a node shows: strings and numbers print, booleans, null
    and undefined do not, an array shows its elements one after the
    other. (An object is no valid child; nothing is shown for it
    here.) *)
Fixpoint shown (v : value) : string :=
  match v with
  | VString s => s
  | VNumber x => NumberToString x
  | VArray elems => foldr (fun e acc => shown e ++ acc) "" elems
  | _ => ""
  end.

Fixpoint text_of (n : node) : string :=
  match n with
  | Text s => s
  | Expr v => shown v
  | Elem _ _ children => foldr (fun c acc => text_of c ++ acc) "" children
  end.

(** An attribute of an element, and its [i]-th child. *)
Definition attr (k : string) (n : node) : option value :=
  match n with
  | Elem _ attrs _ => assoc k attrs
  | _ => None
  end.

Definition child (i : nat) (n : node) : option node :=
  match n with
  | Elem _ _ children => children !! i
  | _ => None
  end.

End Methods.

Import Methods.

(** ** The components that display the store *)

Module Components.

Definition className (s : string) : string * value := ("className", VString s).

(** *** [components/TradesTable.jsx] *)

(** What [formatDate] returns. *)
Definition formatDate (h : Host) (value : JS.value) : JS.value :=
  if negb (truthy value) then VString "—"
  else
    let date := Date_getTime h value in
    if is_nan date then value
    else VString (Date_toLocaleString_short h date).

(** A call of [formatDate]: [new Date(value)] converts a truthy value
    to a primitive, which may throw. *)
Definition formatDate_call (h : Host) (value : JS.value) : completion JS.value :=
  if truthy value && negb (converts value) then Throw conversion_error
  else Normal (formatDate h value).

(** The attribute [key={v}]: the element is made with the key as a
    string (['' + key]), a conversion that may throw. *)
Definition key (v : value) : completion (string * value) :=
  k ← ToString_call v; Normal ("key", VString k).

(** The P&L cell of a trade:
    [trade.pnl === 0 ? '—' : `${trade.pnl >= 0 ? '+' : '-'}$${Math.abs(trade.pnl).toFixed(2)}`]. *)
Definition trade_pnl_text (pnl : value) : completion value :=
  if is_zero_value pnl then Normal (VString "—")
  else
    fixed ← toFixed_call (VNumber (Math_abs (Number pnl))) 2;
    Normal (VString ((if ge_zero pnl then "+" else "-") ++ "$" ++ ToString fixed)).

(** [`is-right ${pnl >= 0 ? 'is-positive' : 'is-negative'}`]. *)
Definition signed_class (v : value) : string :=
  "is-right " ++ (if ge_zero v then "is-positive" else "is-negative").

(** [trade.side === 'BUY' ? 'is-buy' : trade.side === 'SELL' ? 'is-sell' : 'is-hold']. *)
Definition side_class (side : value) : string :=
  if is_the_string side "BUY" then "is-buy"
  else if is_the_string side "SELL" then "is-sell"
  else "is-hold".

(** One row of the table, for a normalized trade. *)
Definition TradesTable_row (h : Host) (trade : value) : completion node :=
  id ← get trade "id";
  date ← get trade "timestamp" ≫= formatDate_call h;
  symbol ← get trade "symbol";
  side ← get trade "side";
  quantity ← get trade "quantity" ≫= toLocaleString_call h;
  price ← get trade "price" ≫= (fun p => toFixed_call p 2);
  pnl ← get trade "pnl";
  pnl_text ← trade_pnl_text pnl;
  model ← get trade "model";
  k ← key id;
  Normal (Elem "tr" [k]
    [ Elem "td" [] [Expr date];
      Elem "td" [] [Elem "span" [className "ticker-pill"] [Expr symbol]];
      Elem "td" [] [Elem "span" [className ("trade-side " ++ side_class side)] [Expr side]];
      Elem "td" [className "is-right"] [Expr quantity];
      Elem "td" [className "is-right"] [Text "$"; Expr price];
      Elem "td" [className (signed_class pnl)] [Expr pnl_text];
      Elem "td" [] [Expr model] ]).

(** [const normalized = (trades ?? []).map(normalizeTrade)] and the
    rows made of it. *)
Definition TradesTable_rows (h : Host) (trades : value) : completion (list node) :=
  normalized ← (Normal trades ?? Normal (VArray [])) ≫= Array_map normalizeTrade;
  mapM (TradesTable_row h) normalized.

Definition TradesTable (h : Host) (trades : value) : completion node :=
  rows ← TradesTable_rows h trades;
  Normal (Elem "div" [className "trades-card"]
    [ Elem "div" [className "trades-card__header"]
        [ Elem "div" []
            [ Elem "h3" [] [Text "Trade History"];
              Elem "p" [] [Text "Executed orders from the reinforcement learning agent"] ] ];
      Elem "div" [className "trades-table__wrapper"]
        [ Elem "table" []
            [ Elem "thead" []
                [ Elem "tr" []
                    [ Elem "th" [] [Text "Timestamp"];
                      Elem "th" [] [Text "Ticker"];
                      Elem "th" [] [Text "Side"];
                      Elem "th" [className "is-right"] [Text "Quantity"];
                      Elem "th" [className "is-right"] [Text "Fill Price"];
                      Elem "th" [className "is-right"] [Text "P&L"];
                      Elem "th" [] [Text "Strategy"] ] ];
              Elem "tbody" [] rows ] ] ]).

(** *** [components/PositionsTable.jsx] *)

(** [{v >= 0 ? '+' : '-'}], the sign shown before a magnitude. *)
Definition sign_of (v : value) : value := VString (if ge_zero v then "+" else "-").

(** [Math.abs(v).toFixed(2)]. *)
Definition magnitude (v : value) : completion value :=
  toFixed_call (VNumber (Math_abs (Number v))) 2.

(** One row of the table, for a normalized position. *)
Definition PositionsTable_row (h : Host) (position : value) : completion node :=
  symbol ← get position "symbol";
  quantity ← get position "quantity" ≫= toLocaleString_call h;
  averagePrice ← get position "averagePrice" ≫= (fun p => toFixed_call p 2);
  marketPrice ← get position "marketPrice" ≫= (fun p => toFixed_call p 2);
  pnl ← get position "pnl";
  pnl_magnitude ← magnitude pnl;
  pnlPercent ← get position "pnlPercent";
  pnlPercent_magnitude ← magnitude pnlPercent;
  k ← key symbol;
  Normal (Elem "tr" [k]
    [ Elem "td" [] [Elem "span" [className "ticker-pill"] [Expr symbol]];
      Elem "td" [className "is-right"] [Expr quantity];
      Elem "td" [className "is-right"] [Text "$"; Expr averagePrice];
      Elem "td" [className "is-right"] [Text "$"; Expr marketPrice];
      Elem "td" [className (signed_class pnl)]
        [Expr (sign_of pnl); Text "$"; Expr pnl_magnitude];
      Elem "td" [className (signed_class pnlPercent)]
        [Expr (sign_of pnlPercent); Expr pnlPercent_magnitude; Text "%"] ]).

Definition PositionsTable_rows (h : Host) (positions : value) : completion (list node) :=
  normalized ← (Normal positions ?? Normal (VArray [])) ≫= Array_map normalizePosition;
  mapM (PositionsTable_row h) normalized.

Definition PositionsTable (h : Host) (positions : value) : completion node :=
  rows ← PositionsTable_rows h positions;
  Normal (Elem "div" [className "positions-card"]
    [ Elem "div" [className "positions-card__header"]
        [ Elem "div" []
            [ Elem "h3" [] [Text "Open Positions"];
              Elem "p" [] [Text "Live snapshot of managed holdings"] ] ];
      Elem "div" [className "positions-table__wrapper"]
        [ Elem "table" []
            [ Elem "thead" []
                [ Elem "tr" []
                    [ Elem "th" [] [Text "Ticker"];
                      Elem "th" [className "is-right"] [Text "Quantity"];
                      Elem "th" [className "is-right"] [Text "Avg. Price"];
                      Elem "th" [className "is-right"] [Text "Last"];
                      Elem "th" [className "is-right"] [Text "Unrealized P&L"];
                      Elem "th" [className "is-right"] [Text "Return"] ] ];
              Elem "tbody" [] rows ] ] ]).

(** *** [components/SignalGrid.jsx] *)

Definition headings : value :=
  object [ ("tech", VString "Tech Sector Agent"); ("energy", VString "Energy & Finance Agent") ].

(** [{Math.round(v * 100)}%]. *)
Definition percent_of (v : value) : list node :=
  [Expr (VNumber (Math_round (Number v * 100))); Text "%"].

(** One card of the grid, for a normalized signal. *)
Definition SignalGrid_card (signal : value) : completion node :=
  symbol ← get signal "symbol";
  action ← get signal "action";
  lowered ← toLowerCase action;
  confidence ← get signal "confidence";
  positionSize ← get signal "positionSize";
  thesis ← get signal "thesis";
  k ← key symbol;
  Normal (Elem "article"
    [k; className ("signal-card signal-" ++ ToString lowered)]
    [ Elem "header" []
        [ Elem "span" [className "signal-card__ticker"] [Expr symbol];
          Elem "span" [className "signal-card__action"] [Expr action] ];
      Elem "div" [className "signal-card__meta"]
        [ Elem "span" [] [Text "Confidence"; Elem "strong" [] (percent_of confidence)];
          Elem "span" [] [Text "Position size"; Elem "strong" [] (percent_of positionSize)] ];
      Elem "p" [className "signal-card__thesis"] [Expr thesis] ]).

Definition SignalGrid_cards (signals : value) : completion (list node) :=
  normalized ← (Normal signals ?? Normal (VArray [])) ≫= Array_map normalizeSignal;
  mapM SignalGrid_card normalized.

Definition SignalGrid (signals : value) (modelName : string) : completion node :=
  normalized ← (Normal signals ?? Normal (VArray [])) ≫= Array_map normalizeSignal;
  heading ← get headings modelName <||> Normal (VString "AI Trading Agent");
  cards ← mapM SignalGrid_card normalized;
  Normal (Elem "div" [className "signals-card"]
    [ Elem "div" [className "signals-card__header"]
        [ Elem "div" []
            [ Elem "h3" [] [Text "AI Signals"];
              Elem "p" [] [Expr heading; Text " strategic directives"] ] ];
      Elem "div" [className "signals-grid"] cards ]).

(** *** [components/StatCard.jsx] *)

Module StatCard.

Definition isPositive (delta : value) : bool :=
  if is_number delta then ge_zero delta else startsWith delta "+".

Definition formattedDelta (delta : value) : value :=
  match delta with
  | VNumber x => VString ((if ge_zero delta then "+" else "") ++ toFixed x 2 ++ "%")
  | _ => delta
  end.

Definition render (title value delta deltaLabel icon : value) : node :=
  Elem "div" [className "stat-card"]
    [ Elem "div" [className "stat-card__header"]
        [ Elem "span" [className "stat-card__title"] [Expr title];
          and_then icon (Elem "span" [className "stat-card__icon"] [Expr icon]) ];
      Elem "div" [className "stat-card__value"] [Expr value];
      match delta with
      | VUndefined => Expr (VBool false)
      | _ =>
          Elem "div"
            [className ("stat-card__delta " ++
                        (if isPositive delta then "is-positive" else "is-negative"))]
            [ Elem "span" [className "stat-card__delta-value"] [Expr (formattedDelta delta)];
              and_then deltaLabel
                (Elem "span" [className "stat-card__delta-label"] [Expr deltaLabel]) ]
      end ].

End StatCard.

(** A call of [StatCard]: [String(delta)] converts a delta that is not
    a number, which may throw. *)
Definition StatCard_call (title value delta deltaLabel icon : JS.value) : completion node :=
  if is_number delta || converts delta
  then Normal (StatCard.render title value delta deltaLabel icon)
  else Throw conversion_error.

(** *** [components/MetricTile.jsx] *)

Module MetricTile.

Definition isPositive (trend : value) : bool :=
  if is_number trend then ge_zero trend else startsWith trend "+".

Definition formattedTrend (trend : value) : value :=
  match trend with
  | VUndefined | VNull => VNull
  | VNumber x => VString ((if ge_zero trend then "+" else "") ++ toFixed x 1 ++ "%")
  | _ => trend
  end.

Definition render (label value sublabel trend : value) : node :=
  Elem "div" [className "metric-tile"]
    [ Elem "span" [className "metric-tile__label"] [Expr label];
      Elem "div" [className "metric-tile__value-row"]
        [ Elem "span" [className "metric-tile__value"] [Expr value];
          and_then (formattedTrend trend)
            (Elem "span"
               [className ("metric-tile__trend " ++
                           (if isPositive trend then "is-positive" else "is-negative"))]
               [Expr (formattedTrend trend)]) ];
      and_then sublabel (Elem "span" [className "metric-tile__sublabel"] [Expr sublabel]) ].

End MetricTile.

(** A call of [MetricTile]: [String(trend)] converts a trend that is
    not a number, which may throw. *)
Definition MetricTile_call (label value sublabel trend : JS.value) : completion node :=
  if is_number trend || converts trend
  then Normal (MetricTile.render label value sublabel trend)
  else Throw conversion_error.

(** *** [components/TabSwitcher.jsx] *)

Record tab := Tab { tab_id : string; tab_label : string }.

Definition tabs : list tab :=
  [ Tab "performance" "Performance"; Tab "signals" "AI Signals"; Tab "trades" "Trade History" ].

(** The attribute [onClick] holds the identifier the handler passes to
    [onChange]. *)
Definition TabSwitcher (activeTab : value) : node :=
  Elem "div" [className "tab-switcher"]
    ((fun tab =>
        Elem "button"
          [ ("key", VString (tab_id tab)); ("type", VString "button");
            className ("tab-switcher__button " ++
                       (if is_the_string activeTab (tab_id tab) then "is-active" else ""));
            ("onClick", VString (tab_id tab)) ]
          [Expr (VString (tab_label tab))]) <$> tabs).

(** *** [App.jsx]: what the component derives from the store *)

Record model_option := ModelOption { option_value : string; option_label : string }.

Definition MODEL_OPTIONS : list model_option :=
  [ ModelOption "tech" "Tech Sector Agent"; ModelOption "energy" "Energy & Finance Agent" ].

(** [formatCurrency]: [format(value)] converts the value to a
    primitive, which may throw. *)
Definition formatCurrency (h : Host) (v : value) : completion value :=
  if converts v then Normal (VString (NumberFormat_format h v)) else Throw conversion_error.

(** [formatPercent]; a call with one argument has [fractionDigits = 1].
    The comparison converts the value, which may throw; only a number
    has [toFixed]. *)
Definition formatPercent (v : value) (fractionDigits : Z) : completion value :=
  sign ← (fun x => if (0 <=? x)%float then "+" else "") <$> Number_call v;
  fixed ← toFixed_call v fractionDigits;
  Normal (VString (sign ++ ToString fixed ++ "%")).

(** [performance.metrics.k] and [mockPerformance.metrics.k]. *)
Definition metric (performance : value) (k : string) : completion value :=
  get performance "metrics" ≫= (fun m => get m k).

(** An icon element, [<Name size={20} />]. *)
Definition icon (name : string) : value :=
  object [ ("type", VString name); ("size", VNumber 20) ].

Definition topStats (h : Host) (performance : value) : completion (list value) :=
  portfolioValue ←
    (metric performance "portfolioValue" <||> metric mockPerformance "portfolioValue")
      ≫= formatCurrency h;
  portfolioChange ← metric performance "portfolioChange" ?? metric mockPerformance "portfolioChange";
  dailyPnl ← (metric performance "dailyPnl" ?? metric mockPerformance "dailyPnl")
               ≫= formatCurrency h;
  dailyPnlPercent ← metric performance "dailyPnlPercent" ?? metric mockPerformance "dailyPnlPercent";
  openPositions ← metric performance "openPositions" ?? metric mockPerformance "openPositions";
  openPositionsChange ←
    metric performance "openPositionsChange" ?? metric mockPerformance "openPositionsChange";
  winRate ← (metric performance "winRate" ?? metric mockPerformance "winRate")
              ≫= (fun w => toFixed_call w 1);
  winRateChange ← metric performance "winRateChange" ?? metric mockPerformance "winRateChange";
  Normal
    [ object [ ("title", VString "Portfolio Value");
               ("value", portfolioValue);
               ("delta", portfolioChange);
               ("deltaLabel", VString "vs. 90-day baseline");
               ("icon", icon "TrendingUp") ];
      object [ ("title", VString "Daily P&L");
               ("value", dailyPnl);
               ("delta", dailyPnlPercent);
               ("deltaLabel", VString "session change");
               ("icon", icon "DollarSign") ];
      object [ ("title", VString "Open Positions");
               ("value", openPositions);
               ("delta", openPositionsChange);
               ("deltaLabel", VString "day-over-day");
               ("icon", icon "Activity") ];
      object [ ("title", VString "Win Rate");
               ("value", VString (ToString winRate ++ "%"));
               ("delta", winRateChange);
               ("deltaLabel", VString "30-day rolling");
               ("icon", icon "ShieldCheck") ] ].

Definition secondaryStats (h : Host) (performance : value) : completion (list value) :=
  rollingSharpe ←
    (rollingSharpe ← metric performance "rollingSharpe";
     if nullish rollingSharpe then Normal VUndefined else toFixed_call rollingSharpe 2)
    ?? (metric mockPerformance "rollingSharpe" ≫= (fun r => toFixed_call r 2));
  sharpeRatioChange ←
    metric performance "sharpeRatioChange" ?? metric mockPerformance "sharpeRatioChange";
  maxDrawdown ← (metric performance "maxDrawdown" ?? metric mockPerformance "maxDrawdown")
                  ≫= (fun d => formatPercent d 1);
  maxDrawdownChange ←
    metric performance "maxDrawdownChange" ?? metric mockPerformance "maxDrawdownChange";
  buyingPower ← (metric performance "buyingPower" ?? metric mockPerformance "buyingPower")
                  ≫= formatCurrency h;
  aiConfidence ← (metric performance "aiConfidence" ?? metric mockPerformance "aiConfidence")
                   ≫= ToString_call;
  Normal
    [ object [ ("label", VString "Rolling Sharpe (60d)");
               ("value", rollingSharpe);
               ("trend", sharpeRatioChange);
               ("sublabel", VString "Risk-adjusted performance") ];
      object [ ("label", VString "Max Drawdown");
               ("value", maxDrawdown);
               ("trend", maxDrawdownChange);
               ("sublabel", VString "Since inception") ];
      object [ ("label", VString "Buying Power");
               ("value", buyingPower);
               ("trend", VNull);
               ("sublabel", VString "Available for deployment") ];
      object [ ("label", VString "AI Confidence");
               ("value", VString (aiConfidence ++ "%"));
               ("trend", VNull);
               ("sublabel", VString "Signal agreement across models") ] ].

(** [<StatCard key={stat.title} {...stat} />] for each of [topStats]. *)
Definition stats_grid (h : Host) (performance : value) : completion (list node) :=
  stats ← topStats h performance;
  mapM (fun stat =>
          title ← get stat "title";
          v ← get stat "value";
          delta ← get stat "delta";
          deltaLabel ← get stat "deltaLabel";
          i ← get stat "icon";
          StatCard_call title v delta deltaLabel i) stats.

(** [<MetricTile key={metric.label} {...metric} />] for each of
    [secondaryStats]. *)
Definition metrics_grid (h : Host) (performance : value) : completion (list node) :=
  stats ← secondaryStats h performance;
  mapM (fun metric =>
          label ← get metric "label";
          v ← get metric "value";
          sublabel ← get metric "sublabel";
          trend ← get metric "trend";
          MetricTile_call label v sublabel trend) stats.

End Components.

Import Components.

(** ** The vocabulary of the statements about the display *)

Module Views.

(** A host for the examples: it prints a value as [ToString] does, a
    time value as a number, and reads no date. *)
Definition plain_host : Host :=
  {| toLocaleString := ToString;
     Date_getTime := fun _ => nan;
     Date_toLocaleString_short := NumberToString;
     Date_toLocaleString := NumberToString;
     NumberFormat_format := ToString |}.

(** The text under "Confidence" on the card of the signal [raw]. *)
Definition confidence_shown (raw : value) : completion string :=
  signal ← normalizeSignal raw;
  confidence ← get signal "confidence";
  Normal (text_of (Elem "strong" [] (percent_of confidence))).

Definition percent_text (n : nat) : string := string_of_Z (Z.of_nat n) ++ "%".

(** A confidence of [n] percent shows as [n%] whether it arrives as
    the fraction [n / 100] or as the number [n]; the numbers 0 and 1
    are read as fractions. *)
Definition both_scales_agree (n : nat) : bool :=
  match confidence_shown (object [("confidence", VNumber (float_of_nat n / 100))]),
        confidence_shown (object [("confidence", VNumber (float_of_nat n))]) with
  | Normal fraction, Normal percent =>
      String.eqb fraction (percent_text n) &&
      String.eqb percent (percent_text (if (n <=? 1)%nat then 100 * n else n))
  | _, _ => false
  end.


(** A metric as the tiles read it: the stored one, or the sample one
    when none is stored. *)
Definition stored_or_sample (metrics : gmap string value) (k : string) : value :=
  first_of metrics [k] (read (read mockPerformance "metrics") k).

(** What the store holds as the performance: an object with an object
    of metrics. *)
Definition has_metrics (v : value) : Prop :=
  exists metrics curve, v = object [("metrics", VObject metrics); ("equityCurve", curve)].

(** While the component is mounted, a loading flag that is set has a
    cycle of the current run behind it. *)
Definition awaited (a : app) : Prop :=
  mounted a = true -> loading (state a) = true -> exists i, is_active a i = true.

(** The component after it was unmounted: no timer, no run whose flag
    is set. *)
Definition torn_down (a : app) : Prop :=
  mounted a = false /\ refreshInterval a = None /\ runs a <> [] /\
  forall j c, runs a !! j = Some c -> isMounted c = false.

(** *** The re-render that follows a refresh *)

(** The component once the [i]-th cycle in flight has run to its end
    with the responses [f]: what is rendered next. *)
Definition settled (i : nat) (f : fetches) (a : app) : option app :=
  k ← in_flight a !! i;
  c ← runs a !! k;
  Some (App (selectedModel a)
            (snd (fetchDashboardData_resume (isMounted c) (model c) f (state a)))
            (runs a) (refreshInterval a) (delete i (in_flight a)) (mounted a)).

(** The same event with the re-render: [renders] tells of the
    component whether its render returns. A cycle whose flag is set
    calls the setters, so the component is rendered again; when that
    render throws (no error boundary is around it), React removes the
    component, which runs the cleanup of the effect and no effect. A
    cycle whose flag is cleared sets no state: nothing is rendered. *)
Definition settle_rendered (renders : app -> bool) (i : nat) (f : fetches) (a : app)
    : option app :=
  a1 ← settled i f a;
  if mounted a && is_active a i && negb (renders a1) then step Unmount a1
  else step (Settle i f) a.

(** *** The rows and cards a table or grid accepts *)

(** The record makes a row of [TradesTable]: the normalizer returns
    for it (its conversions return and its side is a string), and so do
    the conversions of the row, that of a truthy time stamp to a date and
    that of the id to a key. *)
Definition trade_accepted (r : gmap string value) : bool :=
  trade_converts r
  && is_string (first_of r ["side"; "action"; "type"] (VString "HOLD"))
  && (negb (truthy (first_of r ["timestamp"; "filled_at"; "created_at"] VNull))
      || converts (first_of r ["timestamp"; "filled_at"; "created_at"] VNull))
  && converts (first_of r ["id"; "trade_id"; "order_id"] (VString "")).

(** The record makes a row of [PositionsTable]: the conversions of the
    normalizer return, and that of the symbol to a key. *)
Definition position_accepted (r : gmap string value) : bool :=
  position_converts r
  && converts (first_of r ["symbol"; "ticker"; "asset"] (VString "—")).

(** The record makes a card of [SignalGrid]. *)
Definition signal_accepted (r : gmap string value) : bool :=
  signal_converts r
  && is_string (first_of r ["action"; "side"] (VString "HOLD"))
  && converts (first_of r ["symbol"; "ticker"] (VString "—")).



Definition aliased_trade : gmap string value :=
  list_to_map [("ticker", VString "AAPL"); ("filled_at", VString "2025-11-10T14:35:00Z")].

End Views.

Import Views.

(** ** Properties of the runtime *)

(** *** Binary64 arithmetic *)

Lemma SFcompare_refl_finite s m e : SFcompare (S754_finite s m e) (S754_finite s m e) = Some Eq.
Proof.
  unfold SFcompare. destruct s; rewrite Z.compare_refl.
  - rewrite Pos.compare_cont_refl. reflexivity.
  - rewrite Pos.compare_cont_refl. reflexivity.
Qed.

Lemma is_finite_SF x : is_finite x = SFfinite (Prim2SF x).
Proof.
  unfold is_finite, is_nan, is_infinity.
  rewrite !FloatAxioms.eqb_spec, FloatAxioms.abs_spec.
  change (Prim2SF infinity) with (S754_infinity false).
  destruct (Prim2SF x) as [s|s| |s m e]; try (destruct s; reflexivity).
  - reflexivity.
  - unfold SFeqb. rewrite SFcompare_refl_finite. reflexivity.
Qed.

Lemma digits2_size p : digits2_pos p = Pos.size p.
Proof. induction p; simpl; congruence. Qed.










(** *** Division by 100 *)








Lemma digits2_iter_xO p k : digits2_pos (Pos.iter xO p k) = (digits2_pos p + k)%positive.
Proof.
  induction k as [|k IH] using Pos.peano_ind.
  - simpl. lia.
  - rewrite Pos.iter_succ. simpl. rewrite IH. lia.
Qed.

Lemma digits2_le_prec p : Z.pos p < 2 ^ prec -> Z.pos (digits2_pos p) <= prec.
Proof.
  intros Hlt. rewrite digits2_size.
  destruct (Z.le_gt_cases (Z.pos (Pos.size p)) prec) as [|Hgt]; [assumption|exfalso].
  pose proof (Pos.size_le p) as Hs.
  apply Pos2Z.pos_le_pos in Hs. rewrite Pos2Z.inj_pow in Hs.
  assert (2 ^ (prec + 1) <= 2 ^ Z.pos (Pos.size p)) by (apply Z.pow_le_mono_r; lia).
  unfold prec in *. rewrite Z.pow_add_r in * by lia. lia.
Qed.

(** A mantissa with exactly [prec] digits is kept as it is. *)
Lemma binary_round_aux_exact m e :
  Z.pos (digits2_pos m) = prec -> emin prec emax <= e <= emax - prec ->
  binary_round_aux prec emax false (Z.pos m) e loc_Exact = S754_finite false m e.
Proof.
  intros Hd He.
  assert (fexp prec emax (Zdigits2 (Z.pos m) + e) - e = 0) as Hn.
  { simpl Zdigits2. rewrite Hd. unfold fexp. lia. }
  unfold binary_round_aux, shr_fexp.
  rewrite Hn. cbn [shr shr_record_of_loc shr_m loc_of_shr_record round_nearest_even].
  rewrite Hn. cbn [shr shr_record_of_loc shr_m].
  destruct He as [_ He]. apply Z.leb_le in He. rewrite He. reflexivity.
Qed.

Lemma binary_normalize_pos p :
  Z.pos p < 2 ^ prec ->
  exists m e, binary_normalize prec emax (Z.pos p) 0 false = S754_finite false m e /\
              SpecFloat.valid_binary prec emax (S754_finite false m e) = true.
Proof.
  intros Hlt. pose proof (digits2_le_prec p Hlt) as Hd.
  unfold binary_normalize, binary_round, shl_align.
  assert (fexp prec emax (Z.pos (digits2_pos p) + 0) = Z.pos (digits2_pos p) - prec) as Hf.
  { unfold fexp, emin, emax, prec in *. lia. }
  rewrite Hf.
  destruct (Z.pos (digits2_pos p) - prec - 0) as [|d|d] eqn:Ed.
  - exists p, 0. split.
    + apply binary_round_aux_exact; [lia|unfold emin, emax, prec; lia].
    + unfold SpecFloat.valid_binary, bounded, canonical_mantissa.
      apply andb_true_intro. split; [apply Z.eqb_eq|reflexivity].
      unfold fexp, emin, emax, prec in *. lia.
  - lia.
  - assert (Z.pos (digits2_pos (Pos.iter xO p d)) = prec) as Hd'.
    { rewrite digits2_iter_xO. lia. }
    exists (Pos.iter xO p d), (Z.pos (digits2_pos p) - prec). split.
    + apply binary_round_aux_exact; [exact Hd'|unfold emin, emax, prec in *; lia].
    + unfold SpecFloat.valid_binary, bounded, canonical_mantissa.
      apply andb_true_intro. split; [apply Z.eqb_eq|apply Z.leb_le].
      * rewrite Hd'. unfold fexp, emin, emax, prec in *. lia.
      * unfold emax, prec in *. lia.
Qed.

Lemma float_of_Z_nonzero z : 0 < z < 2 ^ prec -> is_zero (float_of_Z z) = false.
Proof.
  intros [Hz Hlt]. destruct z as [|p|p]; try lia.
  destruct (binary_normalize_pos p Hlt) as (m & e & Hn & Hv).
  unfold float_of_Z, is_zero. rewrite FloatAxioms.eqb_spec, Hn, FloatAxioms.Prim2SF_SF2Prim by exact Hv.
  reflexivity.
Qed.

Lemma float_of_Z_not_nan z : 0 < z < 2 ^ prec -> is_nan (float_of_Z z) = false.
Proof.
  intros [Hz Hlt]. destruct z as [|p|p]; try lia.
  destruct (binary_normalize_pos p Hlt) as (m & e & Hn & Hv).
  unfold float_of_Z, is_nan. rewrite FloatAxioms.eqb_spec, Hn, FloatAxioms.Prim2SF_SF2Prim by exact Hv.
  unfold SFeqb, SFcompare. rewrite Z.compare_refl, Pos.compare_cont_refl. reflexivity.
Qed.

(** *** Values *)

Lemma bind_normal {A B} (a : A) (k : A -> completion B) : (Normal a ≫= k) = k a.
Proof. reflexivity. Qed.


Lemma coalesce_cons (props : gmap string value) k ks d :
  get (VObject props) k ?? Normal (first_of props ks d) = Normal (first_of props (k :: ks) d).
Proof.
  unfold coalesce, get. rewrite bind_normal. cbn [first_of].
  destruct (props !! k) as [v|]; cbn [default from_option id]; [|reflexivity].
  destruct (nullish v); reflexivity.
Qed.

Lemma coalesce_nil (props : gmap string value) (d : value) :
  Normal d = Normal (first_of props [] d).
Proof. reflexivity. Qed.

Ltac chains props :=
  repeat match goal with
    | |- context [get (VObject props) ?k ?? Normal ?d] =>
        lazymatch d with
        | first_of _ _ _ => rewrite (coalesce_cons props k)
        | _ => rewrite (coalesce_nil props d), (coalesce_cons props k)
        end
    end.

(** An alias chain whose last operand may throw is evaluated only when
    every alias is missing. *)
Lemma coalesce_cons_default (props : gmap string value) k ks (b : completion value) :
  get (VObject props) k
    ?? (if nullish (first_of props ks VNull) then b else Normal (first_of props ks VNull))
  = if nullish (first_of props (k :: ks) VNull) then b
    else Normal (first_of props (k :: ks) VNull).
Proof.
  unfold coalesce, get. rewrite bind_normal. cbn [first_of].
  destruct (props !! k) as [v|]; cbn [default from_option id nullish]; [|reflexivity].
  destruct (nullish v) eqn:E; [reflexivity|]. by rewrite E.
Qed.

Lemma first_of_default props ks d :
  first_of props ks d =
  if nullish (first_of props ks VNull) then d else first_of props ks VNull.
Proof.
  induction ks as [|k ks IH]; cbn [first_of]; [reflexivity|].
  destruct (props !! k) as [v|]; [|exact IH].
  destruct (nullish v) eqn:E; [exact IH|]. by rewrite E.
Qed.

Lemma first_of_missing props ks d :
  Forall (missing props) ks -> first_of props ks d = d.
Proof.
  induction 1 as [|k ks Hk _ IH]; [reflexivity|].
  cbn [first_of]. unfold missing in Hk.
  destruct (props !! k) as [v|]; [rewrite Hk|]; exact IH.
Qed.

Lemma upper_char_idem c : upper_char (upper_char c) = upper_char c.
Proof. destruct c as [[] [] [] [] [] [] [] []]; reflexivity. Qed.

Lemma upper_idem s : upper (upper s) = upper s.
Proof. induction s as [|c s IH]; cbn [upper]; [reflexivity|]. by rewrite upper_char_idem, IH. Qed.

Lemma finite_or_zero_finite x : isFinite (finite_or_zero x) = true.
Proof. unfold finite_or_zero. destruct (isFinite x) eqn:E; [exact E|reflexivity]. Qed.

Lemma finite_or_zero_idem x : finite_or_zero (finite_or_zero x) = finite_or_zero x.
Proof. unfold finite_or_zero at 1. by rewrite finite_or_zero_finite. Qed.

(** ** The normalizers, declaratively *)

(** The conversion of the value the alias chain that starts with [k]
    reads either returns or ends the call. *)
Ltac convert k :=
  match goal with
  | |- context [converts (first_of ?props (k :: ?ks) ?d)] =>
      destruct (converts (first_of props (k :: ks) d))
  end;
  cbn [andb]; cbv iota; [rewrite bind_normal|reflexivity].

Lemma normalizePosition_object (props : gmap string value) :
  normalizePosition (VObject props) =
  let a := Number (first_of props ["averagePrice"; "avg_price"; "avgEntryPrice";
                                   "avg_entry_price"] (VNumber 0)) in
  let m := Number (first_of props ["marketPrice"; "current_price"; "currentPrice";
                                   "market_price"] (VNumber 0)) in
  let r := Number (first_of props ["unrealizedPnlPercent"; "unrealized_plpc";
                                   "unrealized_pl_percent"; "pnl_percent"] (VNumber 0)) in
  if position_converts props then
  Normal (object
    [ ("symbol", first_of props ["symbol"; "ticker"; "asset"] (VString "—"));
      ("quantity",
        VNumber (finite_or_zero
                   (Number (first_of props ["quantity"; "qty"; "shares"] (VNumber 0)))));
      ("averagePrice", VNumber (finite_or_zero (or_number a m)));
      ("marketPrice", VNumber (finite_or_zero (or_number m a)));
      ("pnl",
        VNumber (finite_or_zero
                   (Number (first_of props ["unrealizedPnl"; "unrealized_pl"; "unrealized_pl";
                                            "pnl"] (VNumber 0)))));
      ("pnlPercent",
        VNumber (if isFinite r
                 then if (1 <? Math_abs r)%float then r else (r * 100)%float
                 else 0%float)) ])
  else Throw conversion_error.
Proof.
  unfold normalizePosition, position_converts, averagePrice_aliases, marketPrice_aliases.
  chains props. rewrite !bind_normal. unfold Number_call. cbv zeta.
  convert "quantity". convert "averagePrice". convert "marketPrice".
  convert "unrealizedPnl". convert "unrealizedPnlPercent".
  reflexivity.
Qed.

Lemma bind_get {B} (props : gmap string value) k (f : value -> completion B) :
  (get (VObject props) k ≫= f) = f (default VUndefined (props !! k)).
Proof. reflexivity. Qed.

Lemma normalizeTrade_object (props : gmap string value) :
  normalizeTrade (VObject props) =
  if trade_converts props then
  normalizedSide ← toUpperCase (first_of props ["side"; "action"; "type"] (VString "HOLD"));
  Normal (object
    [ ("id",
        first_of props ["id"; "trade_id"; "order_id"]
          (VString (ToString (default VUndefined (props !! "symbol")) ++ "-"
                      ++ ToString (default VUndefined (props !! "timestamp")))));
      ("timestamp", first_of props ["timestamp"; "filled_at"; "created_at"] VNull);
      ("symbol", first_of props ["symbol"; "ticker"] (VString "—"));
      ("side", normalizedSide);
      ("quantity",
        VNumber (finite_or_zero
                   (Number (first_of props ["quantity"; "qty"; "shares"] (VNumber 0)))));
      ("price",
        VNumber (finite_or_zero
                   (Number (first_of props ["price"; "fill_price"; "filled_avg_price"]
                                     (VNumber 0)))));
      ("pnl",
        VNumber (finite_or_zero
                   (Number (first_of props ["pnl"; "profit"; "realized_pl"] (VNumber 0)))));
      ("model", first_of props ["model"; "strategy"] (VString "AI Agent")) ])
  else Throw conversion_error.
Proof.
  unfold normalizeTrade, trade_converts.
  rewrite (first_of_default props ["id"; "trade_id"; "order_id"] (VString _)).
  match goal with
  | |- context [get (VObject props) "order_id" ?? ?b] =>
      change (get (VObject props) "order_id" ?? b)
        with (get (VObject props) "order_id"
                ?? (if nullish (first_of props [] VNull) then b
                    else Normal (first_of props [] VNull)))
  end.
  rewrite !coalesce_cons_default, !bind_get. chains props.
  rewrite !bind_normal. unfold Number_call, ToString_call.
  convert "quantity". convert "price". convert "pnl".
  destruct (nullish (first_of props ["id"; "trade_id"; "order_id"] VNull));
    cbn [negb orb]; [|reflexivity].
  destruct (converts (default VUndefined (props !! "symbol")));
    cbn [andb]; cbv iota; [rewrite bind_normal|reflexivity].
  destruct (converts (default VUndefined (props !! "timestamp")));
    cbn [andb]; cbv iota; [rewrite bind_normal|reflexivity].
  reflexivity.
Qed.

Lemma normalizeSignal_object (props : gmap string value) :
  normalizeSignal (VObject props) =
  let c := Number (first_of props ["confidence"; "score"; "signal_strength"] (VNumber 0)) in
  let p := Number (first_of props ["positionSize"; "weight"; "position_size"] (VNumber 0)) in
  if signal_converts props then
  action ← toUpperCase (first_of props ["action"; "side"] (VString "HOLD"));
  Normal (object
    [ ("symbol", first_of props ["symbol"; "ticker"] (VString "—"));
      ("action", action);
      ("confidence", VNumber (if (1 <? c)%float then (c / 100)%float else c));
      ("positionSize", VNumber (if (1 <? p)%float then (p / 100)%float else p));
      ("thesis",
        first_of props ["thesis"; "reason"; "notes"] (VString "Signal details unavailable.")) ])
  else Throw conversion_error.
Proof.
  unfold normalizeSignal, signal_converts. chains props.
  rewrite !bind_normal. unfold Number_call. cbv zeta.
  convert "confidence". convert "positionSize".
  destruct (toUpperCase _); reflexivity.
Qed.

(** What a normalizer returned, it returned after its conversions. *)
Ltac returned H :=
  first [rewrite normalizeTrade_object in H
        |rewrite normalizeSignal_object in H
        |rewrite normalizePosition_object in H];
  cbv zeta in H;
  match type of H with
  | (if ?b then _ else _) = _ => destruct b eqn:?; [|discriminate H]
  end.

(** Two numbers that differ, by comparing them. *)
Ltac float_neq :=
  let H := fresh in
  intro H;
  match type of H with
  | Normal (VNumber ?x) = Normal (VNumber ?y) =>
      apply (f_equal (fun c => match c with
                               | Normal (VNumber z) => PrimFloat.eqb z y
                               | _ => true
                               end)) in H;
      vm_compute in H; discriminate H
  end.

(** ** Reading the fields of a normalized record *)

Lemma lookup_object (fields : list (string * value)) k :
  (list_to_map fields : gmap string value) !! k = assoc k fields.
Proof.
  induction fields as [|[k' v] fields IH]; [reflexivity|].
  cbn [list_to_map foldr uncurry fst snd curry assoc].
  destruct (String.eqb_spec k' k) as [->|Hne].
  - by rewrite lookup_insert_eq.
  - by rewrite lookup_insert_ne.
Qed.

Lemma get_object (fields : list (string * value)) k :
  get (object fields) k = Normal (default VUndefined (assoc k fields)).
Proof. unfold object, get. by rewrite lookup_object. Qed.

(** Reads of concrete names from an object literal. *)
Ltac read_fields :=
  rewrite ?get_object, ?lookup_object;
  cbn [assoc String.eqb Ascii.eqb Bool.eqb default from_option id].

(** ** Percentage-like fields *)

(** For a number that is at least -1, [raw > 1] tests the magnitude. *)
Lemma above_minus_one_abs_ltb c :
  (-1 <=? c)%float = true -> (1 <? Math_abs c)%float = (1 <? c)%float.
Proof.
  unfold Math_abs. rewrite FloatAxioms.leb_spec, !FloatAxioms.ltb_spec, FloatAxioms.abs_spec.
  change (Prim2SF (-1)) with (S754_finite true 4503599627370496 (-52)).
  change (Prim2SF 1) with (S754_finite false 4503599627370496 (-52)).
  destruct (Prim2SF c) as [[]|[]| |[] m e]; try reflexivity; try discriminate.
  unfold SFleb, SFltb, SFabs, SFcompare.
  destruct (-52 ?= e); [|discriminate|reflexivity].
  destruct (Pos.compare_cont Eq 4503599627370496 m); cbn [CompOpp];
    (discriminate || reflexivity).
Qed.

(** C3, as the code has it, for the records the normalizers return
    for. The position normalizer keeps a finite P&L percent whose
    magnitude exceeds 1, multiplies any other finite one by 100 and
    gives 0 for one that is not finite. The signal normalizer divides a
    confidence or position size that is at least -1 by 100 when its
    magnitude exceeds 1 and keeps it otherwise. Confidence 0.82 and 82
    both give 0.82; P&L percent 3.12 gives 3.12 and 0.0312 gives
    0.0312 * 100, which in binary64 is 3.1199999999999997, the number
    just below 3.12. *)
Theorem scale_rule (signal position : gmap string value) (s p : value) :
  normalizeSignal (VObject signal) = Normal s ->
  normalizePosition (VObject position) = Normal p ->
  let c := Number (first_of signal ["confidence"; "score"; "signal_strength"] (VNumber 0)) in
  let w := Number (first_of signal ["positionSize"; "weight"; "position_size"] (VNumber 0)) in
  let r := Number (first_of position ["unrealizedPnlPercent"; "unrealized_plpc";
                                      "unrealized_pl_percent"; "pnl_percent"] (VNumber 0)) in
  ((-1 <=? c)%float = true ->
   get s "confidence" =
     Normal (VNumber (if (1 <? Math_abs c)%float then (c / 100)%float else c))) /\
  ((-1 <=? w)%float = true ->
   get s "positionSize" =
     Normal (VNumber (if (1 <? Math_abs w)%float then (w / 100)%float else w))) /\
  get p "pnlPercent" =
    Normal (VNumber (if isFinite r
                     then if (1 <? Math_abs r)%float then r else (r * 100)%float
                     else 0%float)) /\
  field "confidence" (normalizeSignal (object [("confidence", VNumber 0.82)])) =
    Normal (VNumber 0.82) /\
  field "confidence" (normalizeSignal (object [("confidence", VNumber 82)])) =
    Normal (VNumber 0.82) /\
  field "pnlPercent" (normalizePosition (object [("unrealizedPnlPercent", VNumber 3.12)])) =
    Normal (VNumber 3.12) /\
  field "pnlPercent" (normalizePosition (object [("unrealizedPnlPercent", VNumber 0.0312)])) =
    Normal (VNumber 3.1199999999999997) /\
  next_up 3.1199999999999997 = 3.12%float.
Proof.
  intros Hs Hp c w r. returned Hs. returned Hp.
  destruct (toUpperCase _) as [action|e]; [|discriminate Hs].
  rewrite bind_normal in Hs. injection Hs as <-. injection Hp as <-.
  read_fields. fold c w r.
  split; [intros Hc; by rewrite (above_minus_one_abs_ltb c Hc)|].
  split; [intros Hw; by rewrite (above_minus_one_abs_ltb w Hw)|].
  split; [reflexivity|].
  repeat split; vm_compute; reflexivity.
Qed.

Lemma scale_rule_witness :
  field "confidence"
    (normalizeSignal (object [("confidence", VNumber 82); ("weight", VNumber (-0.5))]))
    = Normal (VNumber 0.82) /\
  field "positionSize"
    (normalizeSignal (object [("confidence", VNumber 82); ("weight", VNumber (-0.5))]))
    = Normal (VNumber (-0.5)) /\
  field "pnlPercent" (normalizePosition (object [("unrealized_plpc", VNumber (-2.62))]))
    = Normal (VNumber (-2.62)).
Proof.
  assert (normalizeSignal (object [("confidence", VNumber 82); ("weight", VNumber (-0.5))])
          = Normal (object [ ("symbol", VString "—"); ("action", VString "HOLD");
                             ("confidence", VNumber 0.82); ("positionSize", VNumber (-0.5));
                             ("thesis", VString "Signal details unavailable.") ])) as Hs
    by (vm_compute; reflexivity).
  assert (normalizePosition (object [("unrealized_plpc", VNumber (-2.62))])
          = Normal (object [ ("symbol", VString "—"); ("quantity", VNumber 0);
                             ("averagePrice", VNumber 0); ("marketPrice", VNumber 0);
                             ("pnl", VNumber 0); ("pnlPercent", VNumber (-2.62)) ])) as Hp
    by (vm_compute; reflexivity).
  destruct (scale_rule _ _ _ _ Hs Hp) as (Hc & Hw & Hr & _).
  rewrite Hs, Hp. unfold field. rewrite !bind_normal.
  split; [apply Hc; vm_compute; reflexivity|].
  split; [apply Hw; vm_compute; reflexivity|exact Hr].
Defined.

(** C3 as stated fails twice: a signal value below -1 is not rescaled
    (the test is [raw > 1], not [|raw| > 1]), and 0.0312 does not give
    exactly 3.12. *)
Lemma scale_rule_counterexample :
  (1 <? Math_abs (-82))%float = true /\
  field "positionSize" (normalizeSignal (object [("weight", VNumber (-82))])) =
    Normal (VNumber (-82)) /\
  field "positionSize" (normalizeSignal (object [("weight", VNumber (-82))])) <>
    Normal (VNumber (-0.82)) /\
  field "pnlPercent" (normalizePosition (object [("unrealizedPnlPercent", VNumber 0.0312)])) <>
    Normal (VNumber 3.12).
Proof.
  split; [reflexivity|]. split; [vm_compute; reflexivity|].
  split; vm_compute; float_neq.
Qed.



(** ** Safe defaults *)






(** ** Normalizing a normalized record *)

Lemma first_of_nullish props ks d :
  nullish (first_of props ks d) = true -> first_of props ks d = d.
Proof.
  induction ks as [|k ks IH]; cbn [first_of]; [reflexivity|].
  destruct (props !! k) as [v|]; [|exact IH].
  destruct (nullish v) eqn:Ev; [exact IH|]. congruence.
Qed.

Lemma first_of_not_nullish props ks d :
  nullish d = false -> nullish (first_of props ks d) = false.
Proof.
  intros Hd. destruct (nullish (first_of props ks d)) eqn:E; [|reflexivity].
  rewrite (first_of_nullish _ _ _ E) in E. congruence.
Qed.

(** Names the value the alias chain that starts with [k] reads. *)
Ltac name_chain x k :=
  match goal with
  | |- context [first_of ?props (k :: ?ks) ?d] => set (x := first_of props (k :: ks) d)
  end.

Lemma normalizeTrade_idempotent (props : gmap string value) (c : value) :
  normalizeTrade (VObject props) = Normal c -> normalizeTrade c = Normal c.
Proof.
  rewrite normalizeTrade_object.
  destruct (trade_converts props); [|discriminate].
  name_chain ident "id". name_chain ts "timestamp". name_chain smb "symbol".
  name_chain mdl "model". name_chain q "quantity". name_chain pr "price". name_chain pnl "pnl".
  assert (nullish ident = false) as Hid by (by apply first_of_not_nullish).
  assert (nullish smb = false) as Hsym by (by apply first_of_not_nullish).
  assert (nullish mdl = false) as Hmdl by (by apply first_of_not_nullish).
  destruct (first_of props ["side"; "action"; "type"] _) as [| | | |side| |];
    try discriminate.
  cbn [toUpperCase]. rewrite bind_normal. intros [= <-].
  unfold object at 1. rewrite normalizeTrade_object. unfold trade_converts.
  cbn [first_of]. read_fields. cbn [nullish].
  rewrite Hid, Hsym, Hmdl. cbn [converts andb]. rewrite Hid. cbn [negb orb].
  cbn [toUpperCase Number]. rewrite bind_normal, upper_idem.
  rewrite !finite_or_zero_idem.
  destruct (nullish ts) eqn:Hts; [|reflexivity].
  subst ts. by rewrite (first_of_nullish _ _ _ Hts).
Qed.

Lemma normalizeSignal_idempotent (props : gmap string value) (c : value) x y :
  normalizeSignal (VObject props) = Normal c ->
  get c "confidence" = Normal (VNumber x) -> get c "positionSize" = Normal (VNumber y) ->
  (1 <? x)%float = false -> (1 <? y)%float = false ->
  normalizeSignal c = Normal c.
Proof.
  rewrite normalizeSignal_object. cbv zeta.
  destruct (signal_converts props); [|discriminate].
  name_chain smb "symbol". name_chain th "thesis".
  name_chain cf "confidence". name_chain ps "positionSize".
  assert (nullish smb = false) as Hsym by (by apply first_of_not_nullish).
  assert (nullish th = false) as Hth by (by apply first_of_not_nullish).
  destruct (first_of props ["action"; "side"] _) as [| | | |action| |]; try discriminate.
  cbn [toUpperCase]. rewrite bind_normal. intros [= <-].
  read_fields. intros [= Hx] [= Hy] Hx1 Hy1.
  unfold object at 1. rewrite normalizeSignal_object. cbv zeta. unfold signal_converts.
  cbn [first_of]. read_fields. cbn [nullish converts andb].
  rewrite Hsym, Hth. cbn [toUpperCase Number]. rewrite bind_normal, upper_idem.
  rewrite Hx, Hy, Hx1, Hy1. reflexivity.
Qed.

Lemma finite_not_nan x : isFinite x = true -> is_nan x = false.
Proof.
  unfold isFinite, is_finite. destruct (is_nan x); [discriminate|reflexivity].
Qed.

Lemma or_number_nonzero x y :
  isFinite x = true -> is_zero x = false -> or_number x y = x.
Proof. intros Hf Hz. unfold or_number. by rewrite Hz, (finite_not_nan _ Hf). Qed.

Lemma finite_or_zero_fixed x : isFinite x = true -> finite_or_zero x = x.
Proof. intros H. unfold finite_or_zero. by rewrite H. Qed.

Lemma normalizePosition_again (props : gmap string value) (c : value) :
  normalizePosition (VObject props) = Normal c ->
  exists c',
    normalizePosition c = Normal c' /\
    get c' "symbol" = get c "symbol" /\
    get c' "quantity" = get c "quantity" /\
    get c' "pnl" = get c "pnl" /\
    get c' "pnlPercent" = Normal (VNumber 0) /\
    (forall x y,
        get c "averagePrice" = Normal (VNumber x) -> get c "marketPrice" = Normal (VNumber y) ->
        is_zero x = false -> is_zero y = false ->
        get c' "averagePrice" = get c "averagePrice" /\
        get c' "marketPrice" = get c "marketPrice").
Proof.
  rewrite normalizePosition_object. cbv zeta.
  destruct (position_converts props); [|discriminate].
  name_chain smb "symbol". name_chain q "quantity". name_chain a "averagePrice".
  name_chain m "marketPrice". name_chain g "unrealizedPnl". name_chain r "unrealizedPnlPercent".
  assert (nullish smb = false) as Hsym by (by apply first_of_not_nullish).
  intros [= <-].
  unfold object at 1. rewrite normalizePosition_object. cbv zeta.
  unfold position_converts, averagePrice_aliases, marketPrice_aliases.
  cbn [first_of]. read_fields. cbn [nullish converts andb]. rewrite Hsym. cbn [Number].
  eexists. split; [reflexivity|]. read_fields. rewrite !finite_or_zero_idem.
  do 3 (split; [reflexivity|]). split; [vm_compute; reflexivity|].
  intros x y [= Hx] [= Hy] Hzx Hzy. rewrite Hx, Hy.
  assert (isFinite x = true) as Hfx by (rewrite <- Hx; apply finite_or_zero_finite).
  assert (isFinite y = true) as Hfy by (rewrite <- Hy; apply finite_or_zero_finite).
  by rewrite !or_number_nonzero, !finite_or_zero_fixed.
Qed.

(** A normalizer reads a value that is not an object as it reads an
    empty record; null and undefined make it throw. *)
Lemma normalizers_on_primitives (raw : value) :
  match raw with
  | VUndefined | VNull =>
      returns (normalizeTrade raw) = false /\ returns (normalizeSignal raw) = false
      /\ returns (normalizePosition raw) = false
  | VObject _ => True
  | _ =>
      normalizeTrade raw = normalizeTrade (VObject ∅)
      /\ normalizeSignal raw = normalizeSignal (VObject ∅)
      /\ normalizePosition raw = normalizePosition (VObject ∅)
  end.
Proof. destruct raw; try exact I; repeat split; vm_compute; reflexivity. Qed.

(** C5, as the code has it. The trade normalizer returns a record it
    produced unchanged. The signal normalizer does so when the record's
    confidence and position size are not greater than 1. The position
    normalizer keeps the symbol, the quantity and the P&L of a record it
    produced, and both prices when neither is zero, but gives a P&L
    percent of 0: it does not read the name [pnlPercent] it writes. *)
Theorem renormalization (raw c : value) :
  (normalizeTrade raw = Normal c -> normalizeTrade c = Normal c) /\
  (normalizeSignal raw = Normal c ->
   forall x y,
     get c "confidence" = Normal (VNumber x) -> get c "positionSize" = Normal (VNumber y) ->
     (1 <? x)%float = false -> (1 <? y)%float = false ->
     normalizeSignal c = Normal c) /\
  (normalizePosition raw = Normal c ->
   exists c',
     normalizePosition c = Normal c' /\
     get c' "symbol" = get c "symbol" /\
     get c' "quantity" = get c "quantity" /\
     get c' "pnl" = get c "pnl" /\
     get c' "pnlPercent" = Normal (VNumber 0) /\
     (forall x y,
         get c "averagePrice" = Normal (VNumber x) -> get c "marketPrice" = Normal (VNumber y) ->
         is_zero x = false -> is_zero y = false ->
         get c' "averagePrice" = get c "averagePrice" /\
         get c' "marketPrice" = get c "marketPrice")).
Proof.
  pose proof (normalizers_on_primitives raw) as Hraw.
  destruct raw as [| |b|n|str|elems|props];
    try (destruct Hraw as (Ht & Hs & Hp); repeat split;
         intros H; rewrite H in *; discriminate);
    try (destruct Hraw as (-> & -> & ->));
    (split; [apply normalizeTrade_idempotent|split];
     [intros H cf ps; by eapply normalizeSignal_idempotent
     |apply normalizePosition_again]).
Qed.

Lemma renormalization_witness :
  normalizeTrade
    (object [ ("id", VString "TRD-10567"); ("timestamp", VNull); ("symbol", VString "AAPL");
              ("side", VString "BUY"); ("quantity", VNumber 25); ("price", VNumber 182.34);
              ("pnl", VNumber 0); ("model", VString "AI Agent") ])
  = Normal
      (object [ ("id", VString "TRD-10567"); ("timestamp", VNull); ("symbol", VString "AAPL");
                ("side", VString "BUY"); ("quantity", VNumber 25); ("price", VNumber 182.34);
                ("pnl", VNumber 0); ("model", VString "AI Agent") ]).
Proof.
  refine (proj1 (renormalization
                   (object [ ("order_id", VString "TRD-10567"); ("ticker", VString "AAPL");
                             ("action", VString "buy"); ("shares", VString "25");
                             ("fill_price", VNumber 182.34) ]) _) _).
  vm_compute. reflexivity.
Defined.

(** C5 as stated fails for positions: the first sample position
    normalizes to a P&L percent of 3.12, and normalizing the result gives
    0. *)
Lemma renormalization_counterexample :
  field "pnlPercent" (normalizePosition (mockPosition "AAPL" 80 176.25 182.34 487.2 3.12))
    = Normal (VNumber 3.12) /\
  field "pnlPercent"
    (normalizePosition (mockPosition "AAPL" 80 176.25 182.34 487.2 3.12) ≫= normalizePosition)
    = Normal (VNumber 0) /\
  (normalizePosition (mockPosition "AAPL" 80 176.25 182.34 487.2 3.12) ≫= normalizePosition)
    <> normalizePosition (mockPosition "AAPL" 80 176.25 182.34 487.2 3.12).
Proof.
  split; [vm_compute; reflexivity|]. split; [vm_compute; reflexivity|].
  intros H. apply (f_equal (field "pnlPercent")) in H. vm_compute in H.
  revert H. float_neq.
Qed.

(** ** The two prices of a position *)

Lemma first_of_missing_or_zero props ks :
  Forall (missing_or_zero props) ks ->
  is_zero (Number (first_of props ks (VNumber 0))) = true.
Proof.
  induction 1 as [|k ks Hk _ IH]; [reflexivity|].
  cbn [first_of]. unfold missing_or_zero in Hk.
  destruct (props !! k) as [[| | |x| | |]|]; cbn [nullish] in *; try discriminate; auto.
Qed.

Lemma or_number_zero x y : is_zero x = true -> or_number x y = y.
Proof. intros H. unfold or_number. by rewrite H. Qed.

Lemma or_number_is_zero x y :
  isFinite x = true -> is_zero (or_number x y) = true -> is_zero x = true.
Proof.
  intros Hf. unfold or_number. rewrite (finite_not_nan _ Hf).
  destruct (is_zero x) eqn:Hz; [reflexivity|]. cbn [negb orb]. congruence.
Qed.

Lemma or_number_nan x y : is_nan x = true -> or_number x y = y.
Proof. intros H. unfold or_number. rewrite H. by destruct (is_zero x). Qed.

(** A number that is neither finite nor NaN is no zero. *)
Lemma infinite_or_number x y :
  isFinite x = false -> is_nan x = false -> or_number x y = x.
Proof.
  intros Hf Hn. unfold or_number. rewrite Hn.
  destruct (is_zero x) eqn:Hz; [|reflexivity].
  exfalso. revert Hf Hz. unfold isFinite. rewrite is_finite_SF. unfold is_zero.
  rewrite FloatAxioms.eqb_spec. change (Prim2SF 0) with (S754_zero false).
  destruct (Prim2SF x) as [[]|[]| |[] m e]; discriminate.
Qed.

(** C10, as the code has it, for the records the normalizer returns
    for. With [a] and [m] the numbers the two alias chains convert to:
    when every average-price alias is missing or 0 and [m] is finite,
    the average price written is [m]; symmetrically for the market
    price; and when [a] and [m] are both finite, both prices written are
    0 exactly when [a] and [m] are both 0. In every case the average
    price written is [a], or [m] when [a] is 0 or NaN, replaced by 0 when
    it is not finite, and symmetrically: a NaN price gives way to the
    other price, and an infinite price is written as 0. *)
Theorem price_substitution (props : gmap string value) (c : value) :
  normalizePosition (VObject props) = Normal c ->
  let a := Number (first_of props averagePrice_aliases (VNumber 0)) in
  let m := Number (first_of props marketPrice_aliases (VNumber 0)) in
  exists x y,
    get c "averagePrice" = Normal (VNumber x) /\
    get c "marketPrice" = Normal (VNumber y) /\
    (Forall (missing_or_zero props) averagePrice_aliases -> isFinite m = true -> x = m) /\
    (Forall (missing_or_zero props) marketPrice_aliases -> isFinite a = true -> y = a) /\
    (isFinite a = true -> isFinite m = true ->
     (is_zero x = true /\ is_zero y = true <-> is_zero a = true /\ is_zero m = true)) /\
    x = finite_or_zero (or_number a m) /\
    y = finite_or_zero (or_number m a) /\
    (is_nan a = true -> x = finite_or_zero m) /\
    (is_nan m = true -> y = finite_or_zero a) /\
    (isFinite a = false -> is_nan a = false -> x = 0%float) /\
    (isFinite m = false -> is_nan m = false -> y = 0%float).
Proof.
  intros Hc a m. returned Hc. injection Hc as <-.
  fold averagePrice_aliases marketPrice_aliases. fold a m.
  do 2 eexists. read_fields. do 2 (split; [reflexivity|]).
  split; [|split; [|split; [|split; [reflexivity|split; [reflexivity|]]]]].
  - intros Hz Hm. apply first_of_missing_or_zero in Hz. fold a in Hz.
    by rewrite (or_number_zero _ _ Hz), finite_or_zero_fixed.
  - intros Hz Ha. apply first_of_missing_or_zero in Hz. fold m in Hz.
    by rewrite (or_number_zero _ _ Hz), finite_or_zero_fixed.
  - intros Ha Hm. split.
    + intros [Hx Hy].
      assert (isFinite (or_number a m) = true) as Hfx
        by (unfold or_number; destruct (negb _); assumption).
      assert (isFinite (or_number m a) = true) as Hfy
        by (unfold or_number; destruct (negb _); assumption).
      rewrite finite_or_zero_fixed in Hx, Hy by assumption.
      split; [by apply (or_number_is_zero a m)|by apply (or_number_is_zero m a)].
    + intros [Hza Hzm].
      rewrite (or_number_zero _ _ Hza), (or_number_zero _ _ Hzm).
      by rewrite !finite_or_zero_fixed.
  - split; [intros Hn; by rewrite (or_number_nan _ _ Hn)|].
    split; [intros Hn; by rewrite (or_number_nan _ _ Hn)|].
    split; intros Hf Hn; rewrite (infinite_or_number _ _ Hf Hn);
      unfold finite_or_zero; by rewrite Hf.
Qed.

Lemma price_substitution_witness :
  field "averagePrice" (normalizePosition (object [("symbol", VString "AAPL");
                                                    ("avg_price", VNumber 0);
                                                    ("current_price", VNumber 182.25)]))
  = Normal (VNumber 182.25).
Proof.
  assert (normalizePosition (object [("symbol", VString "AAPL"); ("avg_price", VNumber 0);
                                     ("current_price", VNumber 182.25)])
          = Normal (object [ ("symbol", VString "AAPL"); ("quantity", VNumber 0);
                             ("averagePrice", VNumber 182.25);
                             ("marketPrice", VNumber 182.25);
                             ("pnl", VNumber 0); ("pnlPercent", VNumber 0) ])) as Hc
    by (vm_compute; reflexivity).
  destruct (price_substitution _ _ Hc) as (x & y & Hx & _ & Hm & _).
  rewrite Hc. unfold field. rewrite bind_normal, Hx, Hm.
  - vm_compute. reflexivity.
  - repeat constructor; vm_compute; reflexivity.
  - vm_compute. reflexivity.
Defined.

(** C10 as stated fails when a price is present but infinite (as
    [JSON.parse] gives for [1e999]): both prices written are 0 though the
    average price is neither absent nor zero, and an absent average price
    is then not replaced by the market price. *)
Lemma price_substitution_counterexample :
  field "averagePrice"
    (normalizePosition (object [("symbol", VString "AAPL"); ("avg_price", VNumber infinity)]))
    = Normal (VNumber 0) /\
  field "marketPrice"
    (normalizePosition (object [("symbol", VString "AAPL"); ("avg_price", VNumber infinity)]))
    = Normal (VNumber 0) /\
  ~ missing_or_zero (list_to_map [("symbol", VString "AAPL"); ("avg_price", VNumber infinity)])
      "avg_price" /\
  field "averagePrice"
    (normalizePosition (object [("symbol", VString "AAPL"); ("current_price", VNumber infinity)]))
    = Normal (VNumber 0).
Proof.
  split; [vm_compute; reflexivity|]. split; [vm_compute; reflexivity|].
  split; [|vm_compute; reflexivity].
  unfold missing_or_zero. rewrite lookup_object. cbn. discriminate.
Qed.

(** ** The refresh cycle *)

Lemma get_read v k : nullish v = false -> get v k = Normal (read v k).
Proof. intros H. unfold read. destruct v; try discriminate; reflexivity. Qed.

Lemma coalesce_normal a b : Normal a ?? Normal b = Normal (nullish_or a b).
Proof. unfold coalesce, nullish_or. rewrite bind_normal. by destruct (nullish a). Qed.

Lemma or_else_normal a b : Normal a <||> Normal b = Normal (truthy_or a b).
Proof. unfold or_else, truthy_or. rewrite bind_normal. by destruct (truthy a). Qed.

Lemma get_mockPerformance k : get mockPerformance k = Normal (read mockPerformance k).
Proof. reflexivity. Qed.

Lemma fallbackPerformance_eq : fallbackPerformance = Normal mockPerformance.
Proof. vm_compute. reflexivity. Qed.

Lemma fallbackSignals_eq m : fallbackSignals m = Normal (baseline_signals m).
Proof.
  unfold fallbackSignals, baseline_signals, read, mockSignals.
  rewrite get_object. cbn [assoc].
  destruct (String.eqb "tech" m); [vm_compute; reflexivity|].
  destruct (String.eqb "energy" m); vm_compute; reflexivity.
Qed.

Lemma catch_block_active m e s :
  catch_block true m e s =
  (Next (), Store mockPerformance (baseline_signals m) mockTrades mockPositions (loading s) mock).
Proof.
  unfold catch_block. rewrite fallbackPerformance_eq, fallbackSignals_eq.
  reflexivity.
Qed.

(** Steps of the statement monad. *)
Lemma eval_normal {A B} (a : A) (k : A -> action B) s :
  (eval (Normal a) ≫= k) s = k a s.
Proof. reflexivity. Qed.

Lemma skip_then {B} (k : () -> action B) s : (skip ≫= k) s = k () s.
Proof. reflexivity. Qed.

Lemma get_opt_normal v k :
  get_opt (Normal v) k = Normal (if nullish v then VUndefined else read v k).
Proof.
  unfold get_opt. rewrite bind_normal.
  destruct (nullish v) eqn:Hv; [reflexivity|]. by apply get_read.
Qed.

Lemma has_length_eq v :
  has_length v = truthy (if nullish v then VUndefined else read v "length").
Proof. unfold has_length. by rewrite get_opt_normal. Qed.

Lemma try_block_success m vp vs vt vq s :
  nullish vp = false -> nullish vs = false -> nullish vt = false -> nullish vq = false ->
  try_block true m
    (Fetches (Some (Response true (Some vp))) (Some (Response true (Some vs)))
             (Some (Response true (Some vt))) (Some (Response true (Some vq)))) s =
  (Next (),
   Store (live_performance vp)
         (live_or (read vs "signals") (baseline_signals m))
         (live_or (read vt "trades") mockTrades)
         (live_or (read vq "positions") mockPositions)
         (loading s) live).
Proof.
  intros Hp Hs Ht Hq. unfold try_block.
  cbn [Promise_all performanceFetch signalsFetch tradesFetch positionsFetch].
  rewrite eval_normal. cbn [ok negb orb json body].
  rewrite skip_then, !eval_normal. cbn [negb]. rewrite skip_then.
  rewrite !get_mockPerformance, !(get_read vp), !(get_read vs), !(get_read vt),
    !(get_read vq) by assumption.
  rewrite !coalesce_normal, !or_else_normal, !eval_normal.
  rewrite fallbackSignals_eq, !get_opt_normal.
  unfold live_performance, live_metrics, live_or. rewrite !has_length_eq.
  cbv [mbind action_bind eval mret action_ret setPerformance setSignals setTrades
       setPositions setDataSource performance signals trades positions loading dataSource].
  destruct (truthy (truthy_or _ _));
    destruct (truthy (if nullish (read vs _) then _ else _));
    destruct (truthy (if nullish (read vt _) then _ else _));
    destruct (truthy (if nullish (read vq _) then _ else _));
    reflexivity.
Qed.

Lemma gateway_success_inv f :
  gateway_success f = true ->
  exists vp vs vt vq,
    f = Fetches (Some (Response true (Some vp))) (Some (Response true (Some vs)))
                (Some (Response true (Some vt))) (Some (Response true (Some vq))) /\
    nullish vp = false /\ nullish vs = false /\ nullish vt = false /\ nullish vq = false.
Proof.
  destruct f as [fp fs ft fq]. unfold gateway_success.
  cbn [performanceFetch signalsFetch tradesFetch positionsFetch].
  intros H. repeat (apply andb_prop in H as [H ?]).
  destruct fp as [[[] [vp|]]|]; try discriminate.
  destruct fs as [[[] [vs|]]|]; try discriminate.
  destruct ft as [[[] [vt|]]|]; try discriminate.
  destruct fq as [[[] [vq|]]|]; try discriminate.
  exists vp, vs, vt, vq. cbn [usable] in *.
  repeat split; by apply negb_true_iff.
Qed.

Ltac run_statements :=
  cbv [mbind action_bind eval mret action_ret setPerformance setSignals setTrades
       setPositions setDataSource setLoading performance signals trades positions loading
       dataSource skip throw return_].

(** A refresh that does not succeed leaves the [try] block by an
    exception. *)
Lemma try_block_failure m f s :
  gateway_success f = false -> raises (try_block true m f s).
Proof.
  destruct f as [fp fs ft fq]. unfold gateway_success, try_block, raises.
  cbn [performanceFetch signalsFetch tradesFetch positionsFetch]. intros Hg.
  destruct fp as [[okp bp]|]; [|exact I].
  destruct fs as [[oks bs]|]; [|exact I].
  destruct ft as [[okt bt]|]; [|exact I].
  destruct fq as [[okq bq]|]; [|exact I].
  cbn [Promise_all performanceFetch signalsFetch tradesFetch positionsFetch].
  rewrite eval_normal. cbn [ok].
  destruct okp; [|exact I].
  destruct oks; [|exact I].
  destruct okt; [|exact I].
  destruct okq; [|exact I].
  cbn [negb orb]. rewrite skip_then.
  destruct bp as [vp|]; [|exact I].
  destruct bs as [vs|]; [|exact I].
  destruct bt as [vt|]; [|exact I].
  destruct bq as [vq|]; [|exact I].
  cbn [json body]. rewrite !eval_normal. cbn [negb usable] in *. rewrite skip_then.
  rewrite !get_mockPerformance.
  destruct (nullish vp) eqn:Hp.
  { destruct vp; try discriminate Hp; exact I. }
  rewrite !(get_read vp), !coalesce_normal, !or_else_normal, !eval_normal, fallbackSignals_eq
    by assumption.
  destruct (nullish vs) eqn:Hs.
  { run_statements. destruct (truthy (truthy_or _ _));
      destruct vs; try discriminate Hs; exact I. }
  rewrite !(get_read vs), !get_opt_normal by assumption.
  destruct (nullish vt) eqn:Ht.
  { run_statements. destruct (truthy (truthy_or _ _));
      destruct (truthy (if nullish (read vs _) then _ else _));
      destruct vt; try discriminate Ht; exact I. }
  rewrite !(get_read vt), !get_opt_normal by assumption.
  destruct (nullish vq) eqn:Hq; [|discriminate Hg].
  run_statements. destruct (truthy (truthy_or _ _));
    destruct (truthy (if nullish (read vs _) then _ else _));
    destruct (truthy (if nullish (read vt _) then _ else _));
    destruct vq; try discriminate Hq; exact I.
Qed.

(** A cycle whose flag is cleared writes nothing. *)
Lemma resume_inactive m f s : snd (fetchDashboardData_resume false m f s) = s.
Proof.
  assert (snd (try_block false m f s) = s) as Hs.
  { destruct f as [fp fs ft fq]. unfold try_block.
    destruct fp as [[okp bp]|]; [|reflexivity].
    destruct fs as [[oks bs]|]; [|reflexivity].
    destruct ft as [[okt bt]|]; [|reflexivity].
    destruct fq as [[okq bq]|]; [|reflexivity].
    cbn [Promise_all performanceFetch signalsFetch tradesFetch positionsFetch].
    rewrite eval_normal. cbn [ok].
    destruct okp; [|reflexivity].
    destruct oks; [|reflexivity].
    destruct okt; [|reflexivity].
    destruct okq; [|reflexivity].
    cbn [negb orb]. rewrite skip_then.
    destruct bp as [vp|]; [|reflexivity].
    destruct bs as [vs|]; [|reflexivity].
    destruct bt as [vt|]; [|reflexivity].
    destruct bq as [vq|]; [|reflexivity].
    reflexivity. }
  unfold fetchDashboardData_resume, try_catch_finally.
  destruct (try_block false m f s) as [r s1]. cbn [snd] in Hs. subst s1.
  destruct r as [[]| |e]; reflexivity.
Qed.

(** A cycle whose flag is set stores either what it received or the
    sample data, whole. *)
Lemma resume_active m f s :
  fetchDashboardData_resume true m f s =
  (Next (), if gateway_success f then live_store m f else baseline_store m).
Proof.
  unfold fetchDashboardData_resume, try_catch_finally.
  destruct (gateway_success f) eqn:Hf.
  - destruct (gateway_success_inv f Hf) as (vp & vs & vt & vq & -> & Hp & Hs & Ht & Hq).
    by rewrite try_block_success.
  - pose proof (try_block_failure m f s Hf) as Hr.
    destruct (try_block true m f s) as [[[]| |e] s']; try contradiction.
    by rewrite catch_block_active.
Qed.

(** ** The component *)

Lemma any_failed_not_success f : any_failed f = true -> gateway_success f = false.
Proof.
  destruct f as [fp fs ft fq]. unfold any_failed, gateway_success.
  cbn [performanceFetch signalsFetch tradesFetch positionsFetch].
  destruct fp as [[[] [vp|]]|], fs as [[[] [vs|]]|], ft as [[[] [vt|]]|], fq as [[[] [vq|]]|];
    cbn; try reflexivity; try discriminate;
    rewrite ?andb_false_r; try reflexivity; try discriminate.
Qed.

Lemma same_data_refl s : same_data s s.
Proof. by repeat split. Qed.

Lemma cleanup_state a : state (cleanup a) = state a.
Proof. unfold cleanup. by destruct (refreshInterval a) as [[k ms]|]. Qed.

Lemma cleanup_selectedModel a : selectedModel (cleanup a) = selectedModel a.
Proof. unfold cleanup. by destruct (refreshInterval a) as [[k ms]|]. Qed.

Lemma cleanup_mounted a : mounted (cleanup a) = mounted a.
Proof. unfold cleanup. by destruct (refreshInterval a) as [[k ms]|]. Qed.

Lemma cleanup_timer a : refreshInterval (cleanup a) = None.
Proof. unfold cleanup. by destruct (refreshInterval a) as [[k ms]|] eqn:E. Qed.

Lemma cleanup_length a : length (runs (cleanup a)) = length (runs a).
Proof.
  unfold cleanup. destruct (refreshInterval a) as [[k ms]|]; [|reflexivity].
  cbn [runs]. by rewrite length_alter.
Qed.

(** After the cleanup no run has its flag set. *)
Lemma cleanup_cleared a j c :
  (forall j c, runs a !! j = Some c -> isMounted c = true ->
     exists ms, refreshInterval a = Some (j, ms)) ->
  runs (cleanup a) !! j = Some c -> isMounted c = false.
Proof.
  intros H2. unfold cleanup.
  destruct (refreshInterval a) as [[k ms]|] eqn:E; cbn [runs].
  - destruct (decide (k = j)) as [->|Hne].
    + rewrite list_lookup_alter_eq. destruct (runs a !! j); [|discriminate].
      by intros [= <-].
    + rewrite list_lookup_alter_ne by done. intros Hj.
      destruct (isMounted c) eqn:Hc; [|reflexivity].
      destruct (H2 j c Hj Hc) as [ms' E']. congruence.
  - intros Hj. destruct (isMounted c) eqn:Hc; [|reflexivity].
    destruct (H2 j c Hj Hc) as [ms' E']. congruence.
Qed.

Lemma call_fetch_data k a : same_data (state (call_fetchDashboardData k a)) (state a).
Proof.
  unfold call_fetchDashboardData. destruct (runs a !! k) as [[[] m]|];
    cbn; by repeat split.
Qed.

Lemma call_fetch_other k a :
  selectedModel (call_fetchDashboardData k a) = selectedModel a /\
  runs (call_fetchDashboardData k a) = runs a /\
  refreshInterval (call_fetchDashboardData k a) = refreshInterval a /\
  mounted (call_fetchDashboardData k a) = mounted a.
Proof.
  unfold call_fetchDashboardData. destruct (runs a !! k) as [[[] m]|]; by cbn.
Qed.

Lemma call_fetch_active k a m :
  runs a !! k = Some (Closure true m) ->
  in_flight (call_fetchDashboardData k a) = (in_flight a ++ [k])%list.
Proof. intros H. unfold call_fetchDashboardData. by rewrite H. Qed.

Lemma run_effect_spec a :
  selectedModel (run_effect a) = selectedModel a /\
  same_data (state (run_effect a)) (state a) /\
  runs (run_effect a) = (runs a ++ [Closure true (selectedModel a)])%list /\
  refreshInterval (run_effect a) = Some (length (runs a), intervalMs (dataSource (state a))) /\
  in_flight (run_effect a) = (in_flight a ++ [length (runs a)])%list /\
  mounted (run_effect a) = mounted a.
Proof.
  unfold run_effect.
  set (a1 := App _ _ (runs a ++ _) _ _ _).
  assert (runs a1 !! length (runs a) = Some (Closure true (selectedModel a))) as Hk.
  { subst a1. cbn [runs]. by rewrite list_lookup_middle. }
  destruct (call_fetch_other (length (runs a)) a1) as (Hs & Hr & Ht & Hm).
  pose proof (call_fetch_data (length (runs a)) a1) as Hd.
  pose proof (call_fetch_active _ _ _ Hk) as Hi.
  cbn [selectedModel state runs refreshInterval in_flight mounted].
  rewrite Hs, Hr, Hi, Hm. by repeat split; try apply Hd.
Qed.

Lemma consistent_ext a a' :
  selectedModel a' = selectedModel a -> dataSource (state a') = dataSource (state a) ->
  runs a' = runs a -> refreshInterval a' = refreshInterval a -> mounted a' = mounted a ->
  consistent a -> consistent a'.
Proof.
  intros Hs Hd Hr Ht Hm [H1 H2]. unfold consistent.
  rewrite Hs, Hd, Hr, Ht, Hm. by split.
Qed.

Lemma consistent_unarmed a :
  refreshInterval a = None ->
  (forall j c, runs a !! j = Some c -> isMounted c = false) ->
  consistent a.
Proof.
  intros Ht Hf. split.
  - intros k ms E. congruence.
  - intros j c Hj Hc. rewrite (Hf j c Hj) in Hc. discriminate.
Qed.

Lemma run_effect_consistent a :
  refreshInterval a = None ->
  (forall j c, runs a !! j = Some c -> isMounted c = false) ->
  mounted a = true ->
  consistent (run_effect a).
Proof.
  intros Ht Hf Hm.
  destruct (run_effect_spec a) as (Hs & (_ & _ & _ & _ & Hd) & Hr & Hi & _ & Hm').
  split.
  - intros k ms E. rewrite Hi in E. injection E as <- <-.
    rewrite Hr, Hs, Hd, Hm', Hm. split; [by rewrite list_lookup_middle|done].
  - intros j c Hj Hc. rewrite Hr in Hj. rewrite Hi.
    destruct (decide (j < length (runs a))%nat) as [Hlt|Hge].
    + rewrite lookup_app_l in Hj by done. rewrite (Hf j c Hj) in Hc. discriminate.
    + assert (j = length (runs a)) as ->; [|by eexists].
      apply lookup_lt_Some in Hj. rewrite length_app in Hj. cbn in Hj. lia.
Qed.

Lemma run_signals_effect_spec a a' :
  run_signals_effect a = Some a' ->
  selectedModel a' = selectedModel a /\ runs a' = runs a /\
  refreshInterval a' = refreshInterval a /\ in_flight a' = in_flight a /\
  mounted a' = mounted a /\ dataSource (state a') = dataSource (state a) /\
  signals (state a') = baseline_signals (selectedModel a) /\
  performance (state a') = performance (state a) /\
  trades (state a') = trades (state a) /\ positions (state a') = positions (state a).
Proof.
  unfold run_signals_effect. rewrite fallbackSignals_eq. intros [= <-]. by cbn.
Qed.

Lemma step_consistent e a a' : consistent a -> step e a = Some a' -> consistent a'.
Proof.
  intros Hc. pose proof Hc as [H1 H2]. destruct e as [|m| |i f|]; cbn [step].
  - destruct (mounted a) eqn:Hm; [discriminate|]. cbn [orb].
    case_bool_decide as Hl; [|discriminate]. cbn [negb]. intros Hs.
    apply run_signals_effect_spec in Hs as (Hs & Hr & Ht & _ & Hm' & Hd & _).
    eapply consistent_ext; [done..|]. apply run_effect_consistent; cbn.
    + destruct (refreshInterval a) as [[k ms]|] eqn:E; [|done].
      destruct (H1 k ms eq_refl) as (_ & _ & ?). congruence.
    + intros j c Hj. apply nil_length_inv in Hl. by rewrite Hl in Hj.
    + reflexivity.
  - destruct (mounted a) eqn:Hm; [|discriminate]. cbn [negb].
    destruct (String.eqb m (selectedModel a)); [by intros [= <-]|]. intros Hs.
    apply run_signals_effect_spec in Hs as (Hs & Hr & Ht & _ & Hm' & Hd & _).
    eapply consistent_ext; [done..|]. apply run_effect_consistent.
    + apply cleanup_timer.
    + intros j c. by apply cleanup_cleared.
    + by rewrite cleanup_mounted.
  - destruct (refreshInterval a) as [[k ms]|] eqn:E; [|discriminate]. intros [= <-].
    destruct (call_fetch_other k a) as (Hs & Hr & Ht & Hm).
    destruct (call_fetch_data k a) as (_ & _ & _ & _ & Hd).
    by eapply consistent_ext.
  - destruct (in_flight a !! i) as [k|]; [|discriminate].
    destruct (runs a !! k) as [c|]; [|discriminate].
    destruct (fetchDashboardData_resume _ _ _ _) as [r s].
    destruct (mounted a) eqn:Hm; cbn [andb].
    + case_bool_decide as Hd; cbn [negb]; intros [= <-].
      * eapply consistent_ext; [..|exact Hc]; cbn; congruence.
      * apply run_effect_consistent.
        -- apply cleanup_timer.
        -- intros j c'. by apply cleanup_cleared.
        -- by rewrite cleanup_mounted.
    + intros [= <-]. split; cbn [refreshInterval runs mounted]; [|done].
      intros k' ms E. destruct (H1 k' ms E) as (_ & _ & ?). congruence.
  - destruct (mounted a); [|discriminate]. intros [= <-].
    apply consistent_unarmed; cbn [refreshInterval runs].
    + apply cleanup_timer.
    + intros j c. by apply cleanup_cleared.
Qed.

Lemma run_consistent es a a' : consistent a -> run es a = Some a' -> consistent a'.
Proof.
  revert a. induction es as [|e es IH]; intros a Hc; cbn [run]; [by intros [= <-]|].
  destruct (step e a) as [a1|] eqn:E; [|discriminate].
  apply IH. by eapply step_consistent.
Qed.

Lemma initial_eq :
  initial = Normal (App "tech" (Store mockPerformance (baseline_signals "tech") mockTrades
                                      mockPositions false mock) [] None [] false).
Proof.
  unfold initial. by rewrite fallbackPerformance_eq, fallbackSignals_eq.
Qed.

Lemma reachable_consistent a : reachable a -> consistent a.
Proof.
  intros (a0 & es & H0 & Hr). eapply run_consistent; [|exact Hr].
  rewrite initial_eq in H0. injection H0 as <-.
  by apply consistent_unarmed.
Qed.

Lemma is_active_inv a i :
  is_active a i = true ->
  exists k m, in_flight a !! i = Some k /\ runs a !! k = Some (Closure true m).
Proof.
  unfold is_active. destruct (in_flight a !! i) as [k|] eqn:Hi; [|discriminate].
  destruct (runs a !! k) as [[[] m]|] eqn:Hk; try discriminate. by exists k, m.
Qed.

Lemma is_active_model a i k m :
  consistent a -> in_flight a !! i = Some k -> runs a !! k = Some (Closure true m) ->
  m = selectedModel a.
Proof.
  intros [H1 H2] Hi Hk. destruct (H2 k _ Hk eq_refl) as [ms E].
  destruct (H1 k ms E) as (Hk' & _). congruence.
Qed.

(** A cycle of a run whose flag is set, when it settles. *)
Lemma settle_active a a' i f k m :
  in_flight a !! i = Some k -> runs a !! k = Some (Closure true m) ->
  step (Settle i f) a = Some a' ->
  same_data (state a') (if gateway_success f then live_store m f else baseline_store m) /\
  selectedModel a' = selectedModel a.
Proof.
  intros Hi Hk. cbn [step]. rewrite Hi, Hk. cbn [isMounted model].
  rewrite resume_active.
  destruct (mounted a && negb (bool_decide _)); intros [= <-].
  - destruct (run_effect_spec (cleanup (App (selectedModel a)
        (if gateway_success f then live_store m f else baseline_store m)
        (runs a) (refreshInterval a) (delete i (in_flight a)) (mounted a))))
      as (Hs & Hd & _).
    rewrite cleanup_state in Hd. rewrite cleanup_selectedModel in Hs. by split.
  - split; [apply same_data_refl|reflexivity].
Qed.

(** A cycle of a run whose flag is cleared, when it settles: it leaves
    the list of cycles in flight and nothing else changes. *)
Lemma settle_stale a a' i f k c :
  in_flight a !! i = Some k -> runs a !! k = Some c -> isMounted c = false ->
  step (Settle i f) a = Some a' ->
  a' = App (selectedModel a) (state a) (runs a) (refreshInterval a)
           (delete i (in_flight a)) (mounted a).
Proof.
  intros Hi Hk Hc. cbn [step]. rewrite Hi, Hk, Hc.
  pose proof (resume_inactive (model c) f (state a)) as Hs.
  destruct (fetchDashboardData_resume false (model c) f (state a)) as [r s].
  cbn [snd] in Hs. subst s.
  rewrite bool_decide_eq_true_2 by reflexivity. cbn [negb]. rewrite andb_false_r.
  by intros [= <-].
Qed.

Lemma settle_inactive a a' i f :
  is_active a i = false -> step (Settle i f) a = Some a' ->
  state a' = state a /\ selectedModel a' = selectedModel a /\
  runs a' = runs a /\ refreshInterval a' = refreshInterval a.
Proof.
  unfold is_active. intros Hact Hstep.
  destruct (in_flight a !! i) as [k|] eqn:Hi; [|by cbn [step] in Hstep; rewrite Hi in Hstep].
  destruct (runs a !! k) as [c|] eqn:Hk;
    [|by cbn [step] in Hstep; rewrite Hi, Hk in Hstep].
  by rewrite (settle_stale a a' i f k c Hi Hk Hact Hstep).
Qed.

(** ** All or nothing *)

(** A failed request makes the [try] block throw before any setter has
    run, whatever the flag of the cycle. *)
Lemma try_block_any_failed flag m f s :
  any_failed f = true -> exists e, try_block flag m f s = (Raise e, s).
Proof.
  destruct f as [fp fs ft fq]. unfold any_failed, try_block.
  cbn [performanceFetch signalsFetch tradesFetch positionsFetch]. intros Hf.
  destruct fp as [[okp bp]|]; [|by eexists].
  destruct fs as [[oks bs]|]; [|by eexists].
  destruct ft as [[okt bt]|]; [|by eexists].
  destruct fq as [[okq bq]|]; [|by eexists].
  cbn [Promise_all performanceFetch signalsFetch tradesFetch positionsFetch].
  rewrite eval_normal. cbn [ok].
  destruct okp; [|by eexists].
  destruct oks; [|by eexists].
  destruct okt; [|by eexists].
  destruct okq; [|by eexists].
  cbn [negb orb]. rewrite skip_then.
  destruct bp as [vp|]; [|by eexists].
  destruct bs as [vs|]; [|by eexists].
  destruct bt as [vt|]; [|by eexists].
  destruct bq as [vq|]; [|by eexists].
  discriminate Hf.
Qed.

(** C1, as the code has it. When a request of a refresh fails (network
    error, non-success status, or a body that is not JSON), the refresh
    ends as a failure: the [try] block throws before any setter has run,
    so that no data of the cycle reaches the store. When
    the cycle is still the current one, the data source becomes [mock]
    and the performance, signals, trades and positions are the sample
    data, the signals those of the selected model. When the cycle has
    been superseded, the store is left as it is, and keeps what it
    held. *)
Theorem failed_refresh_all_or_nothing (a a' : app) (i : nat) (f : fetches) :
  reachable a -> any_failed f = true -> step (Settle i f) a = Some a' ->
  gateway_success f = false /\
  (forall flag m s, exists e, try_block flag m f s = (Raise e, s)) /\
  if is_active a i
  then dataSource (state a') = mock /\ baseline (selectedModel a) (state a')
  else state a' = state a.
Proof.
  intros Hr Hf Hstep. apply reachable_consistent in Hr.
  pose proof (any_failed_not_success f Hf) as Hg. split; [exact Hg|].
  split; [intros flag m s; by apply try_block_any_failed|].
  destruct (is_active a i) eqn:Hact.
  - destruct (is_active_inv a i Hact) as (k & m & Hi & Hk).
    destruct (settle_active a a' i f k m Hi Hk Hstep) as [(Hp & Hs & Ht & Hq & Hd) _].
    rewrite Hg in *. rewrite (is_active_model a i k m Hr Hi Hk) in *.
    by repeat split.
  - by destruct (settle_inactive a a' i f Hact Hstep).
Qed.

Lemma mounted_app_reachable : reachable mounted_app.
Proof.
  eexists _, [Mount]. split; [apply initial_eq|]. vm_compute. reflexivity.
Qed.

Lemma live_app_reachable : reachable live_app.
Proof.
  eexists _, [Mount; Settle 0 received]. split; [apply initial_eq|]. vm_compute. reflexivity.
Qed.

(** Three requests of four succeed while the store holds the data of
    an earlier success: nothing of either is left. *)
Lemma failed_refresh_witness :
  let a' := App "tech"
                (Store mockPerformance (baseline_signals "tech") mockTrades mockPositions
                       true mock)
                [Closure false "tech"; Closure false "tech"; Closure true "tech"]
                (Some (2%nat, 900000)) [2%nat] true in
  dataSource (state live_app) = live /\
  trades (state live_app) = VArray [object [("symbol", VString "T-1")]] /\
  step (Settle 0 trades_failed) live_app = Some a' /\
  dataSource (state a') = mock /\ baseline "tech" (state a').
Proof.
  intros a'.
  assert (any_failed trades_failed = true) as Hf by (vm_compute; reflexivity).
  assert (step (Settle 0 trades_failed) live_app = Some a') as Hstep
    by (vm_compute; reflexivity).
  split; [reflexivity|]. split; [reflexivity|]. split; [exact Hstep|].
  exact (proj2 (proj2 (failed_refresh_all_or_nothing live_app a' 0 trades_failed
                         live_app_reachable Hf Hstep))).
Defined.

(** C1 as stated fails for a cycle that was superseded: the cycle that
    was started for model tech and fails after the user selected energy
    leaves the data source [live] and the trades and positions of the
    last success in the store. *)
Lemma failed_refresh_counterexample :
  let es := [Mount; Settle 0 received; SelectModel "energy"; Settle 0 unreachable_gateway] in
  any_failed unreachable_gateway = true /\
  ((fun a => is_active a 0) <$> trace [Mount; Settle 0 received; SelectModel "energy"])
    = Some false /\
  (dataSource ∘ state <$> trace es) = Some live /\
  (trades ∘ state <$> trace es) = Some (VArray [object [("symbol", VString "T-1")]]) /\
  (positions ∘ state <$> trace es) = Some (VArray [object [("symbol", VString "P-1")]]) /\
  VArray [object [("symbol", VString "T-1")]] <> mockTrades.
Proof.
  cbv zeta. split; [reflexivity|]. do 4 (split; [vm_compute; reflexivity|]).
  unfold mockTrades. discriminate.
Qed.

(** ** What the store holds after a refresh *)

Lemma live_or_array elems sample :
  Z.of_nat (length elems) < 2 ^ 32 ->
  live_or (VArray elems) sample = match elems with [] => sample | _ :: _ => VArray elems end.
Proof.
  intros Hlen. unfold live_or. rewrite has_length_eq.
  cbn [nullish read get String.eqb Ascii.eqb Bool.eqb truthy].
  destruct elems as [|x elems]; [reflexivity|].
  unfold float_of_nat.
  assert (0 < Z.of_nat (length (x :: elems)) < 2 ^ prec) as Hb.
  { cbn [length] in *. unfold prec. lia. }
  by rewrite (float_of_Z_nonzero _ Hb), (float_of_Z_not_nan _ Hb).
Qed.

Lemma live_or_missing sample :
  live_or VUndefined sample = sample /\ live_or VNull sample = sample.
Proof. by split. Qed.

Lemma live_metrics_lookup p k :
  k <> "lastUpdated" ->
  live_metrics p !! k =
  match spread (nullish_or (read p "metrics") (object [])) !! k with
  | Some v => Some v
  | None => spread (read mockPerformance "metrics") !! k
  end.
Proof.
  intros Hk. unfold live_metrics. destruct (truthy _).
  - rewrite lookup_insert_ne by done. rewrite lookup_union.
    by destruct (_ !! k), (_ !! k).
  - rewrite lookup_union. by destruct (_ !! k), (_ !! k).
Qed.

(** C2, as the code has it. After a refresh of the current cycle the
    data source is [mock] and the four collections are the sample data,
    or the data source is [live] and: the performance holds the sample
    metrics overlaid with the metrics received (each metric received
    replaces the sample one, the others stay) and the equity curve
    received, or the sample curve when none was; the signals, the trades
    and the positions each are the array received when it has elements,
    and the sample collection when the array received is empty or
    absent. *)
Theorem refresh_outcome (a a' : app) (i : nat) (f : fetches) :
  reachable a -> is_active a i = true -> step (Settle i f) a = Some a' ->
  (gateway_success f = false ->
   dataSource (state a') = mock /\ baseline (selectedModel a) (state a')) /\
  (gateway_success f = true ->
   dataSource (state a') = live /\
   performance (state a') = live_performance (payload (performanceFetch f)) /\
   signals (state a') =
     live_or (read (payload (signalsFetch f)) "signals") (baseline_signals (selectedModel a)) /\
   trades (state a') = live_or (read (payload (tradesFetch f)) "trades") mockTrades /\
   positions (state a') =
     live_or (read (payload (positionsFetch f)) "positions") mockPositions) /\
  (forall elems sample,
     Z.of_nat (length elems) < 2 ^ 32 ->
     live_or (VArray elems) sample =
     match elems with [] => sample | _ :: _ => VArray elems end) /\
  (forall sample, live_or VUndefined sample = sample /\ live_or VNull sample = sample) /\
  (forall p k,
     k <> "lastUpdated" ->
     live_metrics p !! k =
     match spread (nullish_or (read p "metrics") (object [])) !! k with
     | Some v => Some v
     | None => spread (read mockPerformance "metrics") !! k
     end).
Proof.
  intros Hr Hact Hstep. apply reachable_consistent in Hr.
  destruct (is_active_inv a i Hact) as (k & m & Hi & Hk).
  destruct (settle_active a a' i f k m Hi Hk Hstep) as [(Hp & Hs & Ht & Hq & Hd) _].
  rewrite (is_active_model a i k m Hr Hi Hk) in *.
  split; [|split; [|split; [|split]]].
  - intros Hg. rewrite Hg in *. by repeat split.
  - intros Hg. rewrite Hg in *. by repeat split.
  - apply live_or_array.
  - apply live_or_missing.
  - apply live_metrics_lookup.
Qed.

Lemma refresh_outcome_witness :
  let f := Fetches (ok_response (object [("metrics", object [("winRate", VNumber 50)])]))
                   (ok_response (object [("signals", VArray [])]))
                   (ok_response (object [("trades", VArray [VString "T-1"])]))
                   (ok_response (object [])) in
  let a' := App "tech"
                (Store (live_performance (payload (performanceFetch f)))
                       (baseline_signals "tech") (VArray [VString "T-1"]) mockPositions
                       true live)
                [Closure false "tech"; Closure true "tech"] (Some (1%nat, 300000))
                [1%nat] true in
  step (Settle 0 f) mounted_app = Some a' /\
  signals (state a') =
    live_or (read (payload (signalsFetch f)) "signals") (baseline_signals "tech").
Proof.
  intros f a'.
  assert (is_active mounted_app 0 = true) as Hact by (vm_compute; reflexivity).
  assert (step (Settle 0 f) mounted_app = Some a') as Hstep by (vm_compute; reflexivity).
  assert (gateway_success f = true) as Hg by (vm_compute; reflexivity).
  split; [exact Hstep|].
  destruct (refresh_outcome mounted_app a' 0 f mounted_app_reachable Hact Hstep)
    as (_ & Hlive & _).
  by destruct (Hlive Hg) as (_ & _ & Hs & _).
Defined.

(** C2 as stated fails: a successful response with an empty signals
    array leaves the data source [live] with the sample signals next to
    the trades received. *)
Lemma refresh_outcome_counterexample :
  let f := Fetches (ok_response (object [("metrics", object [("winRate", VNumber 50)])]))
                   (ok_response (object [("signals", VArray [])]))
                   (ok_response (object [("trades", VArray [VString "T-1"])]))
                   (ok_response (object [("positions", VArray [VString "P-1"])])) in
  (dataSource ∘ state <$> trace [Mount; Settle 0 f]) = Some live /\
  (signals ∘ state <$> trace [Mount; Settle 0 f]) = Some (baseline_signals "tech") /\
  baseline_signals "tech" <> read (payload (signalsFetch f)) "signals" /\
  (trades ∘ state <$> trace [Mount; Settle 0 f]) = Some (VArray [VString "T-1"]) /\
  VArray [VString "T-1"] <> mockTrades.
Proof.
  cbv zeta. split; [vm_compute; reflexivity|]. split; [vm_compute; reflexivity|].
  split; [vm_compute; discriminate|]. split; [vm_compute; reflexivity|].
  vm_compute. discriminate.
Qed.

(** ** The fallback controller *)

(** C6, as the code has it. The data source starts as [mock], the store
    holding the sample data. When a cycle settles that is still the
    current one, the data source becomes [live] if the refresh succeeded
    and [mock] if it failed, whatever it was: mock to live and live to
    live on success, live to mock and mock to mock on failure. When a
    cycle settles that has been superseded, the data source stays as it
    is, whatever the outcome. A failed request makes the refresh fail. *)
Theorem fallback_controller_transitions (a a' : app) (i : nat) (f : fetches) :
  step (Settle i f) a = Some a' ->
  (exists a0,
     initial = Normal a0 /\ dataSource (state a0) = mock /\
     baseline (selectedModel a0) (state a0)) /\
  (any_failed f = true -> gateway_success f = false) /\
  dataSource (state a') =
    if is_active a i
    then
      match dataSource (state a), gateway_success f with
      | mock, true => live
      | live, true => live
      | live, false => mock
      | mock, false => mock
      end
    else dataSource (state a).
Proof.
  intros Hstep.
  split; [eexists; split; [apply initial_eq|by repeat split]|].
  split; [apply any_failed_not_success|].
  destruct (is_active a i) eqn:Hact.
  - destruct (is_active_inv a i Hact) as (k & m & Hi & Hk).
    destruct (settle_active a a' i f k m Hi Hk Hstep) as [(_ & _ & _ & _ & Hd) _].
    rewrite Hd. by destruct (dataSource (state a)), (gateway_success f).
  - by destruct (settle_inactive a a' i f Hact Hstep) as (-> & _).
Qed.

(** From [live], a failure of the current cycle leads to [mock]. *)
Lemma fallback_controller_witness :
  let a' := App "tech"
                (Store mockPerformance (baseline_signals "tech") mockTrades mockPositions
                       true mock)
                [Closure false "tech"; Closure false "tech"; Closure true "tech"]
                (Some (2%nat, 900000)) [2%nat] true in
  step (Settle 0 unreachable_gateway) live_app = Some a' /\
  is_active live_app 0 = true /\
  dataSource (state live_app) = live /\ dataSource (state a') = mock.
Proof.
  intros a'.
  assert (step (Settle 0 unreachable_gateway) live_app = Some a') as Hstep
    by (vm_compute; reflexivity).
  split; [exact Hstep|]. split; [reflexivity|]. split; [reflexivity|].
  by destruct (fallback_controller_transitions live_app a' 0 unreachable_gateway Hstep)
    as (_ & _ & Hd).
Defined.

(** C6 as stated fails for an attempt that was superseded: of two
    cycles in flight, the first succeeds and makes the data source
    [live], which runs the effect again; the second then fails, and the
    data source stays [live]. *)
Lemma fallback_controller_counterexample :
  let es := [Mount; Tick; Settle 0 received] in
  gateway_success unreachable_gateway = false /\
  (dataSource ∘ state <$> trace es) = Some live /\
  (in_flight <$> trace es) = Some [0%nat; 1%nat] /\
  (dataSource ∘ state <$> trace (es ++ [Settle 0 unreachable_gateway])) = Some live.
Proof. cbv zeta. split; [reflexivity|]. repeat split; vm_compute; reflexivity. Qed.

(** ** Superseded cycles *)

Lemma cleared_cleanup a k : cleared a k -> cleared (cleanup a) k.
Proof.
  intros (c & Hk & Hc). unfold cleanup, cleared.
  destruct (refreshInterval a) as [[k' ms]|]; cbn [runs]; [|by eexists].
  destruct (decide (k' = k)) as [->|Hne].
  - rewrite list_lookup_alter_eq, Hk. by eexists.
  - rewrite list_lookup_alter_ne by done. by eexists.
Qed.

Lemma cleared_run_effect a k : cleared a k -> cleared (run_effect a) k.
Proof.
  intros (c & Hk & Hc). destruct (run_effect_spec a) as (_ & _ & Hr & _).
  exists c. split; [|exact Hc]. rewrite Hr. apply lookup_app_l_Some. exact Hk.
Qed.

Lemma cleared_ext a a' k : runs a' = runs a -> cleared a k -> cleared a' k.
Proof. unfold cleared. by intros ->. Qed.

(** A flag that is cleared stays cleared. *)
Lemma step_cleared e a a' k : cleared a k -> step e a = Some a' -> cleared a' k.
Proof.
  intros Hk. destruct e as [|m| |i f|]; cbn [step].
  - destruct (mounted a || _); [discriminate|]. intros Hs.
    apply run_signals_effect_spec in Hs as (_ & Hr & _).
    eapply cleared_ext; [exact Hr|]. by apply cleared_run_effect.
  - destruct (negb (mounted a)); [discriminate|].
    destruct (String.eqb m (selectedModel a)); [by intros [= <-]|]. intros Hs.
    apply run_signals_effect_spec in Hs as (_ & Hr & _).
    eapply cleared_ext; [exact Hr|]. by apply cleared_run_effect, cleared_cleanup.
  - destruct (refreshInterval a) as [[k' ms]|]; [|discriminate]. intros [= <-].
    destruct (call_fetch_other k' a) as (_ & Hr & _). by eapply cleared_ext.
  - destruct (in_flight a !! i) as [k'|]; [|discriminate].
    destruct (runs a !! k') as [c|]; [|discriminate].
    destruct (fetchDashboardData_resume _ _ _ _) as [r s].
    destruct (mounted a && _); intros [= <-].
    + by apply cleared_run_effect, cleared_cleanup.
    + exact Hk.
  - destruct (mounted a); [|discriminate]. intros [= <-].
    by apply (cleared_cleanup a k).
Qed.

Lemma run_cleared es a a' k : cleared a k -> run es a = Some a' -> cleared a' k.
Proof.
  revert a. induction es as [|e es IH]; intros a Hk; cbn [run]; [by intros [= <-]|].
  destruct (step e a) as [a1|] eqn:E; [|discriminate].
  apply IH. by eapply step_cleared.
Qed.

(** Selecting another model, or unmounting, clears the flag of every
    run there has been. *)
Lemma supersede_clears a a1 m k :
  consistent a ->
  (step (SelectModel m) a = Some a1 /\ m <> selectedModel a) \/ step Unmount a = Some a1 ->
  (k < length (runs a))%nat -> cleared a1 k.
Proof.
  intros [_ H2] Hstep Hk.
  assert (cleared (cleanup a) k) as Hc.
  { destruct (lookup_lt_is_Some_2 (runs (cleanup a)) k) as [c Hkc];
      [by rewrite cleanup_length|].
    exists c. split; [exact Hkc|]. by eapply cleanup_cleared. }
  destruct Hstep as [[Hstep Hm]|Hstep]; cbn [step] in Hstep.
  - destruct (negb (mounted a)); [discriminate|].
    destruct (String.eqb_spec m (selectedModel a)) as [->|_]; [done|].
    apply run_signals_effect_spec in Hstep as (_ & Hr & _).
    eapply cleared_ext; [exact Hr|]. apply cleared_run_effect.
    destruct Hc as (c & Hkc & Hcf). unfold cleared, cleanup in *. cbn [refreshInterval runs].
    destruct (refreshInterval a) as [[k' ms]|]; by eexists.
  - destruct (mounted a); [|discriminate]. injection Hstep as <-. exact Hc.
Qed.

(** C7. A cycle that was started before another model was selected, or
    before the view was torn down, writes nothing when it settles
    afterwards, whatever happened in between and whatever it received:
    the store, the data source and the selected model stay as they
    are. *)
Theorem stale_cycle_never_commits (a a1 a2 a3 : app) (m : string) (es : list event)
    (i k : nat) (f : fetches) :
  reachable a ->
  (step (SelectModel m) a = Some a1 /\ m <> selectedModel a) \/ step Unmount a = Some a1 ->
  run es a1 = Some a2 ->
  in_flight a2 !! i = Some k -> (k < length (runs a))%nat ->
  step (Settle i f) a2 = Some a3 ->
  state a3 = state a2 /\ selectedModel a3 = selectedModel a2.
Proof.
  intros Hr Hsw Hrun Hi Hk Hstep. apply reachable_consistent in Hr.
  pose proof (supersede_clears a a1 m k Hr Hsw Hk) as Hc.
  destruct (run_cleared es a1 a2 k Hc Hrun) as (c & Hkc & Hcf).
  by rewrite (settle_stale a2 a3 i f k c Hi Hkc Hcf Hstep).
Qed.

Lemma stale_cycle_witness :
  let f := Fetches (ok_response (object [])) (ok_response (object []))
                   (ok_response (object [])) (ok_response (object [])) in
  let a1 := App "energy"
                (Store mockPerformance (baseline_signals "energy") mockTrades mockPositions
                       true mock)
                [Closure false "tech"; Closure true "energy"] (Some (1%nat, 900000))
                [0%nat; 1%nat] true in
  let a3 := App "energy" (state a1) (runs a1) (refreshInterval a1) [1%nat] true in
  step (SelectModel "energy") mounted_app = Some a1 /\
  step (Settle 0 f) a1 = Some a3 /\
  state a3 = state a1.
Proof.
  intros f a1 a3.
  assert (step (SelectModel "energy") mounted_app = Some a1) as H1
    by (vm_compute; reflexivity).
  assert (step (Settle 0 f) a1 = Some a3) as H3 by (vm_compute; reflexivity).
  assert ("energy" <> selectedModel mounted_app) as Hm by discriminate.
  assert (in_flight a1 !! 0%nat = Some 0%nat) as Hi by (vm_compute; reflexivity).
  assert (0 < length (runs mounted_app))%nat as Hk by (vm_compute; lia).
  split; [exact H1|]. split; [exact H3|].
  exact (proj1 (stale_cycle_never_commits mounted_app a1 a1 a3 "energy" [] 0 0 f
                  mounted_app_reachable (or_introl (conj H1 Hm)) eq_refl Hi Hk H3)).
Defined.

(** ** The poller *)

(** C8. The period of the timer that is armed is determined by the
    data source alone: five minutes when it is [live], fifteen minutes
    when it is [mock]. *)
Theorem polling_interval (a : app) (k : nat) (ms : Z) :
  reachable a -> refreshInterval a = Some (k, ms) ->
  ms = intervalMs (dataSource (state a)) /\
  intervalMs live = 5 * 60 * 1000 /\
  intervalMs mock = 15 * 60 * 1000.
Proof.
  intros Hr Ht. apply reachable_consistent in Hr as [H1 _].
  destruct (H1 k ms Ht) as (_ & Hms & _). by repeat split.
Qed.

Lemma polling_interval_witness : 900000 = intervalMs (dataSource (state mounted_app)).
Proof.
  exact (proj1 (polling_interval mounted_app 0 900000 mounted_app_reachable eq_refl)).
Defined.

(** C9, as the code has it. The effect starts a cycle and arms the
    timer in one step, without waiting for the cycle; whenever the timer
    is armed a tick starts a further cycle of the current run, whatever
    is still in flight; and a cycle that settles without changing the
    data source leaves the timer as it was. The timer runs on its own
    period from the moment the effect ran. *)
Theorem timer_is_free_running (a : app) (k : nat) (ms : Z) :
  reachable a -> refreshInterval a = Some (k, ms) ->
  (exists a',
     step Tick a = Some a' /\
     in_flight a' = (in_flight a ++ [k])%list /\
     is_active a' (length (in_flight a)) = true /\
     refreshInterval a' = Some (k, ms)) /\
  (forall i f a',
     step (Settle i f) a = Some a' -> dataSource (state a') = dataSource (state a) ->
     refreshInterval a' = Some (k, ms)) /\
  (forall b,
     in_flight (run_effect b) = (in_flight b ++ [length (runs b)])%list /\
     refreshInterval (run_effect b)
       = Some (length (runs b), intervalMs (dataSource (state b)))) /\
  (exists a0 a1,
     initial = Normal a0 /\ step Mount a0 = Some a1 /\
     in_flight a1 = [0%nat] /\ refreshInterval a1 = Some (0%nat, intervalMs mock)).
Proof.
  intros Hr Ht. apply reachable_consistent in Hr as [H1 H2].
  destruct (H1 k ms Ht) as (Hk & _ & Hm).
  split; [|split; [|split]].
  - eexists. cbn [step]. rewrite Ht. split; [reflexivity|].
    destruct (call_fetch_other k a) as (_ & Hr & Ht' & _).
    rewrite (call_fetch_active k a _ Hk). split; [reflexivity|]. split; [|congruence].
    unfold is_active. rewrite (call_fetch_active k a _ Hk), Hr.
    by rewrite list_lookup_middle, Hk.
  - intros i f a'. cbn [step].
    destruct (in_flight a !! i) as [k'|]; [|discriminate].
    destruct (runs a !! k') as [c|]; [|discriminate].
    destruct (fetchDashboardData_resume _ _ _ _) as [r s].
    rewrite Hm. cbn [andb]. case_bool_decide as Hd; cbn [negb]; intros [= <-].
    + by cbn.
    + intros Hd'. exfalso. apply Hd.
      destruct (run_effect_spec (cleanup (App (selectedModel a) s (runs a) (refreshInterval a)
                                               (delete i (in_flight a)) true)))
        as (_ & (_ & _ & _ & _ & Hds) & _).
      rewrite cleanup_state in Hds. cbn [state] in Hds. congruence.
  - intros b. by destruct (run_effect_spec b) as (_ & _ & _ & Ht' & Hi & _).
  - eexists _, mounted_app. split; [apply initial_eq|]. split; [vm_compute; reflexivity|].
    by split.
Qed.

Lemma timer_is_free_running_witness :
  exists a',
    step Tick mounted_app = Some a' /\ in_flight a' = [0%nat; 0%nat] /\
    is_active a' 1 = true.
Proof.
  destruct (timer_is_free_running mounted_app 0 900000 mounted_app_reachable eq_refl)
    as ((a' & Hstep & Hi & Hact & _) & _).
  exists a'. by repeat split.
Defined.

(** C9 as stated fails: after the component mounts, the timer is armed
    while the first cycle is in flight; a tick then puts a second cycle
    of the same run in flight, and the one that settles first writes the
    store while the other is in flight; selecting another model also
    starts a cycle while the first is in flight. *)
Lemma no_overlap_counterexample :
  let f := Fetches (ok_response (object [])) (ok_response (object []))
                   (ok_response (object [])) None in
  (refreshInterval <$> trace [Mount]) = Some (Some (0%nat, 900000)) /\
  (in_flight <$> trace [Mount]) = Some [0%nat] /\
  (in_flight <$> trace [Mount; Tick]) = Some [0%nat; 0%nat] /\
  ((fun a => is_active a 0 && is_active a 1) <$> trace [Mount; Tick]) = Some true /\
  (loading ∘ state <$> trace [Mount; Tick; Settle 1 f]) = Some false /\
  (in_flight <$> trace [Mount; Tick; Settle 1 f]) = Some [0%nat] /\
  (in_flight <$> trace [Mount; SelectModel "energy"]) = Some [0%nat; 1%nat].
Proof. cbv zeta. repeat split; vm_compute; reflexivity. Qed.

(** * The rest of the component, and what the components display *)

(** ** More on the component *)

Lemma cleanup_in_flight a : in_flight (cleanup a) = in_flight a.
Proof. unfold cleanup. by destruct (refreshInterval a) as [[k ms]|]. Qed.

Lemma call_fetch_loading k a m :
  runs a !! k = Some (Closure true m) -> loading (state (call_fetchDashboardData k a)) = true.
Proof. intros H. unfold call_fetchDashboardData. by rewrite H. Qed.

Lemma run_effect_loading a : loading (state (run_effect a)) = true.
Proof.
  unfold run_effect. cbn [state].
  apply (call_fetch_loading _ _ (selectedModel a)). cbn [runs].
  by rewrite list_lookup_middle.
Qed.

(** The cycle the effect starts is one of the run it belongs to. *)
Lemma run_effect_active a : is_active (run_effect a) (length (in_flight a)) = true.
Proof.
  destruct (run_effect_spec a) as (_ & _ & Hr & _ & Hi & _).
  unfold is_active. rewrite Hi, Hr. by rewrite !list_lookup_middle.
Qed.

Lemma run_signals_effect_eq a :
  run_signals_effect a =
  Some (with_state a (Store (performance (state a)) (baseline_signals (selectedModel a))
                            (trades (state a)) (positions (state a)) (loading (state a))
                            (dataSource (state a)))).
Proof. unfold run_signals_effect. by rewrite fallbackSignals_eq. Qed.

Lemma baseline_signals_option m :
  In m (option_value <$> MODEL_OPTIONS) ->
  baseline_signals m = read mockSignals m /\
  exists first rest, read mockSignals m = VArray (first :: rest).
Proof.
  cbn. intros [<-|[<-|[]]]; (split; [vm_compute; reflexivity|]); eexists _, _;
    vm_compute; reflexivity.
Qed.

(** X1. When the user selects the other of the two models, the signals
    shown become the sample signals of that model (a list with
    elements), whatever the data source is; the performance, the trades,
    the positions and the data source stay as they are; the loading flag
    is set; the timer is armed again, by a new run of the effect, at the
    period of the data source; and a cycle of that run is put in
    flight. *)
Theorem select_model_shows_sample_signals (a : app) (m : string) :
  mounted a = true -> In m (option_value <$> MODEL_OPTIONS) -> m <> selectedModel a ->
  exists a',
    step (SelectModel m) a = Some a' /\
    selectedModel a' = m /\
    signals (state a') = read mockSignals m /\
    (exists first rest, signals (state a') = VArray (first :: rest)) /\
    performance (state a') = performance (state a) /\
    trades (state a') = trades (state a) /\
    positions (state a') = positions (state a) /\
    dataSource (state a') = dataSource (state a) /\
    loading (state a') = true /\
    refreshInterval a' = Some (length (runs a), intervalMs (dataSource (state a))) /\
    in_flight a' = (in_flight a ++ [length (runs a)])%list.
Proof.
  intros Hm Hopt Hne. cbn [step]. rewrite Hm. cbn [negb].
  destruct (String.eqb_spec m (selectedModel a)) as [->|_]; [done|].
  rewrite run_signals_effect_eq. eexists. split; [reflexivity|].
  set (b := cleanup _).
  destruct (run_effect_spec b) as (Hs & (Hp & _ & Ht & Hq & Hd) & Hr & Hi & Hf & _).
  destruct (baseline_signals_option m Hopt) as (Hb & Hne').
  assert (selectedModel b = m) as Hsb by (subst b; by rewrite cleanup_selectedModel).
  assert (state b = state a) as Hst by (subst b; by rewrite cleanup_state).
  assert (length (runs b) = length (runs a)) as Hl by (subst b; by rewrite cleanup_length).
  assert (in_flight b = in_flight a) as Hib by (subst b; by rewrite cleanup_in_flight).
  cbn [with_state selectedModel state signals performance trades positions dataSource loading
       refreshInterval in_flight].
  rewrite Hs, Hsb, Hb, Hp, Ht, Hq, Hd, Hi, Hf, Hst, Hl, Hib, run_effect_loading.
  by repeat split.
Qed.

Lemma select_model_witness :
  exists a',
    step (SelectModel "energy") mounted_app = Some a' /\
    signals (state a') = read mockSignals "energy".
Proof.
  assert (In "energy" (option_value <$> MODEL_OPTIONS)) as Hopt by (right; left; reflexivity).
  assert ("energy" <> selectedModel mounted_app) as Hne by discriminate.
  destruct (select_model_shows_sample_signals mounted_app "energy" eq_refl Hopt Hne)
    as (a' & H1 & _ & H3 & _).
  by exists a'.
Defined.

Lemma Some_eq {A} (x y : A) : Some x = Some y -> x = y.
Proof. by intros [= ->]. Qed.

Lemma Normal_eq {A} (x y : A) : Normal x = Normal y -> x = y.
Proof. by intros [= ->]. Qed.

Lemma active_mounted a i : consistent a -> is_active a i = true -> mounted a = true.
Proof.
  intros [H1 H2] Hact. destruct (is_active_inv a i Hact) as (k & m & Hi & Hk).
  destruct (H2 k _ Hk eq_refl) as [ms E]. by destruct (H1 k ms E) as (_ & _ & ?).
Qed.

Lemma cleanup_all_cleared a k :
  (forall j c, runs a !! j = Some c -> isMounted c = true ->
     exists ms, refreshInterval a = Some (j, ms)) ->
  (k < length (runs a))%nat -> cleared (cleanup a) k.
Proof.
  intros H2 Hk.
  destruct (lookup_lt_is_Some_2 (runs (cleanup a)) k) as [c Hkc]; [by rewrite cleanup_length|].
  exists c. split; [exact Hkc|]. by eapply cleanup_cleared.
Qed.

(** What a refresh of the current cycle leads to when the re-render
    returns. *)
Lemma settle_restarts (a a' : app) (i : nat) (f : fetches) :
  reachable a -> is_active a i = true -> step (Settle i f) a = Some a' ->
  dataSource (state a') = (if gateway_success f then live else mock) /\
  if bool_decide (dataSource (state a') = dataSource (state a))
  then
    loading (state a') = false /\ runs a' = runs a /\
    refreshInterval a' = refreshInterval a /\ in_flight a' = delete i (in_flight a)
  else
    loading (state a') = true /\
    refreshInterval a' = Some (length (runs a), intervalMs (dataSource (state a'))) /\
    in_flight a' = (delete i (in_flight a) ++ [length (runs a)])%list /\
    is_active a' (length (delete i (in_flight a))) = true /\
    (forall k, (k < length (runs a))%nat -> cleared a' k).
Proof.
  intros Hr Hact Hstep. apply reachable_consistent in Hr.
  pose proof (active_mounted a i Hr Hact) as Hm.
  destruct (is_active_inv a i Hact) as (k & m & Hi & Hk).
  cbn [step] in Hstep. rewrite Hi, Hk in Hstep. cbn [isMounted model] in Hstep.
  rewrite resume_active, Hm in Hstep. cbn [andb] in Hstep.
  set (s := if gateway_success f then live_store m f else baseline_store m) in *.
  assert (dataSource s = if gateway_success f then live else mock) as Hds
    by (subst s; by destruct (gateway_success f)).
  assert (loading s = false) as Hl by (subst s; by destruct (gateway_success f)).
  case_bool_decide as Hd; cbn [negb] in Hstep; injection Hstep as <-.
  - cbn [state]. rewrite bool_decide_eq_true_2 by done. by repeat split.
  - set (a1 := App _ s _ _ _ _).
    destruct (run_effect_spec (cleanup a1)) as (_ & (_ & _ & _ & _ & Hd') & _ & Ht & Hf & _).
    rewrite cleanup_state in Hd', Ht. rewrite cleanup_length in Ht, Hf.
    rewrite cleanup_in_flight in Hf. cbn [state runs in_flight] in Hd', Ht, Hf.
    split; [by rewrite Hd'|].
    rewrite bool_decide_eq_false_2 by (by rewrite Hd').
    split; [apply run_effect_loading|]. split; [by rewrite Hd'|]. split; [exact Hf|].
    split.
    + pose proof (run_effect_active (cleanup a1)) as Ha.
      by rewrite cleanup_in_flight in Ha.
    + intros j Hj. apply cleared_run_effect, cleanup_all_cleared; [|exact Hj].
      by destruct Hr as [_ H2].
Qed.

Lemma settled_active a i f k m :
  in_flight a !! i = Some k -> runs a !! k = Some (Closure true m) ->
  settled i f a =
  Some (App (selectedModel a)
            (if gateway_success f then live_store m f else baseline_store m)
            (runs a) (refreshInterval a) (delete i (in_flight a)) (mounted a)).
Proof.
  intros Hi Hk. unfold settled. rewrite Hi. cbn [mbind option_bind]. rewrite Hk.
  cbn [mbind option_bind isMounted model]. by rewrite resume_active.
Qed.

Lemma settle_rendered_active renders a a1 i f :
  consistent a -> is_active a i = true -> settled i f a = Some a1 ->
  settle_rendered renders i f a =
  if renders a1 then step (Settle i f) a else step Unmount a1.
Proof.
  intros Hc Hact Hs. unfold settle_rendered. rewrite Hs. cbn [mbind option_bind].
  rewrite (active_mounted a i Hc Hact), Hact. cbn [andb]. by destruct (renders a1).
Qed.

(** X2. A refresh of the current cycle leaves the data source [live]
    if it succeeded and [mock] if it failed, and the component is
    rendered again. When that render returns and the data source has
    changed, the effect runs again at once: the loading flag is set
    again, the timer is armed by a new run at the period of the new data
    source, a cycle of the new run is in flight, and every run there was
    has its flag cleared. When the render returns and the data source has
    not changed, the loading flag is cleared, and the runs, the timer and
    the other cycles in flight stay as they are. When the render throws,
    the component is removed: no timer is armed, no cycle is started and
    every run has its flag cleared. *)
Theorem source_change_restarts_polling (renders : app -> bool) (a a1 a' : app) (i : nat)
    (f : fetches) :
  reachable a -> is_active a i = true ->
  settled i f a = Some a1 -> settle_rendered renders i f a = Some a' ->
  dataSource (state a1) = (if gateway_success f then live else mock) /\
  dataSource (state a') = dataSource (state a1) /\
  if renders a1
  then
    if bool_decide (dataSource (state a') = dataSource (state a))
    then
      loading (state a') = false /\ runs a' = runs a /\
      refreshInterval a' = refreshInterval a /\ in_flight a' = delete i (in_flight a)
    else
      loading (state a') = true /\
      refreshInterval a' = Some (length (runs a), intervalMs (dataSource (state a'))) /\
      in_flight a' = (delete i (in_flight a) ++ [length (runs a)])%list /\
      is_active a' (length (delete i (in_flight a))) = true /\
      (forall k, (k < length (runs a))%nat -> cleared a' k)
  else
    mounted a' = false /\ refreshInterval a' = None /\
    in_flight a' = delete i (in_flight a) /\
    (forall k, (k < length (runs a))%nat -> cleared a' k).
Proof.
  intros Hr Hact Hs Hstep.
  pose proof (reachable_consistent a Hr) as Hc.
  rewrite (settle_rendered_active renders a a1 i f Hc Hact Hs) in Hstep.
  destruct (is_active_inv a i Hact) as (k & m & Hi & Hk).
  rewrite (settled_active a i f k m Hi Hk) in Hs. apply Some_eq in Hs.
  assert (dataSource (state a1) = if gateway_success f then live else mock) as Hd
    by (subst a1; cbn [state]; by destruct (gateway_success f)).
  split; [exact Hd|].
  destruct (renders a1).
  - destruct (settle_restarts a a' i f Hr Hact Hstep) as [Hd' H].
    split; [by rewrite Hd, Hd'|exact H].
  - cbn [step] in Hstep.
    assert (mounted a1 = true) as Hm by (subst a1; apply (active_mounted a i Hc Hact)).
    rewrite Hm in Hstep. apply Some_eq in Hstep. subst a'.
    cbn [state mounted refreshInterval in_flight runs].
    rewrite cleanup_state, cleanup_timer, cleanup_in_flight.
    split; [reflexivity|]. split; [reflexivity|]. split; [reflexivity|].
    split; [by subst a1|].
    intros j Hj.
    assert (cleared (cleanup a1) j) as (c & Hjc & Hcl).
    { apply cleanup_all_cleared; [|by subst a1]. subst a1. by destruct Hc as [_ H2]. }
    by exists c.
Qed.

(** The first refresh succeeds with a string for the trades, and the
    render with [TradesTable] throws. *)
Lemma source_change_witness :
  let f := Fetches (ok_response (object [])) (ok_response (object []))
                   (ok_response (object [("trades", VString "none")]))
                   (ok_response (object [])) in
  let renders := fun b => returns (TradesTable plain_host (trades (state b))) in
  let a1 := App "tech"
                (Store (live_performance (object [])) (baseline_signals "tech")
                       (VString "none") mockPositions false live)
                [Closure true "tech"] (Some (0%nat, 900000)) [] true in
  let a' := App "tech"
                (Store (live_performance (object [])) (baseline_signals "tech")
                       (VString "none") mockPositions false live)
                [Closure false "tech"] None [] false in
  settle_rendered renders 0 f mounted_app = Some a' /\
  renders a1 = false /\ mounted a' = false /\ refreshInterval a' = None.
Proof.
  intros f renders a1 a'.
  assert (is_active mounted_app 0 = true) as Hact by (vm_compute; reflexivity).
  assert (settled 0 f mounted_app = Some a1) as Hs by (vm_compute; reflexivity).
  assert (settle_rendered renders 0 f mounted_app = Some a') as Hstep
    by (vm_compute; reflexivity).
  assert (renders a1 = false) as Hren by (vm_compute; reflexivity).
  split; [exact Hstep|]. split; [exact Hren|].
  pose proof (source_change_restarts_polling renders mounted_app a1 a' 0 f
                mounted_app_reachable Hact Hs Hstep) as (_ & _ & H).
  rewrite Hren in H. destruct H as (Hm & Ht & _). by split.
Defined.

(** *** The loading flag *)

Lemma is_active_ext a a' i :
  runs a' = runs a -> in_flight a' = in_flight a -> is_active a' i = is_active a i.
Proof. unfold is_active. by intros -> ->. Qed.

Lemma is_active_delete a i j (s : store) :
  is_active a i = false -> is_active a j = true ->
  exists j',
    is_active (App (selectedModel a) s (runs a) (refreshInterval a) (delete i (in_flight a))
                   (mounted a)) j' = true.
Proof.
  intros Hi Hj. unfold is_active in *. cbn [in_flight runs].
  destruct (decide (j < i)%nat) as [Hlt|Hge].
  - exists j. by rewrite list_lookup_delete_lt.
  - assert (j <> i) as Hne by (intros ->; congruence).
    exists (j - 1)%nat. rewrite list_lookup_delete_ge by lia.
    by replace (S (j - 1)) with j by lia.
Qed.

Lemma step_awaited e a a' : consistent a -> awaited a -> step e a = Some a' -> awaited a'.
Proof.
  intros Hc Hw. pose proof Hc as [H1 H2]. destruct e as [|m| |i f|].
  - cbn [step]. destruct (mounted a || _); [discriminate|]. rewrite run_signals_effect_eq.
    intros [= <-] _ _. eexists. erewrite is_active_ext; [apply run_effect_active|done..].
  - cbn [step]. destruct (negb (mounted a)); [discriminate|].
    destruct (String.eqb m (selectedModel a)); [by intros [= <-]|].
    rewrite run_signals_effect_eq.
    intros [= <-] _ _. eexists. erewrite is_active_ext; [apply run_effect_active|done..].
  - cbn [step]. destruct (refreshInterval a) as [[k ms]|] eqn:E; [|discriminate].
    intros [= <-] _ _.
    destruct (H1 k ms eq_refl) as (Hk & _).
    destruct (call_fetch_other k a) as (_ & Hr & _).
    exists (length (in_flight a)). unfold is_active.
    rewrite (call_fetch_active k a _ Hk), Hr. by rewrite list_lookup_middle, Hk.
  - intros Hstep.
    destruct (in_flight a !! i) as [k|] eqn:Hi;
      [|by cbn [step] in Hstep; rewrite Hi in Hstep].
    destruct (runs a !! k) as [[[] m]|] eqn:Hk;
      [| |by cbn [step] in Hstep; rewrite Hi, Hk in Hstep].
    + cbn [step] in Hstep. rewrite Hi, Hk in Hstep. cbn [isMounted model] in Hstep.
      rewrite resume_active in Hstep.
      destruct (mounted a && _); injection Hstep as <-.
      * intros _ _. eexists. apply run_effect_active.
      * intros _ Hl. cbn [state] in Hl. by destruct (gateway_success f).
    + rewrite (settle_stale a a' i f k _ Hi Hk eq_refl Hstep).
      intros Hm Hl. cbn [mounted state] in Hm, Hl.
      destruct (Hw Hm Hl) as [j Hj].
      apply (is_active_delete a i j); [|exact Hj].
      unfold is_active. by rewrite Hi, Hk.
  - cbn [step]. destruct (mounted a); [|discriminate]. intros [= <-]. by intros Hm.
Qed.

Lemma run_awaited es a a' :
  consistent a -> awaited a -> run es a = Some a' -> awaited a'.
Proof.
  revert a. induction es as [|e es IH]; intros a Hc Hw; cbn [run]; [by intros [= <-]|].
  destruct (step e a) as [a1|] eqn:E; [|discriminate].
  apply IH; [by eapply step_consistent|by eapply step_awaited].
Qed.

(** X3. The loading flag is never left on: in every state the mounted
    component can reach with the flag set, a cycle of the current run is
    in flight, and when that cycle settles, whatever it received, the
    flag is cleared or the data source changes (and the effect starts a
    new cycle). *)
Theorem loading_has_a_cycle_behind_it (a : app) :
  reachable a -> mounted a = true -> loading (state a) = true ->
  exists i k,
    in_flight a !! i = Some k /\ runs a !! k = Some (Closure true (selectedModel a)) /\
    forall f a', step (Settle i f) a = Some a' ->
      loading (state a') = false \/ dataSource (state a') <> dataSource (state a).
Proof.
  intros (a0 & es & H0 & Hrun) Hm Hl.
  rewrite initial_eq in H0. injection H0 as <-.
  assert (consistent a) as Hc.
  { eapply run_consistent; [|exact Hrun]. by apply consistent_unarmed. }
  assert (awaited a) as Hw.
  { eapply run_awaited; [| |exact Hrun]; [by apply consistent_unarmed|]. by intros ?. }
  destruct (Hw Hm Hl) as [i Hact].
  destruct (is_active_inv a i Hact) as (k & m & Hi & Hk).
  rewrite (is_active_model a i k m Hc Hi Hk) in Hk.
  exists i, k. split; [exact Hi|]. split; [exact Hk|].
  intros f a' Hstep. cbn [step] in Hstep. rewrite Hi, Hk in Hstep.
  cbn [isMounted model] in Hstep. rewrite resume_active, Hm in Hstep. cbn [andb] in Hstep.
  case_bool_decide as Hd; cbn [negb] in Hstep; injection Hstep as <-.
  - left. cbn [state]. by destruct (gateway_success f).
  - right. destruct (run_effect_spec (cleanup (App (selectedModel a)
        (if gateway_success f then live_store (selectedModel a) f
         else baseline_store (selectedModel a))
        (runs a) (refreshInterval a) (delete i (in_flight a)) true)))
      as (_ & (_ & _ & _ & _ & Hd') & _).
    rewrite cleanup_state in Hd'. cbn [state] in Hd'. by rewrite Hd'.
Qed.

Lemma loading_witness :
  exists i k,
    in_flight mounted_app !! i = Some k /\
    runs mounted_app !! k = Some (Closure true (selectedModel mounted_app)).
Proof.
  destruct (loading_has_a_cycle_behind_it mounted_app mounted_app_reachable eq_refl eq_refl)
    as (i & k & Hi & Hk & _).
  by exists i, k.
Defined.

(** *** After the component is unmounted *)

Lemma step_torn_down e a a' :
  torn_down a -> step e a = Some a' ->
  torn_down a' /\ state a' = state a /\ selectedModel a' = selectedModel a /\
  (length (in_flight a') < length (in_flight a))%nat /\ exists i f, e = Settle i f.
Proof.
  intros (Hm & Ht & Hr & Hf). destruct e as [|m| |i f|].
  - cbn [step]. rewrite Hm. cbn [orb]. case_bool_decide as Hl; [|discriminate].
    apply nil_length_inv in Hl. contradiction.
  - cbn [step]. by rewrite Hm.
  - cbn [step]. by rewrite Ht.
  - intros Hstep.
    destruct (in_flight a !! i) as [k|] eqn:Hi;
      [|by cbn [step] in Hstep; rewrite Hi in Hstep].
    destruct (runs a !! k) as [c|] eqn:Hk;
      [|by cbn [step] in Hstep; rewrite Hi, Hk in Hstep].
    rewrite (settle_stale a a' i f k c Hi Hk (Hf k c Hk) Hstep).
    cbn [state selectedModel in_flight]. split; [by repeat split|].
    split; [done|]. split; [done|]. split; [|by eexists _, _].
    pose proof (lookup_lt_Some _ _ _ Hi). rewrite length_delete by (by eexists). lia.
  - cbn [step]. by rewrite Hm.
Qed.

Lemma mounted_has_run e a a' :
  (mounted a = true -> runs a <> []) -> step e a = Some a' ->
  mounted a' = true -> runs a' <> [].
Proof.
  intros Ha. destruct e as [|m| |i f|]; cbn [step].
  - destruct (mounted a || _); [discriminate|]. rewrite run_signals_effect_eq.
    intros [= <-] _. cbn [with_state runs].
    destruct (run_effect_spec (App (selectedModel a) (state a) (runs a) (refreshInterval a)
                                   (in_flight a) true)) as (_ & _ & -> & _).
    apply not_eq_sym, app_cons_not_nil.
  - destruct (negb (mounted a)); [discriminate|].
    destruct (String.eqb m (selectedModel a)); [by intros [= <-]|].
    rewrite run_signals_effect_eq. intros [= <-] _. cbn [with_state runs].
    destruct (run_effect_spec (cleanup (App m (state a) (runs a) (refreshInterval a)
                                            (in_flight a) (mounted a)))) as (_ & _ & -> & _).
    apply not_eq_sym, app_cons_not_nil.
  - destruct (refreshInterval a) as [[k ms]|]; [|discriminate]. intros [= <-].
    destruct (call_fetch_other k a) as (_ & -> & _ & ->). exact Ha.
  - destruct (in_flight a !! i) as [k|]; [|discriminate].
    destruct (runs a !! k) as [c|]; [|discriminate].
    destruct (fetchDashboardData_resume _ _ _ _) as [r s].
    destruct (mounted a && _) eqn:E; intros [= <-].
    + intros _.
      destruct (run_effect_spec (cleanup (App (selectedModel a) s (runs a) (refreshInterval a)
                                              (delete i (in_flight a)) (mounted a))))
        as (_ & _ & -> & _).
      apply not_eq_sym, app_cons_not_nil.
    + exact Ha.
  - destruct (mounted a); [|discriminate]. by intros [= <-].
Qed.

Lemma reachable_mounted_has_run a : reachable a -> mounted a = true -> runs a <> [].
Proof.
  intros (a0 & es & H0 & Hrun). rewrite initial_eq in H0. injection H0 as <-.
  assert (mounted (App "tech" (Store mockPerformance (baseline_signals "tech") mockTrades
                                     mockPositions false mock) [] None [] false) = true ->
          runs (App "tech" (Store mockPerformance (baseline_signals "tech") mockTrades
                                  mockPositions false mock) [] None [] false) <> []) as H0
    by discriminate.
  revert H0 Hrun. generalize (App "tech" (Store mockPerformance (baseline_signals "tech")
                                                mockTrades mockPositions false mock)
                                  [] None [] false).
  induction es as [|e es IH]; intros a0 H0; cbn [run]; [by intros [= <-]|].
  destruct (step e a0) as [a1|] eqn:E; [|discriminate].
  apply IH. by eapply mounted_has_run.
Qed.

Lemma run_torn_down es a a' :
  torn_down a -> run es a = Some a' ->
  torn_down a' /\ state a' = state a /\ selectedModel a' = selectedModel a /\
  (length (in_flight a') + length es = length (in_flight a))%nat /\
  Forall (fun e => exists i f, e = Settle i f) es.
Proof.
  revert a. induction es as [|e es IH]; intros a Ha; cbn [run].
  - intros [= <-]. split; [exact Ha|]. split; [done|]. split; [done|].
    split; [cbn; lia|constructor].
  - destruct (step e a) as [a1|] eqn:E; [|discriminate]. intros Hrun.
    destruct (step_torn_down e a a1 Ha E) as (Ha1 & Hs & Hm & Hl & He).
    destruct (IH a1 Ha1 Hrun) as (Ha' & Hs' & Hm' & Hl' & He').
    split; [exact Ha'|]. split; [congruence|]. split; [congruence|].
    split; [|by constructor].
    destruct He as (i & f & ->).
    cbn [step] in E. destruct (in_flight a !! i) as [k|] eqn:Hi; [|discriminate].
    destruct Ha as (_ & _ & _ & Hf).
    destruct (runs a !! k) as [c|] eqn:Hk; [|discriminate].
    assert (step (Settle i f) a = Some a1) as E' by (cbn [step]; by rewrite Hi, Hk).
    rewrite (settle_stale a a1 i f k c Hi Hk (Hf k c Hk) E') in Hl'.
    cbn [in_flight] in Hl'. pose proof (lookup_lt_Some _ _ _ Hi).
    rewrite length_delete in Hl' by (by eexists). cbn [length]. lia.
Qed.

(** X4. After the component is unmounted nothing is written any more:
    the only events that can follow are cycles in flight that settle,
    each of which leaves the store and the selected model as they are;
    the timer is not armed, so no tick can come; and the component
    cannot be mounted again. *)
Theorem unmount_is_final (a a1 a2 : app) (es : list event) :
  reachable a -> step Unmount a = Some a1 -> run es a1 = Some a2 ->
  state a2 = state a1 /\ selectedModel a2 = selectedModel a1 /\
  mounted a2 = false /\ refreshInterval a2 = None /\
  step Tick a2 = None /\ step Mount a2 = None /\
  Forall (fun e => exists i f, e = Settle i f) es /\
  (length (in_flight a2) + length es = length (in_flight a))%nat.
Proof.
  intros Hr Hstep Hrun.
  pose proof (reachable_consistent a Hr) as [H1 H2].
  assert (torn_down a1 /\ in_flight a1 = in_flight a) as [Ha1 Hi].
  { cbn [step] in Hstep. destruct (mounted a) eqn:Hm; [|discriminate].
    injection Hstep as <-. cbn [in_flight]. rewrite cleanup_in_flight. split; [|done].
    split; [done|]. split; [apply cleanup_timer|]. split.
    - cbn [runs]. intros Hnil. apply (reachable_mounted_has_run a Hr Hm).
      apply nil_length_inv. by rewrite <- cleanup_length, Hnil.
    - cbn [runs]. intros j c. by apply cleanup_cleared. }
  destruct (run_torn_down es a1 a2 Ha1 Hrun) as ((Hm & Ht & Hne & Hf) & Hs & Hsel & Hl & He).
  split; [exact Hs|]. split; [exact Hsel|]. split; [exact Hm|]. split; [exact Ht|].
  split; [by cbn [step]; rewrite Ht|]. split.
  - cbn [step]. rewrite Hm. cbn [orb]. case_bool_decide as Hnil; [|done].
    apply nil_length_inv in Hnil. contradiction.
  - split; [exact He|]. by rewrite <- Hi.
Qed.

Lemma unmount_witness :
  let f := Fetches (ok_response (object [])) (ok_response (object []))
                   (ok_response (object [])) (ok_response (object [])) in
  let a1 := App "tech" (state mounted_app) [Closure false "tech"] None [0%nat] false in
  let a2 := App "tech" (state mounted_app) [Closure false "tech"] None [] false in
  step Unmount mounted_app = Some a1 /\ run [Settle 0 f] a1 = Some a2 /\
  state a2 = state a1.
Proof.
  intros f a1 a2.
  assert (step Unmount mounted_app = Some a1) as H1 by (vm_compute; reflexivity).
  assert (run [Settle 0 f] a1 = Some a2) as H2 by (vm_compute; reflexivity).
  split; [exact H1|]. split; [exact H2|].
  exact (proj1 (unmount_is_final mounted_app a1 a2 [Settle 0 f] mounted_app_reachable H1 H2)).
Defined.

(** *** Errors of a refresh *)

Lemma try_block_inactive m f s :
  match fst (try_block false m f s) with Next _ => False | _ => True end.
Proof.
  destruct f as [fp fs ft fq]. unfold try_block.
  destruct fp as [[okp bp]|]; [|exact I].
  destruct fs as [[oks bs]|]; [|exact I].
  destruct ft as [[okt bt]|]; [|exact I].
  destruct fq as [[okq bq]|]; [|exact I].
  cbn [Promise_all performanceFetch signalsFetch tradesFetch positionsFetch].
  rewrite eval_normal. cbn [ok].
  destruct okp; [|exact I].
  destruct oks; [|exact I].
  destruct okt; [|exact I].
  destruct okq; [|exact I].
  cbn [negb orb]. rewrite skip_then.
  destruct bp as [vp|]; [|exact I].
  destruct bs as [vs|]; [|exact I].
  destruct bt as [vt|]; [|exact I].
  destruct bq as [vq|]; [|exact I].
  exact I.
Qed.

(** X5. [fetchDashboardData] never rejects: whatever the four
    requests come back with, the cycle ends normally when its flag is
    set and by a [return] when it is cleared; no exception leaves
    it. *)
Theorem fetchDashboardData_never_rejects (flag : bool) (m : string) (f : fetches)
    (s : store) :
  In m (option_value <$> MODEL_OPTIONS) ->
  fst (fetchDashboardData_resume flag m f s) = (if flag then Next () else Return) /\
  forall e, fst (fetchDashboardData_resume flag m f s) <> Raise e.
Proof.
  intros _.
  assert (fst (fetchDashboardData_resume flag m f s) = if flag then Next () else Return)
    as H; [|split; [exact H|intros e; rewrite H; by destruct flag]].
  destruct flag; [by rewrite resume_active|].
  unfold fetchDashboardData_resume, try_catch_finally.
  pose proof (try_block_inactive m f s) as Ht.
  destruct (try_block false m f s) as [[[]| |e] s1]; cbn [fst] in Ht; [done|done|].
  reflexivity.
Qed.

Lemma never_rejects_witness :
  fst (fetchDashboardData_resume true "tech" (Fetches None None None None)
         (state mounted_app)) = Next ().
Proof.
  assert (In "tech" (option_value <$> MODEL_OPTIONS)) as Hopt by (left; reflexivity).
  exact (proj1 (fetchDashboardData_never_rejects true "tech" (Fetches None None None None)
                  (state mounted_app) Hopt)).
Defined.

(** *** What the length test lets through *)

Lemma live_or_string s sample :
  s <> "" -> Z.of_nat (String.length s) < 2 ^ 53 -> live_or (VString s) sample = VString s.
Proof.
  intros Hs Hlen. unfold live_or. rewrite has_length_eq.
  cbn [nullish read get String.eqb Ascii.eqb Bool.eqb truthy].
  unfold float_of_nat.
  assert (0 < Z.of_nat (String.length s) < 2 ^ prec) as Hb.
  { split; [|exact Hlen]. destruct s; [done|cbn [String.length]; lia]. }
  by rewrite (float_of_Z_nonzero _ Hb), (float_of_Z_not_nan _ Hb).
Qed.

(** X6. The length test of a refresh does not check that a collection
    is an array: a non-empty string received as the trades is stored as
    the trades, the data source being [live]; [TradesTable] throws a
    [TypeError] for it, and a render that calls [TradesTable] on the
    trades of the store removes the component, the timer with it. *)
Theorem trades_need_not_be_an_array (h : Host) (renders : app -> bool) (a a1 a' : app)
    (i : nat) (f : fetches) (s : string) :
  reachable a -> is_active a i = true -> gateway_success f = true ->
  read (payload (tradesFetch f)) "trades" = VString s ->
  s <> "" -> Z.of_nat (String.length s) < 2 ^ 53 ->
  (forall b, returns (TradesTable h (trades (state b))) = false -> renders b = false) ->
  settled i f a = Some a1 -> settle_rendered renders i f a = Some a' ->
  dataSource (state a1) = live /\
  trades (state a1) = VString s /\
  TradesTable h (trades (state a1)) = Throw (TypeError "map is not a function") /\
  mounted a' = false /\ refreshInterval a' = None.
Proof.
  intros Hr Hact Hg Hsig Hs Hlen Hren Hset Hstep.
  pose proof (reachable_consistent a Hr) as Hc.
  rewrite (settle_rendered_active renders a a1 i f Hc Hact Hset) in Hstep.
  destruct (is_active_inv a i Hact) as (k & m & Hi & Hk).
  rewrite (settled_active a i f k m Hi Hk), Hg in Hset. apply Some_eq in Hset.
  assert (trades (state a1) = VString s) as Ht.
  { subst a1. cbn [state live_store trades]. by rewrite Hsig, live_or_string. }
  assert (TradesTable h (trades (state a1)) = Throw (TypeError "map is not a function"))
    as Hthrow by (by rewrite Ht).
  split; [by subst a1|]. split; [exact Ht|]. split; [exact Hthrow|].
  rewrite (Hren a1) in Hstep by (by rewrite Hthrow).
  cbn [step] in Hstep.
  assert (mounted a1 = true) as Hm by (subst a1; apply (active_mounted a i Hc Hact)).
  rewrite Hm in Hstep. apply Some_eq in Hstep. subst a'.
  cbn [mounted refreshInterval]. by rewrite cleanup_timer.
Qed.

Lemma trades_witness :
  let f := Fetches (ok_response (object [])) (ok_response (object []))
                   (ok_response (object [("trades", VString "none")]))
                   (ok_response (object [])) in
  let renders := fun b => returns (TradesTable plain_host (trades (state b))) in
  let a1 := App "tech"
                (Store (live_performance (object [])) (baseline_signals "tech")
                       (VString "none") mockPositions false live)
                [Closure true "tech"] (Some (0%nat, 900000)) [] true in
  let a' := App "tech"
                (Store (live_performance (object [])) (baseline_signals "tech")
                       (VString "none") mockPositions false live)
                [Closure false "tech"] None [] false in
  settle_rendered renders 0 f mounted_app = Some a' /\
  TradesTable plain_host (trades (state a1)) = Throw (TypeError "map is not a function").
Proof.
  intros f renders a1 a'.
  assert (is_active mounted_app 0 = true) as Hact by (vm_compute; reflexivity).
  assert (gateway_success f = true) as Hg by (vm_compute; reflexivity).
  assert (read (payload (tradesFetch f)) "trades" = VString "none") as Hread
    by (vm_compute; reflexivity).
  assert ("none" <> "") as Hne by discriminate.
  assert (Z.of_nat (String.length "none") < 2 ^ 53) as Hlen by (vm_compute; reflexivity).
  assert (forall b, returns (TradesTable plain_host (trades (state b))) = false ->
                    renders b = false) as Hren by (intros b Hb; exact Hb).
  assert (settled 0 f mounted_app = Some a1) as Hs by (vm_compute; reflexivity).
  assert (settle_rendered renders 0 f mounted_app = Some a') as Hstep
    by (vm_compute; reflexivity).
  split; [exact Hstep|].
  exact (proj1 (proj2 (proj2 (trades_need_not_be_an_array plain_host renders mounted_app a1 a'
                                0 f "none" mounted_app_reachable Hact Hg Hread Hne Hlen Hren
                                Hs Hstep)))).
Defined.

(** ** The tables and the grid *)

Lemma mapM_returns {A B} (f : A -> completion B) l :
  returns (mapM f l) = forallb (fun x => returns (f x)) l.
Proof.
  induction l as [|x l IH]; [reflexivity|]. cbn [mapM forallb].
  destruct (f x) as [y|e]; [|reflexivity]. rewrite bind_normal. cbn [returns andb].
  rewrite <- IH. by destruct (mapM f l).
Qed.

Lemma mapM_normal {A B} (f : A -> completion B) l ys :
  mapM f l = Normal ys -> Forall2 (fun x y => f x = Normal y) l ys.
Proof.
  revert ys. induction l as [|x l IH]; intros ys; cbn [mapM].
  - intros [= <-]. constructor.
  - destruct (f x) as [y|e] eqn:E; [|discriminate]. rewrite bind_normal.
    destruct (mapM f l) as [ys'|e]; [|discriminate]. rewrite bind_normal.
    intros [= <-]. constructor; [exact E|by apply IH].
Qed.

Lemma mapM_fmap {A B C} (g : A -> B) (f : B -> completion C) l :
  mapM f (g <$> l) = mapM (fun x => f (g x)) l.
Proof.
  induction l as [|x l IH]; [reflexivity|]. cbn [fmap list_fmap mapM]. 
  change (list_fmap A B g l) with (g <$> l). by rewrite IH.
Qed.

Lemma trade_pnl_text_number x : exists s, trade_pnl_text (VNumber x) = Normal (VString s).
Proof.
  unfold trade_pnl_text. destruct (is_zero_value _); [by eexists|].
  cbn [toFixed_call]. rewrite bind_normal. by eexists.
Qed.

Lemma returns_then {A B} (c : completion A) (g : A -> B) :
  returns (c ≫= fun x => Normal (g x)) = returns c.
Proof. by destruct c. Qed.

Lemma forallb_eq {A} (f g : A -> bool) l : (forall x, f x = g x) -> forallb f l = forallb g l.
Proof. intros H. induction l as [|x l IH]; [reflexivity|]. cbn [forallb]. by rewrite H, IH. Qed.

(** The rows are made after all records are normalized; whether that
    returns can be told record by record. *)
Lemma rows_return {B} (normalize : value -> completion value) (row : value -> completion B)
    (records : list value) :
  returns (mapM normalize records ≫= mapM row) =
  forallb (fun r => returns (normalize r ≫= row)) records.
Proof.
  induction records as [|r records IH]; [reflexivity|]. cbn [mapM forallb].
  destruct (normalize r) as [t|e]; [|reflexivity]. rewrite !bind_normal.
  destruct (mapM normalize records) as [ts|e].
  - rewrite !bind_normal in *. cbn [mapM]. rewrite <- IH.
    destruct (row t) as [out|e]; [|reflexivity]. rewrite bind_normal. cbn [andb].
    by destruct (mapM row ts).
  - cbn in IH. rewrite <- IH. cbn. by rewrite andb_false_r.
Qed.

Lemma rows_normal {B} (normalize : value -> completion value) (row : value -> completion B)
    (records : list (gmap string value)) rows :
  (mapM normalize (VObject <$> records) ≫= mapM row) = Normal rows ->
  Forall2 (fun r out => exists t, normalize (VObject r) = Normal t /\ row t = Normal out)
          records rows.
Proof.
  rewrite mapM_fmap.
  destruct (mapM _ records) as [ts|e] eqn:E; [|discriminate].
  rewrite bind_normal. intros Hrows.
  apply mapM_normal in E. apply mapM_normal in Hrows.
  revert rows Hrows. induction E as [|r t records ts Hrt _ IH]; intros rows Hrows.
  - inversion Hrows. constructor.
  - inversion Hrows as [|? out ? rows' Hto Hrows']; subst.
    constructor; [by exists t|by apply IH].
Qed.

Lemma forallb_fmap {A B} (g : A -> B) (f : B -> bool) l :
  forallb f (g <$> l) = forallb (fun x => f (g x)) l.
Proof.
  induction l as [|x l IH]; [reflexivity|]. cbn [fmap list_fmap forallb].
  change (list_fmap A B g l) with (g <$> l). by rewrite IH.
Qed.

(** A record of values that convert. *)
Lemma plain_first_of r ks d : plain r -> converts d = true -> converts (first_of r ks d) = true.
Proof.
  intros Hr Hd. induction ks as [|k ks IH]; cbn [first_of]; [exact Hd|].
  destruct (r !! k) as [v|] eqn:E; [|exact IH].
  destruct (nullish v); [exact IH|]. by apply (Hr k).
Qed.

Lemma plain_lookup r k : plain r -> converts (default VUndefined (r !! k)) = true.
Proof.
  intros Hr. destruct (r !! k) as [v|] eqn:E; [|reflexivity]. by apply (Hr k).
Qed.

Lemma plain_trade r :
  plain r ->
  trade_accepted r = is_string (first_of r ["side"; "action"; "type"] (VString "HOLD")).
Proof.
  intros Hr. unfold trade_accepted, trade_converts.
  rewrite !plain_first_of, !plain_lookup by done.
  cbn [andb]. by rewrite !orb_true_r, !andb_true_r.
Qed.

Lemma plain_position r : plain r -> position_accepted r = true.
Proof.
  intros Hr. unfold position_accepted, position_converts.
  by rewrite !plain_first_of.
Qed.

Lemma plain_signal r :
  plain r -> signal_accepted r = is_string (first_of r ["action"; "side"] (VString "HOLD")).
Proof.
  intros Hr. unfold signal_accepted, signal_converts.
  rewrite !plain_first_of by done. cbn [andb]. by rewrite andb_true_r.
Qed.

Lemma plain_converts r :
  plain r -> trade_converts r = true /\ signal_converts r = true /\ position_converts r = true.
Proof.
  intros Hr. unfold trade_converts, signal_converts, position_converts.
  by rewrite !plain_first_of, !plain_lookup, ?orb_true_r.
Qed.

(** X21. A normalizer returns for a record exactly when the
    conversions it applies return and, for a trade or a signal, the side
    or action is a string or missing: [Number(...)] throws for a value
    that cannot be converted to a primitive (an object with a property
    [toString] of its own, or an array with one in it), and so does the
    template literal that makes the id of a trade without one. For a
    record that holds no such value, a trade or signal is normalized
    exactly when its side or action is a string or missing, and a
    position always. *)
Theorem normalizers_return_exactly (r : gmap string value) :
  returns (normalizeTrade (VObject r)) =
    trade_converts r && is_string (first_of r ["side"; "action"; "type"] (VString "HOLD")) /\
  returns (normalizeSignal (VObject r)) =
    signal_converts r && is_string (first_of r ["action"; "side"] (VString "HOLD")) /\
  returns (normalizePosition (VObject r)) = position_converts r /\
  (plain r ->
   returns (normalizeTrade (VObject r)) =
     is_string (first_of r ["side"; "action"; "type"] (VString "HOLD")) /\
   returns (normalizeSignal (VObject r)) =
     is_string (first_of r ["action"; "side"] (VString "HOLD")) /\
   returns (normalizePosition (VObject r)) = true) /\
  returns (normalizeTrade (object [("symbol", object [("toString", VNull)])])) = false /\
  returns (normalizeSignal (object [("confidence", VArray [object [("toString", VNull)]])]))
    = false /\
  returns (normalizePosition (object [("quantity", object [("toString", VNull)])])) = false.
Proof.
  assert (returns (normalizeTrade (VObject r)) =
          trade_converts r && is_string (first_of r ["side"; "action"; "type"] (VString "HOLD")))
    as Ht.
  { rewrite normalizeTrade_object. destruct (trade_converts r); [|reflexivity].
    by destruct (first_of r ["side"; "action"; "type"] (VString "HOLD")). }
  assert (returns (normalizeSignal (VObject r)) =
          signal_converts r && is_string (first_of r ["action"; "side"] (VString "HOLD")))
    as Hs.
  { rewrite normalizeSignal_object. cbv zeta. destruct (signal_converts r); [|reflexivity].
    by destruct (first_of r ["action"; "side"] (VString "HOLD")). }
  assert (returns (normalizePosition (VObject r)) = position_converts r) as Hp.
  { rewrite normalizePosition_object. cbv zeta. by destruct (position_converts r). }
  split; [exact Ht|]. split; [exact Hs|]. split; [exact Hp|].
  split; [|repeat split; vm_compute; reflexivity].
  intros Hr. destruct (plain_converts r Hr) as (Hct & Hcs & Hcp).
  by rewrite Ht, Hs, Hp, Hct, Hcs, Hcp.
Qed.

Lemma key_returns v : returns (key v) = converts v.
Proof. unfold key, ToString_call. by destruct (converts v). Qed.

Lemma TradesTable_row_returns h (r : gmap string value) :
  returns (normalizeTrade (VObject r) ≫= TradesTable_row h) = trade_accepted r.
Proof.
  rewrite normalizeTrade_object. unfold trade_accepted.
  destruct (trade_converts r); [|reflexivity]. cbn [andb].
  destruct (first_of r ["side"; "action"; "type"] (VString "HOLD")) as [| | | |side| |];
    try reflexivity.
  cbn [toUpperCase is_string andb]. rewrite !bind_normal.
  unfold TradesTable_row. read_fields. rewrite !bind_normal.
  rewrite (first_of_default r ["id"; "trade_id"; "order_id"] (VString "")).
  rewrite (first_of_default r ["id"; "trade_id"; "order_id"] (VString (_ ++ _))).
  name_chain stamp "timestamp". name_chain ident "id". unfold formatDate_call.
  destruct (truthy stamp), (converts stamp); cbn [andb negb orb]; try reflexivity;
    rewrite !bind_normal; cbn [toLocaleString_call toFixed_call]; rewrite !bind_normal;
    match goal with
    | |- context [trade_pnl_text (VNumber ?x)] => destruct (trade_pnl_text_number x) as [s ->]
    end;
    rewrite !bind_normal, returns_then, key_returns;
    by destruct (nullish ident).
Qed.

(** X7. Given an array of objects, [TradesTable] returns exactly when
    every record is accepted: the values its quantity, price and P&L are
    read from convert to a primitive (and, when it has no id, its symbol
    and time stamp); its side ([side], [action], [type]) is a string, or
    nothing; its time stamp, if truthy, and its id convert to a
    primitive. One record that is not accepted makes the whole table
    throw. For records whose values all convert (every value but an
    object with a property [toString] of its own, or an array with one
    in it), the table returns exactly when every side is a string or
    nothing. When it returns it has one row per record, in order, the row
    of the normalized record. For null and undefined it has no rows. *)
Theorem TradesTable_needs_string_sides (h : Host) (records : list (gmap string value)) :
  returns (TradesTable h (VArray (VObject <$> records))) = forallb trade_accepted records /\
  (Forall plain records ->
   returns (TradesTable h (VArray (VObject <$> records))) =
   forallb (fun r => is_string (first_of r ["side"; "action"; "type"] (VString "HOLD")))
           records) /\
  (forall rows,
     TradesTable_rows h (VArray (VObject <$> records)) = Normal rows ->
     Forall2 (fun r row =>
                exists t, normalizeTrade (VObject r) = Normal t /\
                          TradesTable_row h t = Normal row) records rows) /\
  returns (TradesTable h (VArray [object [("quantity", object [("toString", VNull)])]]))
    = false /\
  returns (TradesTable h (VArray [object [("side", VNumber 1)]])) = false /\
  TradesTable_rows h VUndefined = Normal [] /\
  TradesTable_rows h VNull = Normal [].
Proof.
  assert (returns (TradesTable h (VArray (VObject <$> records)))
          = forallb trade_accepted records) as Hret.
  { unfold TradesTable, TradesTable_rows. rewrite coalesce_normal.
    cbn [nullish_or nullish]. rewrite bind_normal. cbn [Array_map].
    rewrite returns_then, rows_return, forallb_fmap.
    apply forallb_eq. intros r. apply TradesTable_row_returns. }
  split; [exact Hret|]. split; [|split; [|split; [|split; [|by split]]]].
  - intros Hp. rewrite Hret. clear Hret.
    induction Hp as [|r records Hr _ IH]; [reflexivity|].
    cbn [forallb]. by rewrite IH, plain_trade.
  - intros rows. unfold TradesTable_rows. rewrite coalesce_normal.
    cbn [nullish_or nullish]. rewrite bind_normal. cbn [Array_map].
    apply rows_normal.
  - reflexivity.
  - reflexivity.
Qed.

Lemma PositionsTable_row_returns h (r : gmap string value) :
  returns (normalizePosition (VObject r) ≫= PositionsTable_row h) = position_accepted r.
Proof.
  rewrite normalizePosition_object. cbv zeta. unfold position_accepted.
  destruct (position_converts r); [|reflexivity]. cbn [andb]. rewrite bind_normal.
  unfold PositionsTable_row, magnitude. read_fields. rewrite !bind_normal.
  cbn [toLocaleString_call toFixed_call]. rewrite !bind_normal.
  by rewrite returns_then, key_returns.
Qed.

(** X8. Given an array of objects, [PositionsTable] returns exactly
    when, for every record, the values its quantity, its two prices, its
    P&L and its P&L percent are read from, and its symbol, convert to a
    primitive; it takes every array of records whose values all convert.
    When it returns it has one row per record, in order, the row of the
    normalized record. For null and undefined it has no rows. *)
Theorem PositionsTable_takes_any_records (h : Host) (records : list (gmap string value)) :
  returns (PositionsTable h (VArray (VObject <$> records))) =
    forallb position_accepted records /\
  (Forall plain records ->
   returns (PositionsTable h (VArray (VObject <$> records))) = true) /\
  (forall rows,
     PositionsTable_rows h (VArray (VObject <$> records)) = Normal rows ->
     Forall2 (fun r row =>
                exists p, normalizePosition (VObject r) = Normal p /\
                          PositionsTable_row h p = Normal row) records rows) /\
  returns (PositionsTable h (VArray [object [("quantity", object [("toString", VNull)])]]))
    = false /\
  PositionsTable_rows h VUndefined = Normal [] /\
  PositionsTable_rows h VNull = Normal [].
Proof.
  assert (returns (PositionsTable h (VArray (VObject <$> records)))
          = forallb position_accepted records) as Hret.
  { unfold PositionsTable, PositionsTable_rows. rewrite coalesce_normal.
    cbn [nullish_or nullish]. rewrite bind_normal. cbn [Array_map].
    rewrite returns_then, rows_return, forallb_fmap.
    apply forallb_eq. intros r. apply PositionsTable_row_returns. }
  split; [exact Hret|]. split; [|split; [|split; [|by split]]].
  - intros Hp. rewrite Hret. clear Hret.
    induction Hp as [|r records Hr _ IH]; [reflexivity|].
    cbn [forallb]. by rewrite IH, plain_position.
  - intros rows. unfold PositionsTable_rows. rewrite coalesce_normal.
    cbn [nullish_or nullish]. rewrite bind_normal. cbn [Array_map].
    apply rows_normal.
  - reflexivity.
Qed.

Lemma SignalGrid_card_returns (r : gmap string value) :
  returns (normalizeSignal (VObject r) ≫= SignalGrid_card) = signal_accepted r.
Proof.
  rewrite normalizeSignal_object. cbv zeta. unfold signal_accepted.
  destruct (signal_converts r); [|reflexivity]. cbn [andb].
  destruct (first_of r ["action"; "side"] (VString "HOLD")) as [| | | |action| |];
    try reflexivity.
  cbn [toUpperCase is_string andb]. rewrite !bind_normal.
  unfold SignalGrid_card. read_fields. rewrite !bind_normal.
  cbn [toLowerCase]. rewrite !bind_normal.
  by rewrite returns_then, key_returns.
Qed.

(** X9. Given an array of objects, [SignalGrid] returns exactly when,
    for every record, the values its confidence and position size are
    read from, and its symbol, convert to a primitive, and its action
    ([action], [side]) is a string, or nothing; for records whose values
    all convert, exactly when every action is a string or nothing. When
    it returns it has one card per record, in order, the card of the
    normalized record. For null and undefined it has no cards. *)
Theorem SignalGrid_needs_string_actions (records : list (gmap string value))
    (modelName : string) :
  returns (SignalGrid (VArray (VObject <$> records)) modelName) =
    forallb signal_accepted records /\
  (Forall plain records ->
   returns (SignalGrid (VArray (VObject <$> records)) modelName) =
   forallb (fun r => is_string (first_of r ["action"; "side"] (VString "HOLD"))) records) /\
  (forall cards,
     SignalGrid_cards (VArray (VObject <$> records)) = Normal cards ->
     Forall2 (fun r card =>
                exists s, normalizeSignal (VObject r) = Normal s /\
                          SignalGrid_card s = Normal card) records cards) /\
  returns (SignalGrid (VArray [object [("confidence", VArray [object [("toString", VNull)]])]])
             modelName) = false /\
  SignalGrid_cards VUndefined = Normal [] /\
  SignalGrid_cards VNull = Normal [].
Proof.
  assert (returns (SignalGrid (VArray (VObject <$> records)) modelName)
          = forallb signal_accepted records) as Hret.
  { unfold SignalGrid. rewrite coalesce_normal.
    cbn [nullish_or nullish]. rewrite bind_normal. cbn [Array_map].
    assert (exists heading,
              get headings modelName <||> Normal (VString "AI Trading Agent") = Normal heading)
      as [heading Hh].
    { unfold headings. rewrite get_object, or_else_normal. by eexists. }
    pose proof (rows_return normalizeSignal SignalGrid_card (VObject <$> records)) as H.
    rewrite forallb_fmap in H.
    etransitivity; [|apply forallb_eq; intros r; apply SignalGrid_card_returns].
    rewrite <- H.
    destruct (mapM normalizeSignal (VObject <$> records)) as [ss|e]; [|reflexivity].
    by rewrite !bind_normal, Hh, bind_normal, returns_then. }
  split; [exact Hret|]. split; [|split; [|split; [|by split]]].
  - intros Hp. rewrite Hret. clear Hret.
    induction Hp as [|r records Hr _ IH]; [reflexivity|].
    cbn [forallb]. by rewrite IH, plain_signal.
  - intros cards. unfold SignalGrid_cards. rewrite coalesce_normal.
    cbn [nullish_or nullish]. rewrite bind_normal. cbn [Array_map].
    apply rows_normal.
  - reflexivity.
Qed.

(** ** What the cards and the cells show *)

Lemma both_scales_agree_to_100 : forallb both_scales_agree (seq 0 101) = true.
Proof. vm_compute. reflexivity. Qed.

(** X10. A confidence of [n] percent, for [n] from 0 to 100, is shown
    as [n%] when it arrives as the fraction [n / 100]. When it arrives
    as the number [n] it is shown as [n%] from 2 on; 1 is shown as
    [100%] and 0 as [0%]. *)
Theorem confidence_shown_on_both_scales (n : nat) :
  (n <= 100)%nat ->
  confidence_shown (object [("confidence", VNumber (float_of_nat n / 100))]) =
    Normal (percent_text n) /\
  confidence_shown (object [("confidence", VNumber (float_of_nat n))]) =
    Normal (percent_text (if (n <=? 1)%nat then 100 * n else n)).
Proof.
  intros Hn. pose proof both_scales_agree_to_100 as H.
  rewrite forallb_forall in H. specialize (H n).
  assert (In n (seq 0 101)) as Hin by (apply in_seq; lia).
  apply H in Hin. unfold both_scales_agree in Hin.
  destruct (confidence_shown (object [("confidence", VNumber (float_of_nat n / 100))]))
    as [fraction|]; [|discriminate].
  destruct (confidence_shown (object [("confidence", VNumber (float_of_nat n))]))
    as [percent|]; [|discriminate].
  apply andb_prop in Hin as [H1 H2].
  apply String.eqb_eq in H1, H2. by subst.
Qed.

Lemma confidence_witness :
  confidence_shown (object [("confidence", VNumber (float_of_nat 82 / 100))]) =
    Normal (percent_text 82).
Proof.
  assert (82 <= 100)%nat as Hn by lia.
  exact (proj1 (confidence_shown_on_both_scales 82 Hn)).
Defined.











(** ** Signed figures *)

(** A number that is not [>= 0] prints without a plus sign, whatever
    the number of digits. *)
Lemma toFixed_not_positive x f rest :
  (0 <=? x)%float = false -> String.prefix "+" (toFixed x f ++ rest) = false.
Proof.
  rewrite FloatAxioms.leb_spec. change (Prim2SF 0) with (S754_zero false).
  unfold toFixed, NumberToString.
  destruct (Prim2SF x) as [[]|[]| |[] m e]; try discriminate; reflexivity.
Qed.

Lemma append_empty s : s ++ "" = s.
Proof.
  induction s as [|c s IH]; [reflexivity|].
  change (String c (s ++ "") = String c s). by rewrite IH.
Qed.

Lemma prefix_plus r : String.prefix "+" ("+" ++ r) = true.
Proof. change ("+" ++ r) with (String "+" r). destruct r; reflexivity. Qed.

Lemma signed_percent_prefix x f :
  String.prefix "+" ((if (0 <=? x)%float then "+" else "") ++ toFixed x f ++ "%")
  = (0 <=? x)%float.
Proof.
  destruct (0 <=? x)%float eqn:E; [|by apply toFixed_not_positive].
  apply prefix_plus.
Qed.

Lemma signed_percent_not_empty x f :
  String.eqb ((if (0 <=? x)%float then "+" else "") ++ toFixed x f ++ "%") "" = false.
Proof.
  destruct (0 <=? x)%float; [reflexivity|]. cbn [append].
  by destruct (toFixed x f).
Qed.

(** X14. [StatCard] styles the delta as positive exactly when the
    text it shows for it starts with a plus sign, for every delta that
    is a number or a string. *)
Theorem StatCard_colour_matches_sign (title value delta deltaLabel icon : JS.value) :
  is_number delta = true \/ is_string delta = true ->
  exists badge figure,
    child 2 (StatCard.render title value delta deltaLabel icon) = Some badge /\
    child 0 badge = Some figure /\
    attr "className" badge =
      Some (VString ("stat-card__delta " ++
                     (if String.prefix "+" (text_of figure)
                      then "is-positive" else "is-negative"))).
Proof.
  intros Hd. unfold StatCard.render. cbn [child lookup list_lookup].
  destruct delta as [| | |x|s| |]; try (by destruct Hd); eexists _, _;
    (split; [reflexivity|]); (split; [reflexivity|]);
    cbn [attr assoc className fst snd String.eqb Ascii.eqb Bool.eqb text_of foldr shown
         StatCard.formattedDelta StatCard.isPositive is_number startsWith ToString ge_zero
         Number].
  - unfold ge_zero. cbn [Number]. by rewrite append_empty, signed_percent_prefix.
  - by rewrite append_empty.
Qed.

Lemma StatCard_witness :
  exists badge figure,
    child 2 (StatCard.render (VString "Win Rate") (VString "67.8%") (VNumber (-0.6))
               (VString "30-day rolling") (icon "ShieldCheck")) = Some badge /\
    child 0 badge = Some figure /\
    attr "className" badge =
      Some (VString ("stat-card__delta " ++
                     (if String.prefix "+" (text_of figure)
                      then "is-positive" else "is-negative"))).
Proof.
  exact (StatCard_colour_matches_sign (VString "Win Rate") (VString "67.8%") (VNumber (-0.6))
           (VString "30-day rolling") (icon "ShieldCheck") (or_introl eq_refl)).
Defined.

(** X15. [MetricTile] shows no trend when the trend is undefined,
    null or the empty string. A trend that is a number or a non-empty
    string is shown, styled as positive exactly when the text shown
    starts with a plus sign. *)
Theorem MetricTile_trend (label value sublabel trend : JS.value) :
  exists row slot,
    child 1 (MetricTile.render label value sublabel trend) = Some row /\
    child 1 row = Some slot /\
    (trend = VUndefined \/ trend = VNull \/ trend = VString "" ->
     text_of slot = "" /\ attr "className" slot = None) /\
    (is_number trend = true \/ (is_string trend = true /\ trend <> VString "") ->
     text_of slot <> "" /\
     attr "className" slot =
       Some (VString ("metric-tile__trend " ++
                      (if String.prefix "+" (text_of slot)
                       then "is-positive" else "is-negative")))).
Proof.
  unfold MetricTile.render. cbn [child lookup list_lookup]. eexists _, _.
  split; [reflexivity|]. split; [reflexivity|]. split.
  - by intros [->|[->| ->]].
  - intros [Hn|[Hs Hne]]; destruct trend as [| | |x|s| |]; try discriminate.
    + unfold and_then.
      cbn [MetricTile.formattedTrend MetricTile.isPositive is_number truthy].
      unfold ge_zero. cbn [Number]. rewrite signed_percent_not_empty. cbn [negb].
      cbn [attr assoc className fst snd String.eqb Ascii.eqb Bool.eqb text_of foldr shown].
      rewrite append_empty, signed_percent_prefix. split; [|reflexivity].
      intros H. apply String.eqb_eq in H. by rewrite signed_percent_not_empty in H.
    + unfold and_then.
      cbn [MetricTile.formattedTrend MetricTile.isPositive is_number truthy].
      destruct (String.eqb_spec s "") as [->|Hs']; cbn [negb]; [done|].
      cbn [attr assoc className fst snd String.eqb Ascii.eqb Bool.eqb text_of foldr shown
           startsWith ToString].
      by rewrite append_empty.
Qed.

(** ** The stat tiles *)

Lemma metric_object (metrics : gmap string JS.value) curve k :
  metric (object [("metrics", VObject metrics); ("equityCurve", curve)]) k =
  Normal (default VUndefined (metrics !! k)).
Proof. unfold metric. rewrite get_object. cbn [assoc String.eqb Ascii.eqb Bool.eqb default from_option id]. by rewrite bind_normal. Qed.

Lemma metric_or_sample (metrics : gmap string JS.value) curve k :
  metric (object [("metrics", VObject metrics); ("equityCurve", curve)]) k
    ?? metric mockPerformance k =
  Normal (first_of metrics [k] (read (read mockPerformance "metrics") k)).
Proof.
  rewrite metric_object. unfold coalesce. rewrite bind_normal. cbn [first_of].
  destruct (metrics !! k) as [v|]; cbn [default from_option id nullish].
  - destruct (nullish v); [|reflexivity]. reflexivity.
  - reflexivity.
Qed.

Lemma number_converts v : is_number v || converts v = converts v.
Proof. by destruct v. Qed.

Lemma formatPercent_returns v : returns (formatPercent v 1) = is_number v.
Proof.
  unfold formatPercent, Number_call.
  destruct v; try reflexivity; cbn [toFixed_call is_number];
    by destruct (converts _).
Qed.

(** The tiles of a store whose performance is an object with an
    object of metrics. *)
Lemma stat_tiles_need_numbers (h : Host) (metrics : gmap string JS.value)
    (curve : JS.value) :
  let performance := object [("metrics", VObject metrics); ("equityCurve", curve)] in
  let shown := stored_or_sample metrics in
  returns (topStats h performance) =
    converts (truthy_or (default VUndefined (metrics !! "portfolioValue")) (VNumber 247832.5))
    && converts (shown "dailyPnl") && is_number (shown "winRate") /\
  returns (secondaryStats h performance) =
    (match metrics !! "rollingSharpe" with
     | Some v => nullish v || is_number v
     | None => true
     end) && is_number (shown "maxDrawdown")
    && converts (shown "buyingPower") && converts (shown "aiConfidence") /\
  returns (stats_grid h performance) =
    returns (topStats h performance)
    && forallb (fun k => converts (shown k))
         ["portfolioChange"; "dailyPnlPercent"; "openPositionsChange"; "winRateChange"] /\
  returns (metrics_grid h performance) =
    returns (secondaryStats h performance)
    && forallb (fun k => converts (shown k)) ["sharpeRatioChange"; "maxDrawdownChange"].
Proof.
  intros performance shown. subst performance shown.
  assert (metric mockPerformance "portfolioValue" = Normal (VNumber 247832.5)) as Hpv
    by reflexivity.
  assert (metric mockPerformance "rollingSharpe" ≫= (fun r => toFixed_call r 2)
          = Normal (VString "1.84")) as Hrs by (vm_compute; reflexivity).
  assert (returns (topStats h (object [("metrics", VObject metrics); ("equityCurve", curve)]))
          = converts (truthy_or (default VUndefined (metrics !! "portfolioValue"))
                                (VNumber 247832.5))
            && converts (stored_or_sample metrics "dailyPnl")
            && is_number (stored_or_sample metrics "winRate")) as Htop.
  { unfold topStats, stored_or_sample. rewrite !metric_or_sample.
    rewrite metric_object, Hpv, or_else_normal, !bind_normal. unfold formatCurrency.
    destruct (converts (truthy_or _ _)); [|reflexivity]. rewrite !bind_normal.
    destruct (converts (first_of metrics ["dailyPnl"] _)); [|reflexivity].
    rewrite !bind_normal.
    destruct (first_of metrics ["winRate"] _); reflexivity. }
  assert (returns (secondaryStats h
                     (object [("metrics", VObject metrics); ("equityCurve", curve)]))
          = (match metrics !! "rollingSharpe" with
             | Some v => nullish v || is_number v
             | None => true
             end) && is_number (stored_or_sample metrics "maxDrawdown")
            && converts (stored_or_sample metrics "buyingPower")
            && converts (stored_or_sample metrics "aiConfidence")) as Hsec.
  { unfold secondaryStats, stored_or_sample. rewrite !metric_or_sample, metric_object, Hrs.
    unfold formatCurrency, ToString_call.
    assert (forall sharpe : completion JS.value,
              returns
                (sharpe ≫= fun rollingSharpe =>
                 Normal (first_of metrics ["sharpeRatioChange"]
                           (read (read mockPerformance "metrics") "sharpeRatioChange"))
                 ≫= fun sharpeRatioChange =>
                 formatPercent (first_of metrics ["maxDrawdown"]
                                  (read (read mockPerformance "metrics") "maxDrawdown")) 1
                 ≫= fun maxDrawdown =>
                 Normal (first_of metrics ["maxDrawdownChange"]
                           (read (read mockPerformance "metrics") "maxDrawdownChange"))
                 ≫= fun maxDrawdownChange =>
                 (if converts (first_of metrics ["buyingPower"]
                                 (read (read mockPerformance "metrics") "buyingPower"))
                  then Normal (VString (NumberFormat_format h
                         (first_of metrics ["buyingPower"]
                            (read (read mockPerformance "metrics") "buyingPower"))))
                  else Throw conversion_error)
                 ≫= fun buyingPower =>
                 (if converts (first_of metrics ["aiConfidence"]
                                 (read (read mockPerformance "metrics") "aiConfidence"))
                  then Normal (ToString (first_of metrics ["aiConfidence"]
                                 (read (read mockPerformance "metrics") "aiConfidence")))
                  else Throw conversion_error)
                 ≫= fun aiConfidence =>
                 Normal
                   [ object [ ("label", VString "Rolling Sharpe (60d)");
                              ("value", rollingSharpe);
                              ("trend", sharpeRatioChange);
                              ("sublabel", VString "Risk-adjusted performance") ];
                     object [ ("label", VString "Max Drawdown");
                              ("value", maxDrawdown);
                              ("trend", maxDrawdownChange);
                              ("sublabel", VString "Since inception") ];
                     object [ ("label", VString "Buying Power");
                              ("value", buyingPower);
                              ("trend", VNull);
                              ("sublabel", VString "Available for deployment") ];
                     object [ ("label", VString "AI Confidence");
                              ("value", VString (aiConfidence ++ "%"));
                              ("trend", VNull);
                              ("sublabel", VString "Signal agreement across models") ] ])
              = returns sharpe
                && is_number (first_of metrics ["maxDrawdown"]
                                (read (read mockPerformance "metrics") "maxDrawdown"))
                && converts (first_of metrics ["buyingPower"]
                               (read (read mockPerformance "metrics") "buyingPower"))
                && converts (first_of metrics ["aiConfidence"]
                               (read (read mockPerformance "metrics") "aiConfidence"))) as Hrest.
    { intros [v|e]; [|reflexivity]. rewrite !bind_normal. cbn [returns andb].
      rewrite <- formatPercent_returns.
      destruct (formatPercent _ 1) as [d|e]; [|reflexivity]. rewrite !bind_normal.
      cbn [returns andb].
      destruct (converts (first_of metrics ["buyingPower"] _)); [|reflexivity].
      rewrite !bind_normal.
      by destruct (converts (first_of metrics ["aiConfidence"] _)). }
    rewrite Hrest. rewrite <- !andb_assoc. f_equal.
    destruct (metrics !! "rollingSharpe") as [v|]; cbn [default from_option id].
    - destruct v; rewrite ?bind_normal; cbn [nullish toFixed_call orb is_number];
        rewrite ?coalesce_normal; reflexivity.
    - rewrite !bind_normal. cbn [nullish]. by rewrite coalesce_normal. }
  split; [exact Htop|]. split; [exact Hsec|]. clear Htop Hsec. split.
  - unfold stats_grid, topStats, stored_or_sample. rewrite !metric_or_sample.
    rewrite metric_object, Hpv, or_else_normal, !bind_normal. unfold formatCurrency.
    destruct (converts (truthy_or _ _)); [|reflexivity]. rewrite !bind_normal.
    destruct (converts (first_of metrics ["dailyPnl"] _)); [|reflexivity].
    rewrite !bind_normal.
    destruct (toFixed_call _ 1) as [winRate|e]; [|reflexivity].
    rewrite !bind_normal. cbn [returns andb forallb mapM].
    read_fields. rewrite !bind_normal. unfold StatCard_call. rewrite !number_converts.
    convert "portfolioChange". convert "dailyPnlPercent". convert "openPositionsChange".
    by destruct (converts _).
  - unfold metrics_grid, secondaryStats, stored_or_sample.
    rewrite !metric_or_sample, metric_object, Hrs.
    unfold formatCurrency, ToString_call.
    destruct (_ ?? _) as [rollingSharpe|e]; [|reflexivity]. rewrite !bind_normal.
    destruct (formatPercent _ 1) as [maxDrawdown|e]; [|reflexivity]. rewrite !bind_normal.
    destruct (converts (first_of metrics ["buyingPower"] _)); [|reflexivity].
    rewrite !bind_normal.
    destruct (converts (first_of metrics ["aiConfidence"] _)); [|reflexivity].
    rewrite !bind_normal. cbn [returns andb forallb mapM].
    read_fields. rewrite !bind_normal. unfold MetricTile_call. rewrite !number_converts.
    cbn [converts is_number orb].
    convert "sharpeRatioChange".
    by destruct (converts _).
Qed.

Lemma step_performance e a a' :
  step e a = Some a' ->
  performance (state a') = performance (state a) \/
  performance (state a') = mockPerformance \/
  exists p, performance (state a') = live_performance p.
Proof.
  destruct e as [|m| |i f|].
  - cbn [step]. destruct (mounted a || _); [discriminate|]. rewrite run_signals_effect_eq.
    intros <-%Some_eq. left. cbn [with_state state performance].
    by destruct (run_effect_spec (App (selectedModel a) (state a) (runs a) (refreshInterval a)
                                      (in_flight a) true)) as (_ & (-> & _) & _).
  - cbn [step]. destruct (negb (mounted a)); [discriminate|].
    destruct (String.eqb m (selectedModel a)); [intros [= <-]; by left|].
    rewrite run_signals_effect_eq.
    intros <-%Some_eq. left. cbn [with_state state performance].
    destruct (run_effect_spec (cleanup (App m (state a) (runs a) (refreshInterval a)
                                            (in_flight a) (mounted a)))) as (_ & (-> & _) & _).
    by rewrite cleanup_state.
  - cbn [step]. destruct (refreshInterval a) as [[k ms]|]; [|discriminate]. intros [= <-].
    left. by destruct (call_fetch_data k a) as (-> & _).
  - intros Hstep. destruct (is_active a i) eqn:Hact.
    + destruct (is_active_inv a i Hact) as (k & m & Hi & Hk).
      destruct (settle_active a a' i f k m Hi Hk Hstep) as [(-> & _) _].
      right. destruct (gateway_success f); [right; by eexists|by left].
    + left. by destruct (settle_inactive a a' i f Hact Hstep) as (-> & _).
  - cbn [step]. destruct (mounted a); [|discriminate]. intros [= <-]. left.
    cbn [state]. by rewrite cleanup_state.
Qed.

Lemma reachable_has_metrics a : reachable a -> has_metrics (performance (state a)).
Proof.
  intros (a0 & es & H0 & Hrun). rewrite initial_eq in H0. injection H0 as <-.
  assert (has_metrics (performance (state (App "tech"
            (Store mockPerformance (baseline_signals "tech") mockTrades mockPositions false mock)
            [] None [] false)))) as H0 by (by eexists _, _).
  revert H0 Hrun. generalize (App "tech" (Store mockPerformance (baseline_signals "tech")
                                                mockTrades mockPositions false mock)
                                  [] None [] false).
  induction es as [|e es IH]; intros a0 H0; cbn [run]; [by intros [= <-]|].
  destruct (step e a0) as [a1|] eqn:E; [|discriminate].
  apply IH. destruct (step_performance e a0 a1 E) as [->|[->|[p ->]]];
    [exact H0|by eexists _, _|by eexists _, _].
Qed.

Lemma read_object fields k : read (object fields) k = default VUndefined (assoc k fields).
Proof. unfold read. by rewrite get_object. Qed.

Lemma stored_or_sample_eq (metrics : gmap string JS.value) curve k :
  stored_or_sample metrics k =
  nullish_or (read (read (object [("metrics", VObject metrics); ("equityCurve", curve)])
                         "metrics") k)
             (read (read mockPerformance "metrics") k).
Proof.
  rewrite read_object.
  cbn [assoc String.eqb Ascii.eqb Bool.eqb default from_option id].
  unfold stored_or_sample, nullish_or.
  change (read (VObject metrics) k) with (default VUndefined (metrics !! k)).
  cbn [first_of].
  destruct (metrics !! k) as [v|]; cbn [default from_option id nullish]; [|reflexivity].
  by destruct (nullish v).
Qed.

(** X16. In every state the component can reach, the performance
    stored is an object with an object of metrics, so that reading a
    metric never throws. With every metric read as the tiles read it (the
    one stored, or the sample one when none is stored; for the portfolio
    value, when the one stored is falsy): computing the top tiles returns
    exactly when the win rate is a number and the portfolio value and the
    daily P&L convert to a primitive; computing the secondary tiles
    returns exactly when the rolling Sharpe ratio stored is missing or a
    number, the max drawdown is a number, and the buying power and the AI
    confidence convert to a primitive. The calls of [StatCard] on the top
    tiles return exactly when, moreover, the four deltas convert to a
    primitive, and the calls of [MetricTile] on the secondary tiles
    exactly when the two trends do. *)
Theorem stat_tiles_of_the_store (h : Host) (a : app) :
  reachable a ->
  let stored k := read (read (performance (state a)) "metrics") k in
  let sample k := read (read mockPerformance "metrics") k in
  let shown k := nullish_or (stored k) (sample k) in
  (forall k, returns (metric (performance (state a)) k) = true) /\
  returns (topStats h (performance (state a))) =
    converts (truthy_or (stored "portfolioValue") (sample "portfolioValue"))
    && converts (shown "dailyPnl") && is_number (shown "winRate") /\
  returns (secondaryStats h (performance (state a))) =
    (nullish (stored "rollingSharpe") || is_number (stored "rollingSharpe"))
    && is_number (shown "maxDrawdown")
    && converts (shown "buyingPower") && converts (shown "aiConfidence") /\
  returns (stats_grid h (performance (state a))) =
    returns (topStats h (performance (state a)))
    && (converts (shown "portfolioChange") && converts (shown "dailyPnlPercent")
        && converts (shown "openPositionsChange") && converts (shown "winRateChange")) /\
  returns (metrics_grid h (performance (state a))) =
    returns (secondaryStats h (performance (state a)))
    && (converts (shown "sharpeRatioChange") && converts (shown "maxDrawdownChange")) /\
  sample "portfolioValue" = VNumber 247832.5 /\
  sample "winRate" = VNumber 67.8 /\ sample "maxDrawdown" = VNumber (-5.2).
Proof.
  intros Hr stored sample shown. subst stored sample shown. cbv beta.
  destruct (reachable_has_metrics a Hr) as (metrics & curve & ->).
  destruct (stat_tiles_need_numbers h metrics curve) as (Ht & Hs & Hg & Hm).
  cbv zeta in Ht, Hs, Hg, Hm. cbn [forallb] in Hg, Hm.
  rewrite !andb_true_r in Hg, Hm.
  rewrite <- !andb_assoc. rewrite <- !stored_or_sample_eq.
  assert (forall k, read (read (object [("metrics", VObject metrics); ("equityCurve", curve)])
                             "metrics") k = default VUndefined (metrics !! k)) as Hread.
  { intros k. rewrite read_object.
    by cbn [assoc String.eqb Ascii.eqb Bool.eqb default from_option id]. }
  rewrite !Hread.
  change (read (read mockPerformance "metrics") "portfolioValue") with (VNumber 247832.5).
  split; [intros k; by rewrite metric_object|].
  split; [by rewrite Ht, <- !andb_assoc|].
  split; [|by repeat split].
  rewrite Hs, <- !andb_assoc. f_equal.
  by destruct (metrics !! "rollingSharpe").
Qed.

Lemma stat_tiles_witness :
  returns (stats_grid plain_host (performance (state live_app))) = true /\
  returns (metrics_grid plain_host (performance (state live_app))) = true.
Proof.
  destruct (stat_tiles_of_the_store plain_host live_app live_app_reachable)
    as (_ & _ & _ & Hg & Hm & _).
  split; [rewrite Hg|rewrite Hm]; vm_compute; reflexivity.
Defined.

(** X17. When computing the top tiles returns, the Portfolio Value
    tile shows the sample value 247832.5, as the host formats it, whenever
    the portfolio value stored is falsy (missing, null, 0, NaN), and a
    truthy value as the host formats it. The Daily P&L tile shows the
    value stored whenever it is not null or undefined, 0 included. *)
Theorem portfolio_value_falls_back_when_zero (h : Host) (metrics : gmap string JS.value)
    (curve : JS.value) (stats : list JS.value) :
  topStats h (object [("metrics", VObject metrics); ("equityCurve", curve)]) = Normal stats ->
  exists portfolio daily,
    stats !! 0%nat = Some portfolio /\ stats !! 1%nat = Some daily /\
    (truthy (default VUndefined (metrics !! "portfolioValue")) = false ->
     get portfolio "value" = formatCurrency h (VNumber 247832.5)) /\
    (forall v, metrics !! "portfolioValue" = Some v -> truthy v = true ->
     get portfolio "value" = formatCurrency h v) /\
    (forall v, metrics !! "dailyPnl" = Some v -> nullish v = false ->
     get daily "value" = formatCurrency h v) /\
    returns (get portfolio "value") = true /\ returns (get daily "value") = true.
Proof.
  unfold topStats. rewrite !metric_or_sample, metric_object.
  assert (metric mockPerformance "portfolioValue" = Normal (VNumber 247832.5)) as ->
    by reflexivity.
  rewrite or_else_normal, !bind_normal.
  destruct (formatCurrency h (truthy_or _ _)) as [portfolioValue|e] eqn:Hpv; [|discriminate].
  rewrite !bind_normal.
  destruct (formatCurrency h (first_of metrics ["dailyPnl"] _)) as [dailyPnl|e] eqn:Hdp;
    [|discriminate].
  rewrite !bind_normal.
  destruct (toFixed_call _ 1) as [winRate|e]; [|discriminate].
  rewrite !bind_normal. intros <-%Normal_eq.
  eexists _, _. split; [reflexivity|]. split; [reflexivity|].
  read_fields. split; [|split; [|split; [|by split]]].
  - intros Hf. rewrite <- Hpv. unfold truthy_or. by rewrite Hf.
  - intros v Hv Ht. rewrite <- Hpv. unfold truthy_or. rewrite Hv.
    cbn [default from_option id]. by rewrite Ht.
  - intros v Hv Hn. rewrite <- Hdp. cbn [first_of]. by rewrite Hv, Hn.
Qed.

Lemma portfolio_value_witness :
  exists stats portfolio,
    topStats plain_host
      (object [ ("metrics", object [("portfolioValue", VNumber 0)]);
                ("equityCurve", VArray []) ]) = Normal stats /\
    stats !! 0%nat = Some portfolio /\
    get portfolio "value" = Normal (VString "247832.5").
Proof.
  destruct (topStats plain_host
              (object [ ("metrics", object [("portfolioValue", VNumber 0)]);
                        ("equityCurve", VArray []) ])) as [stats|e] eqn:Hs;
    [|vm_compute in Hs; discriminate].
  destruct (portfolio_value_falls_back_when_zero plain_host
              (list_to_map [("portfolioValue", VNumber 0)]) (VArray []) stats Hs)
    as (portfolio & daily & H0 & _ & Hz & _).
  exists stats, portfolio. split; [reflexivity|]. split; [exact H0|].
  rewrite Hz; vm_compute; reflexivity.
Defined.

(** ** The tabs *)

(** X18. Once the identifier that a button of [TabSwitcher] passes
    to [onChange] is the active tab, that button is styled as active and
    no other is. *)
Theorem TabSwitcher_highlights_the_clicked_tab (activeTab : JS.value) (i : nat)
    (button : node) :
  child i (TabSwitcher activeTab) = Some button ->
  exists clicked,
    attr "onClick" button = Some clicked /\
    forall j other,
      child j (TabSwitcher clicked) = Some other ->
      attr "className" other =
        Some (VString ("tab-switcher__button " ++
                       (if bool_decide (j = i) then "is-active" else ""))).
Proof.
  unfold TabSwitcher at 1. cbn [child tabs fmap list_fmap].
  destruct i as [|[|[|i]]]; cbn [lookup list_lookup]; intros [= <-];
    eexists; (split; [reflexivity|]);
    intros [|[|[|j]]] other; cbn; intros [= <-]; reflexivity.
Qed.

Lemma TabSwitcher_witness :
  exists clicked,
    attr "onClick"
      (Elem "button"
         [ ("key", VString "signals"); ("type", VString "button");
           className "tab-switcher__button "; ("onClick", VString "signals") ]
         [Expr (VString "AI Signals")]) = Some clicked /\
    forall j other,
      child j (TabSwitcher clicked) = Some other ->
      attr "className" other =
        Some (VString ("tab-switcher__button " ++
                       (if bool_decide (j = 1%nat) then "is-active" else ""))).
Proof.
  apply (TabSwitcher_highlights_the_clicked_tab (VString "performance") 1).
  vm_compute. reflexivity.
Defined.

(** X19. A trade with no [id], [trade_id] or [order_id] gets the key
    [`${trade.symbol}-${trade.timestamp}`], built from the properties
    [symbol] and [timestamp] alone: records that arrive under the alias
    names [ticker] and [filled_at] all get the key
    [undefined-undefined]. *)
Theorem trade_key_ignores_aliases (h : Host) (trade : gmap string value) (t : value)
    (row : node) :
  normalizeTrade (VObject trade) = Normal t ->
  TradesTable_row h t = Normal row ->
  Forall (missing trade) ["id"; "trade_id"; "order_id"] ->
  attr "key" row =
    Some (VString (ToString (default VUndefined (trade !! "symbol")) ++ "-" ++
                   ToString (default VUndefined (trade !! "timestamp")))) /\
  (trade !! "symbol" = None -> trade !! "timestamp" = None ->
   attr "key" row = Some (VString "undefined-undefined")).
Proof.
  intros Ht Hrow Hid.
  assert (attr "key" row =
          Some (VString (ToString (default VUndefined (trade !! "symbol")) ++ "-" ++
                         ToString (default VUndefined (trade !! "timestamp"))))) as Hkey.
  { returned Ht.
    destruct (toUpperCase _) as [side|e]; [|discriminate]. rewrite bind_normal in Ht.
    rewrite (first_of_missing _ _ _ Hid) in Ht.
    set (id := _ ++ _) in *. clearbody id.
    apply Normal_eq in Ht. subst t.
    unfold TradesTable_row in Hrow. revert Hrow. read_fields. rewrite !bind_normal.
    destruct (formatDate_call h _) as [date|e]; [|discriminate]. rewrite !bind_normal.
    cbn [toLocaleString_call toFixed_call]. rewrite !bind_normal.
    destruct (trade_pnl_text _) as [pnl_text|e]; [|discriminate]. rewrite !bind_normal.
    by intros <-%Normal_eq. }
  split; [exact Hkey|]. intros Hs Hts. by rewrite Hkey, Hs, Hts.
Qed.

Lemma trade_key_witness :
  exists row,
    (normalizeTrade (VObject aliased_trade) ≫= TradesTable_row plain_host) = Normal row /\
    attr "key" row = Some (VString "undefined-undefined").
Proof.
  set (t := object [ ("id", VString "undefined-undefined");
                     ("timestamp", VString "2025-11-10T14:35:00Z");
                     ("symbol", VString "AAPL"); ("side", VString "HOLD");
                     ("quantity", VNumber 0); ("price", VNumber 0); ("pnl", VNumber 0);
                     ("model", VString "AI Agent") ]).
  assert (normalizeTrade (VObject aliased_trade) = Normal t) as Ht by (vm_compute; reflexivity).
  destruct (TradesTable_row plain_host t) as [row|e] eqn:Hrow; [|vm_compute in Hrow; discriminate].
  exists row. rewrite Ht. split; [exact Hrow|].
  assert (Forall (missing aliased_trade) ["id"; "trade_id"; "order_id"]) as Hid
    by (repeat (constructor; [vm_compute; exact I|]); constructor).
  apply (proj2 (trade_key_ignores_aliases plain_host aliased_trade t row Ht Hrow Hid));
    vm_compute; reflexivity.
Defined.



